(** * WebAlumni: the normalization and aggregation engine of [app.py]

    A shallow embedding of the text normalizers, the record filters, the
    cross-tab aggregator and the banner roster diff of [src/app.py], and
    the properties of those functions; then of the loader, the preview
    routes, the simple mode of the QAA report and its breakdown by gender
    and nationality.

    Conventions of the embedding.
    - A Python [str] is a Rocq [string]; the model covers ASCII text
      ([Py.isascii]), on which [upper], [lower], [capitalize], [strip] and
      the classes [\d], [\w] and [\b] of [re] are those of Python: they act
      on the ASCII letters and digits and on the ASCII white space
      ([\t \n \v \f \r], [\x1c]-[\x1f] and the blank).  Outside ASCII
      Python maps more letters ([upper] of the sharp s is [SS]) and knows
      more digits and white space, so a property that rests on the case
      maps or on the digits is stated of ASCII text.
    - A [float64] is a binary64 float of Rocq ([PrimFloat]), with the
      operations of IEEE 754 in the rounding to nearest, ties to even.
    - A cell that may hold something else than a string is a [pyval].
    - A roster [DataFrame] is the list of its column names and the list of
      its rows, a row being the dict of its cells; a frame of numbers (a
      sheet of a report) is a header and a list of labelled rows of cells.
    - The reports and the previews are modelled on the frame cached for an
      alumni file ([is_alumni_roster]), which has every column they read.
      [load_excel_data] caches a Banner file as well; its frame lacks
      [Current Status], [Current Workplace] and the year column, and there
      the code raises a [KeyError] that the model does not follow.
    - The process-wide dict [session_data] is a [gmap]; a function that
      writes into a cached frame returns the store as well.
    - An exception is a value of [exn]; a function written under
      [try: ... except Exception as e: return {"error": ...}] returns
      [Error msg] or [Success payload].
    - [print] is modelled by the list of the printed lines. *)

From Stdlib Require Import PrimFloat.
From Stdlib Require Import ZArith Ascii List Lia.
From Stdlib Require DecimalString Uint63.
From stdpp Require Import base list strings gmap sorting.

Local Open Scope Z_scope.
Set Warnings "-inexact-float".

(** ** Python string primitives *)

Module Py.

Definition code (c : ascii) : N := N_of_ascii c.

(** [str.isspace] on one ASCII character. *)
Definition is_space (c : ascii) : bool :=
  let n := code c in
  ((9 <=? n) && (n <=? 13) || (28 <=? n) && (n <=? 32))%N.

Definition is_lower (c : ascii) : bool :=
  let n := code c in ((97 <=? n) && (n <=? 122))%N.

Definition is_upper (c : ascii) : bool :=
  let n := code c in ((65 <=? n) && (n <=? 90))%N.

Definition is_digit (c : ascii) : bool :=
  let n := code c in ((48 <=? n) && (n <=? 57))%N.

(** The class [\w] of [re] on ASCII text. *)
Definition is_word (c : ascii) : bool :=
  is_lower c || is_upper c || is_digit c || (code c =? 95)%N.

(** [str.isascii]: every character is below [U+0080]. *)
Fixpoint isascii (s : string) : bool :=
  match s with
  | EmptyString => true
  | String c s' => (code c <? 128)%N && isascii s'
  end.

Definition upper_char (c : ascii) : ascii :=
  if is_lower c then ascii_of_N (code c - 32) else c.

Definition lower_char (c : ascii) : ascii :=
  if is_upper c then ascii_of_N (code c + 32) else c.

Fixpoint map_chars (f : ascii -> ascii) (s : string) : string :=
  match s with
  | EmptyString => EmptyString
  | String c s' => String (f c) (map_chars f s')
  end.

Definition upper : string -> string := map_chars upper_char.
Definition lower : string -> string := map_chars lower_char.

(** [str.capitalize]: first character upper-cased, the rest lower-cased. *)
Definition capitalize (s : string) : string :=
  match s with
  | EmptyString => EmptyString
  | String c s' => String (upper_char c) (lower s')
  end.

Definition is_empty (s : string) : bool :=
  match s with EmptyString => true | _ => false end.

Fixpoint lstrip (s : string) : string :=
  match s with
  | EmptyString => EmptyString
  | String c s' => if is_space c then lstrip s' else s
  end.

Fixpoint rstrip (s : string) : string :=
  match s with
  | EmptyString => EmptyString
  | String c s' =>
      let r := rstrip s' in
      if is_space c && is_empty r then EmptyString else String c r
  end.

Definition strip (s : string) : string := rstrip (lstrip s).

(** [s.startswith(p)] *)
Fixpoint startswith (p s : string) : bool :=
  match p, s with
  | EmptyString, _ => true
  | String a p', String b s' => if Ascii.eqb a b then startswith p' s' else false
  | String _ _, EmptyString => false
  end.

(** [sub in s] *)
Fixpoint contains (sub s : string) : bool :=
  startswith sub s ||
  match s with
  | EmptyString => false
  | String _ s' => contains sub s'
  end.

(** [s.replace(old, new)] for a non-empty [old]: the occurrences are
    replaced from the left and do not overlap.  [skip] counts the
    characters of a replaced occurrence that are still to be dropped. *)
Fixpoint replace_from (old new : string) (skip : nat) (s : string) : string :=
  match s with
  | EmptyString => EmptyString
  | String c s' =>
      match skip with
      | S k => replace_from old new k s'
      | O =>
          if startswith old s
          then new +:+ replace_from old new (Nat.pred (String.length old)) s'
          else String c (replace_from old new O s')
      end
  end.

(** [s.replace("", new)] puts [new] before every character and at the end. *)
Fixpoint intersperse (new s : string) : string :=
  match s with
  | EmptyString => new
  | String c s' => new +:+ String c (intersperse new s')
  end.

Definition replace (old new s : string) : string :=
  if is_empty old then intersperse new s else replace_from old new O s.

(** [x in l] for a list of strings. *)
Definition mem (x : string) (l : list string) : bool :=
  existsb (String.eqb x) l.

(** [d.get(k)] on a dict literal kept in insertion order. *)
Fixpoint dict_get {A} (k : string) (d : list (string * A)) : option A :=
  match d with
  | [] => None
  | (k', v) :: d' => if String.eqb k k' then Some v else dict_get k d'
  end.

(** [re.search(r'\b' + re.escape(kw) + r'\b', s)].  [prev] is the
    character before the current position, [None] at the start; [\b]
    holds where exactly one of the two neighbours is a word character. *)
Definition is_word_opt (c : option ascii) : bool :=
  match c with Some c => is_word c | None => false end.

Definition first_char (s : string) : option ascii :=
  match s with EmptyString => None | String c _ => Some c end.

Fixpoint last_char_from (prev : option ascii) (s : string) : option ascii :=
  match s with
  | EmptyString => prev
  | String c s' => last_char_from (Some c) s'
  end.

Fixpoint drop (n : nat) (s : string) : string :=
  match n, s with
  | O, _ => s
  | S n', String _ s' => drop n' s'
  | S _, EmptyString => EmptyString
  end.

Definition boundary (before after : option ascii) : bool :=
  xorb (is_word_opt before) (is_word_opt after).

Definition word_match_here (kw : string) (prev : option ascii) (s : string) : bool :=
  startswith kw s &&
  boundary prev (first_char (kw +:+ s)) &&
  boundary (last_char_from prev kw) (first_char (drop (String.length kw) s)).

Fixpoint search_word_from (kw : string) (prev : option ascii) (s : string) : bool :=
  word_match_here kw prev s ||
  match s with
  | EmptyString => false
  | String c s' => search_word_from kw (Some c) s'
  end.

Definition search_word (kw s : string) : bool := search_word_from kw None s.

End Py.

(** ** Python values that reach the normalizers *)

Inductive pyval : Type :=
  | PyNone
  | PyNaN
  | PyInt (n : Z)
  | PyStr (s : string).

(** [pd.isna(v)] on a scalar. *)
Definition isna (v : pyval) : bool :=
  match v with PyNone | PyNaN => true | _ => false end.

Definition is_str (v : pyval) : bool :=
  match v with PyStr _ => true | _ => false end.

(** A value that is ASCII text when it is a string. *)
Definition isascii_value (v : pyval) : bool :=
  match v with PyStr s => Py.isascii s | _ => true end.

(** ** Constants *)

Definition expected_current_status : list string :=
  [ "Employed"; "Employed - add to list"; "Business owner"; "Training";
    "Do not contact"; "Others"; "Left the country"; "Passed away";
    "Unemployed"; "Studying"; "New graduate" ].

(** ** Helper functions *)

Definition clean_status (status : pyval) : string :=
  match status with
  | PyStr s => Py.capitalize (Py.lower (Py.strip s))
  | _ => "Unknown"
  end.

(** *** Company names *)

Definition empty_patterns : list (string * list string) :=
  [ ("COMPLETELY EMPTY",
      [ ""; "-"; "."; " "; "..."; "*"; "#"; "//" ]);
    ("PLACEHOLDER",
      [ "#N/A"; "N/A"; "NA"; "N.A."; "N/A."; "NONE"; "NIL";
        "NOT APPLICABLE"; "NOT AVAILABLE"; "UNKNOWN" ]);
    ("CONFIDENTIAL",
      [ "CONFIDENTIAL"; "CONFIDENTIAL GOVERNMENT"; "GOVERNMENT";
        "GOVERNMENT SECTOR"; "CONFIDENTIAL (STEALTH MODE)";
        "CONFIDENTIAL ( STEALTH MODE )"; "CONFIDENTIAL COMPANY";
        "CANNOT DISCLOSE"; "UNDISCLOSED" ]);
    ("OTHERS",
      [ "OTHERS"; "OTHER"; "MISC"; "MISCELLANEOUS"; "TBD";
        "TO BE DETERMINED"; "PENDING" ]);
    ("NOT WORKING",
      [ "NOT WORKING"; "UNEMPLOYED"; "NO JOB"; "NO WORK";
        "LOOKING FOR JOB"; "SEEKING EMPLOYMENT" ]) ].

Definition company_aliases : list (string * string) :=
  [ ("SNB", "SAUDI NATIONAL BANK");
    ("SAUDI NATIONAL BANK", "SAUDI NATIONAL BANK");
    ("SNB CAPITAL", "SAUDI NATIONAL BANK");
    ("THE SAUDI NATIONAL BANK", "SAUDI NATIONAL BANK");
    ("NCB", "SAUDI NATIONAL BANK");
    ("BSF", "BANQUE SAUDI FRANSI");
    ("BANQUE SAUDI FRANSI", "BANQUE SAUDI FRANSI");
    ("BANQUE SAUDI FRANSI CAPITAL", "BANQUE SAUDI FRANSI");
    ("FRANSI CAPITAL", "BANQUE SAUDI FRANSI");
    ("SAB", "SAUDI BRITISH BANK");
    ("SABB", "SAUDI BRITISH BANK");
    ("BANK SAB", "SAUDI BRITISH BANK");
    ("PIF", "PUBLIC INVESTMENT FUND");
    ("PUBLIC INVESTMENT FUND - PIF", "PUBLIC INVESTMENT FUND");
    ("SAMA", "SAUDI CENTRAL BANK");
    ("SAUDI CENTRAL BANK - SAMA", "SAUDI CENTRAL BANK");
    ("SIDF", "SAUDI INDUSTRIAL DEVELOPMENT FUND");
    ("SAUDI INDUSTRIAL DEVELOPMENT FUND - SIDF", "SAUDI INDUSTRIAL DEVELOPMENT FUND");
    ("BCG", "BOSTON CONSULTING GROUP");
    ("BOSTON CONSULTING GROUP (BCG)", "BOSTON CONSULTING GROUP");
    ("EY", "ERNST & YOUNG");
    ("ERNST & YOUNG (EY)", "ERNST & YOUNG");
    ("PWC", "PRICEWATERHOUSECOOPERS");
    ("KFSH&RC", "KING FAISAL SPECIALIST HOSPITAL & RESEARCH CENTER");
    ("KFSHRC", "KING FAISAL SPECIALIST HOSPITAL & RESEARCH CENTER");
    ("KFSH", "KING FAISAL SPECIALIST HOSPITAL & RESEARCH CENTER");
    ("KING FAISAL SPECIALIST HOSPITAL", "KING FAISAL SPECIALIST HOSPITAL & RESEARCH CENTER");
    ("HABIB", "DR. SULAIMAN AL HABIB MEDICAL GROUP");
    ("DR. SULAIMAN AL HABIB", "DR. SULAIMAN AL HABIB MEDICAL GROUP");
    ("STC", "SAUDI TELECOM COMPANY");
    ("SAUDI TELECOM", "SAUDI TELECOM COMPANY");
    ("HPE", "HEWLETT PACKARD ENTERPRISE");
    ("HEWLETT PACKARD ENTERPRISE - HPE", "HEWLETT PACKARD ENTERPRISE");
    ("ARAMCO", "SAUDI ARAMCO");
    ("SAUDI ARAMCO", "SAUDI ARAMCO");
    ("SABIC", "SAUDI BASIC INDUSTRIES CORPORATION");
    ("MINISTRY OF HEALTH", "MINISTRY OF HEALTH");
    ("MINISTRY OF HEALTH ", "MINISTRY OF HEALTH") ].

Definition remove_words : list string :=
  [ "LTD"; "LIMITED"; "CORPORATION"; "CORP"; "INC"; "LLC"; "CO";
    "COMPANY"; "GROUP"; "HOLDING"; "HOLDINGS"; "INTERNATIONAL";
    "SAUDI ARABIA"; "KSA"; "MIDDLE EAST" ].

(** [for category, patterns in empty_patterns.items(): if name in patterns:
    return f"EMPTY ({category})"] *)
Fixpoint match_empty_pattern (name : string) (tbl : list (string * list string))
  : option string :=
  match tbl with
  | [] => None
  | (category, patterns) :: tbl' =>
      if Py.mem name patterns then Some ("EMPTY (" +:+ category +:+ ")")
      else match_empty_pattern name tbl'
  end.

(** [for word in remove_words: name = name.replace(f' {word}', '')] *)
Definition strip_remove_words (name : string) : string :=
  fold_left (fun acc word => Py.replace (" " +:+ word) "" acc) remove_words name.

(** The body of [normalize_company_name] after [name = name.strip().upper()]. *)
Definition normalize_cleaned (name : string) : string :=
  match match_empty_pattern name empty_patterns with
  | Some sentinel => sentinel
  | None =>
      match Py.dict_get name company_aliases with
      | Some canonical => canonical
      | None =>
          let name := strip_remove_words name in
          if Py.contains "NATIONAL GUARD" name && Py.contains "HEALTH" name
          then "MINISTRY OF NATIONAL GUARD HEALTH AFFAIRS"
          else if Py.contains "KING FAHAD MEDICAL" name
          then "KING FAHAD MEDICAL CITY"
          else Py.strip name
      end
  end.

Definition normalize_company_name (name : pyval) : string :=
  match name with
  | PyNone | PyNaN => "EMPTY (NULL)"
  | PyInt _ => "EMPTY (INVALID TYPE)"
  | PyStr s => normalize_cleaned (Py.upper (Py.strip s))
  end.

(** *** Job titles *)

Definition high_position_mapping : list (string * string) :=
  [ ("CEO", "CHIEF EXECUTIVE OFFICER");
    ("CHIEF EXECUTIVE OFFICER", "CHIEF EXECUTIVE OFFICER");
    ("PRESIDENT", "PRESIDENT");
    ("CFO", "CHIEF FINANCIAL OFFICER");
    ("CHIEF FINANCIAL OFFICER", "CHIEF FINANCIAL OFFICER");
    ("CTO", "CHIEF TECHNOLOGY OFFICER");
    ("CHIEF TECHNOLOGY OFFICER", "CHIEF TECHNOLOGY OFFICER");
    ("CIO", "CHIEF INFORMATION OFFICER");
    ("CHIEF INFORMATION OFFICER", "CHIEF INFORMATION OFFICER");
    ("COO", "CHIEF OPERATING OFFICER");
    ("CHIEF OPERATING OFFICER", "CHIEF OPERATING OFFICER");
    ("CMO", "CHIEF MARKETING OFFICER");
    ("CHIEF MARKETING OFFICER", "CHIEF MARKETING OFFICER");
    ("CHIEF", "CHIEF");
    ("DIRECTOR", "DIRECTOR");
    ("EXECUTIVE DIRECTOR", "EXECUTIVE DIRECTOR");
    ("MANAGING DIRECTOR", "MANAGING DIRECTOR");
    ("BOARD MEMBER", "BOARD MEMBER");
    ("VP", "VICE PRESIDENT");
    ("VICE PRESIDENT", "VICE PRESIDENT");
    ("SVP", "SENIOR VICE PRESIDENT");
    ("SENIOR VICE PRESIDENT", "SENIOR VICE PRESIDENT");
    ("EVP", "EXECUTIVE VICE PRESIDENT");
    ("EXECUTIVE VICE PRESIDENT", "EXECUTIVE VICE PRESIDENT");
    ("HEAD", "HEAD");
    ("DEPARTMENT HEAD", "DEPARTMENT HEAD");
    ("DIVISION HEAD", "DIVISION HEAD");
    ("GENERAL MANAGER", "GENERAL MANAGER");
    ("PARTNER", "PARTNER");
    ("SENIOR MANAGER", "SENIOR MANAGER");
    ("PRINCIPAL", "PRINCIPAL");
    ("FOUNDER", "FOUNDER");
    ("CO-FOUNDER", "CO-FOUNDER");
    ("OWNER", "OWNER") ].

Definition position_placeholders : list string :=
  [ "-"; "N/A"; "NA"; "NONE"; "NOT APPLICABLE"; "UNKNOWN" ].

Definition guarded_keywords : list string := [ "HEAD"; "CHIEF"; "OWNER" ].

Definition leadership_context : list string :=
  [ "OF"; "DEPARTMENT"; "DIVISION"; "TEAM" ].

(** [any(context in position for context in leadership_context)] *)
Definition has_leadership_context (position : string) : bool :=
  existsb (fun context => Py.contains context position) leadership_context.

(** [keyword in ['HEAD', 'CHIEF', 'OWNER'] and len(keyword) < 5] *)
Definition needs_context (keyword : string) : bool :=
  Py.mem keyword guarded_keywords && (String.length keyword <? 5)%nat.

(** The loop over [high_position_mapping.items()]: a keyword found as a
    whole word returns its normalized title, unless it needs a leadership
    context that the position lacks; the loop then goes on. *)
Fixpoint scan_keywords (position : string) (tbl : list (string * string))
  : option string :=
  match tbl with
  | [] => None
  | (keyword, normalized) :: tbl' =>
      if Py.search_word keyword position then
        if needs_context keyword then
          if has_leadership_context position then Some normalized
          else scan_keywords position tbl'
        else Some normalized
      else scan_keywords position tbl'
  end.

Definition is_high_position (position : pyval) : option string :=
  match position with
  | PyStr s =>
      let position := Py.upper (Py.strip s) in
      if Py.is_empty position || Py.mem position position_placeholders then None
      else
        match Py.dict_get position high_position_mapping with
        | Some normalized => Some normalized
        | None => scan_keywords position high_position_mapping
        end
  | _ => None
  end.

(** ** Exceptions and responses *)

Inductive exn : Type :=
  | KeyError (key : string)
  | KeyError_not_in_index (key : string).

Definition double_quote : string := String "034"%char EmptyString.

(** [str(e)]: a [KeyError] prints the [repr] of its argument, the key for
    [df[key]] and the message [['key'] not in index] for [df[[..., key]]]. *)
Definition str_exn (e : exn) : string :=
  match e with
  | KeyError key => "'" +:+ key +:+ "'"
  | KeyError_not_in_index key =>
      double_quote +:+ "['" +:+ key +:+ "'] not in index" +:+ double_quote
  end.

(** A computation that returns a value or raises. *)
Definition M (A : Type) : Type := (exn + A)%type.

Definition ret {A} (a : A) : M A := inr a.
Definition raise {A} (e : exn) : M A := inl e.
Definition bind {A B} (m : M A) (k : A -> M B) : M B :=
  match m with
  | inl e => inl e
  | inr a => k a
  end.

Notation "x <~ m ;; k" := (bind m (fun x => k))
  (at level 20, m at level 99, k at level 200, only parsing).

(** The dict a report function returns: [{"error": msg}] or
    [{"status": "success", ...}] with what was written. *)
Inductive response (A : Type) : Type :=
  | Error (msg : string)
  | Success (payload : A).

Arguments Error {A} msg.
Arguments Success {A} payload.

(** [try: body except Exception as e: return {"error": f"{prefix}{str(e)}"}] *)
Definition try_except {A} (prefix : string) (body : M (response A)) : response A :=
  match body with
  | inl e => Error (prefix +:+ str_exn e)
  | inr r => r
  end.

Definition no_session : string :=
  "No data found for your session. Please upload an Excel file first.".

Definition no_matching_data : string :=
  "No matching data found for the given filters.".

(** ** The roster frames

    A roster [DataFrame] is its list of column names and its rows; a row is
    the dict of its cells.  [pd.read_excel(..., dtype=str)] followed by
    [fillna("").astype(str).str.strip()] makes every cell of the required
    and of the present optional columns a string, and [load_excel_data]
    rejects an alumni file that lacks a required column: on the frame of
    an alumni file ([is_alumni_roster], below) the required columns are
    read with [cell], and only an optional column can be absent when a
    report asks for it.  Of such a frame the model keeps the columns of
    the file; the derived columns [_College], [_Year] and [_CurrentStatus]
    are computed from them ([col_College], [col_Year],
    [col_CurrentStatus]).  The frame of a Banner file has other columns:
    there [df["Current Status"]] and the like raise, so the functions
    below stand for the code on the frames of alumni files only. *)

Record DataFrame : Type := {
  columns : list string;
  rows : list (gmap string string)
}.

(** One entry of the process-wide dict [session_data]. *)
Record session : Type := {
  data : DataFrame;
  file_name : string
}.

Definition cell (name : string) (r : gmap string string) : string :=
  default "" (r !! name).

(** [name in df.columns] *)
Definition has_column (name : string) (df : DataFrame) : bool :=
  Py.mem name (columns df).

(** [df[name]] where the column may be absent: a [KeyError]. *)
Definition require_column (name : string) (df : DataFrame) : M unit :=
  if has_column name df then ret tt else raise (KeyError name).

(** [df[name] = df[name].apply(f)] (or [.str] methods) on every row. *)
Definition apply_column (name : string) (f : string -> string) (df : DataFrame)
  : DataFrame :=
  {| columns := columns df;
     rows := map (fun r => <[name := f (cell name r)]> r) (rows df) |}.

(** The derived filter columns [_College] and [_Year] of an alumni roster. *)
Definition col_College (r : gmap string string) : string :=
  Py.strip (cell "College" r).
Definition col_Year (r : gmap string string) : string :=
  Py.strip (cell "Year/Semester of Graduation" r).

(** The truth value of an optional string argument, and its [lower()]. *)
Definition truthy (o : option string) : bool :=
  match o with
  | Some s => negb (Py.is_empty s)
  | None => false
  end.

Definition option_lower (o : option string) : string :=
  match o with
  | Some s => Py.lower s
  | None => ""
  end.

(** [df["Student ID"].str.startswith("G", na=False)] *)
Definition is_graduate (r : gmap string string) : bool :=
  Py.startswith "G" (cell "Student ID" r).

Definition degree_mask (degree_option : string) (r : gmap string string) : bool :=
  if String.eqb degree_option "bachelor" then negb (is_graduate r)
  else if String.eqb degree_option "master" then is_graduate r
  else true.

(** [df["Gender"].str.strip().str.lower() == gender_option.lower()] *)
Definition gender_is (gender_option : string) (r : gmap string string) : bool :=
  String.eqb (Py.lower (Py.strip (cell "Gender" r))) (Py.lower gender_option).

(** [df["Nationality"].str.strip() == "Saudi Arabia"] *)
Definition is_saudi (r : gmap string string) : bool :=
  String.eqb (Py.strip (cell "Nationality" r)) "Saudi Arabia".

(** ** Workplace statistics *)

Record workplace_stats : Type := {
  total_alumni : nat;
  valid_entries : nat;
  empty_entries : nat;
  high_positions_count : nat
}.

Definition nationality_warning : string :=
  "Warning: Nationality column not found, nationality filter ignored".

(** The mask of [get_workplace_statistics] and the lines it prints.  Of the
    nationality options only [saudi] is looked at. *)
Definition workplace_mask (df : DataFrame) (colleges years : list string)
    (degree_option gender_option : string) (nationality_option : option string)
  : (gmap string string -> bool) * list string :=
  let mask r :=
    Py.mem (col_College r) colleges && Py.mem (col_Year r) years in
  let mask r := mask r && degree_mask degree_option r in
  let mask r :=
    if negb (String.eqb (Py.lower gender_option) "all")
    then mask r && gender_is gender_option r
    else mask r in
  if truthy nationality_option && String.eqb (option_lower nationality_option) "saudi"
  then
    if has_column "Nationality" df
    then (fun r => mask r && is_saudi r, [])
    else (mask, [nationality_warning])
  else (mask, []).

Definition Normalized_Workplace (r : gmap string string) : string :=
  normalize_company_name (PyStr (cell "Current Workplace" r)).

(** [filtered_df["Normalized_Workplace"].str.startswith("EMPTY", na=True)] *)
Definition empty_mask (r : gmap string string) : bool :=
  Py.startswith "EMPTY" (Normalized_Workplace r).

Definition High_Position (r : gmap string string) : option string :=
  is_high_position (PyStr (cell "Current Position" r)).

(** [filtered_df["High_Position"].notna()] *)
Definition notna {A} (o : option A) : bool :=
  match o with Some _ => true | None => false end.

(** The filtered frame and the counts of the dict returned by
    [get_workplace_statistics], with the printed lines; the frequency
    tables of that dict are not part of the model. *)
Definition get_workplace_statistics (df : DataFrame) (colleges years : list string)
    (degree_option gender_option : string) (nationality_option : option string)
  : workplace_stats * list (gmap string string) * list string :=
  let '(mask, printed) :=
    workplace_mask df colleges years degree_option gender_option nationality_option in
  let filtered_df := List.filter mask (rows df) in
  let valid_df := List.filter (fun r => negb (empty_mask r)) filtered_df in
  let empty_df := List.filter empty_mask filtered_df in
  let high_position_df := List.filter (fun r => notna (High_Position r)) filtered_df in
  ({| total_alumni := length filtered_df;
      valid_entries := length valid_df;
      empty_entries := length empty_df;
      high_positions_count := length high_position_df |}, filtered_df, printed).

(** The summary sheet of the workplace workbook.  The share of high
    positions is the fraction [count * 100 / total], which the code guards
    against a total of zero. *)
Record workplace_report : Type := {
  summary : workplace_stats;
  number_of_colleges : nat;
  years_covered : nat;
  high_position_percentage : Z * Z
}.

(** [process_workplace_report] has no test on the number of rows: the
    statistics of any filtered frame, empty or not, are written. *)
Definition process_workplace_report (session_data : gmap string session)
    (session_id : string) (colleges years : list string)
    (degree_option gender_option : string) (nationality_option : option string)
  : response workplace_report :=
  try_except "Error generating workplace report: "
    match session_data !! session_id with
    | None => ret (Error no_session)
    | Some s =>
        let '(stats, _, _) :=
          get_workplace_statistics (data s) colleges years degree_option
            gender_option nationality_option in
        ret (Success
          {| summary := stats;
             number_of_colleges := length colleges;
             years_covered := length years;
             high_position_percentage :=
               if (0 <? total_alumni stats)%nat
               then (Z.of_nat (high_positions_count stats) * 100,
                     Z.of_nat (total_alumni stats))
               else (0, 1) |})
    end.

(** ** Frames of numbers

    The cells of a report: a count (an [int64]), a percentage (a
    [float64]: [Pct 50] is [50.0] and [Pct 33.33] the float nearest to
    33.33), or the missing value. *)

Inductive num : Type :=
  | NaN
  | Int (n : Z)
  | Pct (x : float).

(** The conversion of an [int64] to a [float64]. *)
Definition float_of_int (n : Z) : float :=
  if n <? 0 then PrimFloat.opp (PrimFloat.of_uint63 (Uint63.of_Z (- n)))
  else PrimFloat.of_uint63 (Uint63.of_Z n).

Record Report : Type := {
  header : list string;
  body : list (string * list num)
}.

(** Addition under [skipna]: [NaN] is skipped, two counts are added as
    integers, two floats as floats, and a count added to a float is
    converted first. *)
Definition num_add (a b : num) : num :=
  match a, b with
  | NaN, _ => b
  | _, NaN => a
  | Int x, Int y => Int (x + y)
  | Pct x, Pct y => Pct (x + y)%float
  | Int x, Pct y => Pct (float_of_int x + y)%float
  | Pct x, Int y => Pct (x + float_of_int y)%float
  end.

(** [Series.sum()]: zero for an empty or all-missing series.  The cells are
    added from the first to the last.  The sum of counts does not depend
    on this order; the sum of floats does, and the order in which pandas
    adds the floats of a column is not fixed by [app.py], so the
    properties below state of a sum of floats only what holds in any
    order. *)
Definition num_sum (l : list num) : num := fold_left num_add l (Int 0).

(** [frame.sum(axis=1)] *)
Definition sum_axis1 (f : Report) : list num :=
  map (fun r => num_sum (snd r)) (body f).

Fixpoint zip_add (acc row : list num) : list num :=
  match acc, row with
  | a :: acc', x :: row' => num_add a x :: zip_add acc' row'
  | _, [] => acc
  | [], _ :: _ => []
  end.

(** [frame.sum(axis=0)] *)
Definition sum_axis0 (f : Report) : list num :=
  fold_left zip_add (map snd (body f)) (repeat (Int 0) (length (header f))).

(** [frame[name]] as a list, and the cell of one row under [name]:
    [frame.get(name, 0)] gives the scalar [0] for an absent column. *)
Fixpoint get_num (cols : list string) (name : string) (row : list num) : num :=
  match cols, row with
  | c :: cols', x :: row' => if String.eqb c name then x else get_num cols' name row'
  | _, _ => Int 0
  end.

(** [frame[name] = values]: an existing column is overwritten in place, a
    new one is put last. *)
Fixpoint set_num (cols : list string) (name : string) (v : num) (row : list num)
  : list num :=
  match cols with
  | [] => row ++ [v]
  | c :: cols' =>
      match row with
      | [] => [v]
      | x :: row' =>
          if String.eqb c name then v :: row' else x :: set_num cols' name v row'
      end
  end.

Definition set_header (cols : list string) (name : string) : list string :=
  if Py.mem name cols then cols else cols ++ [name].

Definition set_column (name : string) (values : list num) (f : Report) : Report :=
  {| header := set_header (header f) name;
     body :=
       map (fun rv => (fst (fst rv), set_num (header f) name (snd rv) (snd (fst rv))))
         (combine (body f) values) |}.

(** [pd.concat([f, g], axis=1)] of two frames on the same index. *)
Definition concat_axis1 (f g : Report) : Report :=
  {| header := header f ++ header g;
     body := map (fun rs => (fst (fst rs), snd (fst rs) ++ snd (snd rs)))
               (combine (body f) (body g)) |}.

(** ** The cross-tab of the QAA report *)

(** Sorted distinct values, the order of a group-by index. *)
Definition sorted_unique (l : list string) : list string :=
  merge_sort String.le (remove_dups l).

Definition pair_eqb (a b : string * string) : bool :=
  String.eqb (fst a) (fst b) && String.eqb (snd a) (snd b).

(** [.size()] of the group [(key, status)]. *)
Definition group_size (key status : string) (recs : list (string * string)) : Z :=
  Z.of_nat (length (List.filter (pair_eqb (key, status)) recs)).

(** [df.groupby([group_col, "Current Status"]).size().unstack(fill_value=0)]
    on the list of the pairs (group key, status) of the rows. *)
Definition unstack (recs : list (string * string)) : Report :=
  let statuses := sorted_unique (map snd recs) in
  {| header := statuses;
     body := map (fun key =>
                    (key, map (fun status => Int (group_size key status recs)) statuses))
               (sorted_unique (map fst recs)) |}.

(** [grouped["Total"] = grouped.sum(axis=1)] *)
Definition with_Total (grouped : Report) : Report :=
  set_column "Total" (sum_axis1 grouped) grouped.

Definition employed_statuses : list string :=
  [ "Employed"; "Employed - add to list"; "Business owner"; "Training";
    "Do not contact"; "Others"; "Left the country"; "Passed away";
    "New graduate" ].

(** [numpy.rint]: the nearest integer, ties to even.  A float of magnitude
    [2^52] or more is an integer; below, adding and taking away [2^52]
    rounds to the unit. *)
Definition two52 : float := 4503599627370496%float.

Definition rint (x : float) : float :=
  if PrimFloat.ltb (PrimFloat.abs x) two52 then
    if PrimFloat.ltb x 0%float then (x - two52 + two52)%float
    else (x + two52 - two52)%float
  else x.

(** [series.round(2)]: numpy scales by [10**2], rounds to the nearest
    integer and scales back. *)
Definition round2 (x : float) : float := (rint (x * 100) / 100)%float.

(** [series.fillna(0)] on one float. *)
Definition fillna0 (x : float) : float :=
  if PrimFloat.is_nan x then 0%float else x.

(** [(count / overall_total * 100).fillna(0).round(2)]: the division is
    that of floats, so [0 / 0] is [nan], which becomes [0]. *)
Definition percentage (count overall_total : num) : num :=
  match count, overall_total with
  | Int c, Int t =>
      Pct (round2 (fillna0 (float_of_int c / float_of_int t * 100)%float))
  | _, _ => Pct 0%float
  end.

Definition stats_header : list string :=
  [ "Employed"; "Unemployed"; "Studying";
    "Employed Percentage"; "Unemployed Percentage"; "Studying Percentage" ].

(** The frame [employment_stats] built from [grouped] (with its [Total]). *)
Definition employment_stats (grouped : Report) : Report :=
  let overall_total := num_sum (map (fun r => get_num (header grouped) "Total" (snd r))
                                    (body grouped)) in
  {| header := stats_header;
     body :=
       map (fun r =>
              let get name := get_num (header grouped) name (snd r) in
              let Employed :=
                match map get employed_statuses with
                | [] => Int 0
                | x :: xs => fold_left num_add xs x
                end in
              let Unemployed := get "Unemployed" in
              let Studying := get "Studying" in
              (fst r,
               [ Employed; Unemployed; Studying;
                 percentage Employed overall_total;
                 percentage Unemployed overall_total;
                 percentage Studying overall_total ]))
         (body grouped) |}.

(** [pd.DataFrame(index=grouped.index, columns=["", " "])] *)
Definition empty_columns (grouped : Report) : Report :=
  {| header := [ ""; " " ];
     body := map (fun r => (fst r, [ NaN; NaN ])) (body grouped) |}.

(** The sheet of one grouped frame: the counts, two blank columns, the
    employment statistics, and the row [Overall Total] of the column sums. *)
Definition cross_tab (recs : list (string * string)) : Report :=
  let grouped := with_Total (unstack recs) in
  let final_report :=
    concat_axis1 (concat_axis1 grouped (empty_columns grouped))
                 (employment_stats grouped) in
  {| header := header final_report;
     body := body final_report ++ [ ("Overall Total", sum_axis0 final_report) ] |}.

(** ** The QAA report *)

Definition college_abbreviations : list (string * string) :=
  [ ("College of Engineering & Advan", "CoE");
    ("College of Business", "CoB");
    ("College of Science & General S", "CoS");
    ("College of Medicine", "CoM");
    ("College of Pharmacy", "CoP") ].

(** The name of a sheet.  The sheets of the last layout end in three random
    characters, which the model leaves out. *)
Inductive sheet_name : Type :=
  | Combined_Report
  | College_sheet (name : string)
  | College_year_sheet (college year : string).

(** What a successful call wrote: in detailed mode the sheets, in simple
    mode the workbook that [process_simple_mode_report] makes of
    [filtered_df_all], which the model does not follow further. *)
Inductive qaa_report : Type :=
  | Simple_mode (filtered_df_all : list (gmap string string))
  | Detailed_mode (sheets : list (sheet_name * Report)).

Definition Degree_Type (r : gmap string string) : string :=
  if Py.startswith "G" (Py.strip (cell "Student ID" r)) then "Masters" else "Bachelors".

Definition MajorFormatted (r : gmap string string) : string :=
  Py.strip (cell "Major" r) +:+ " - " +:+ Degree_Type r +:+ " - "
    +:+ Py.strip (cell "College" r).

(** The pairs (group key, status) that [groupby] sees. *)
Definition group_pairs (use_formatted_majors : bool) (df : list (gmap string string))
  : list (string * string) :=
  map (fun r => (if use_formatted_majors then MajorFormatted r else cell "Major" r,
                 cell "Current Status" r)) df.

Definition is_nil {A} (l : list A) : bool :=
  match l with [] => true | _ => false end.

(** [s[:n]] *)
Fixpoint take_chars (n : nat) (s : string) : string :=
  match n, s with
  | S n', String c s' => String c (take_chars n' s')
  | _, _ => EmptyString
  end.

(** [college_abbreviations.get(college.strip(), college[:n])] *)
Definition sheet_of_college (n : nat) (college : string) : string :=
  default (take_chars n college) (Py.dict_get (Py.strip college) college_abbreviations).

(** The sheets written in detailed mode, for the three layouts. *)
Definition detailed_sheets (filtered_df : list (gmap string string))
    (colleges years : list string) (degree_option : string)
    (combine_all combine_years : bool) : list (sheet_name * Report) :=
  let use_formatted_majors := combine_all || String.eqb degree_option "all" in
  let sheet df := cross_tab (group_pairs use_formatted_majors df) in
  if combine_all then [ (Combined_Report, sheet filtered_df) ]
  else if combine_years then
    flat_map (fun college =>
      let college_df :=
        List.filter (fun r => String.eqb (Py.strip (cell "College" r)) college)
          filtered_df in
      if is_nil college_df then []
      else [ (College_sheet (sheet_of_college 25 college), sheet college_df) ])
      colleges
  else
    flat_map (fun college =>
      let college_df :=
        List.filter (fun r => String.eqb (Py.strip (cell "College" r)) college)
          filtered_df in
      if is_nil college_df then []
      else
        flat_map (fun year =>
          let year_df :=
            List.filter (fun r => String.eqb (col_Year r) year) college_df in
          if is_nil year_df then []
          else [ (College_year_sheet (sheet_of_college 15 college) year,
                  sheet year_df) ])
          years)
      colleges.

(** The two frames of [process_qaa_report] before the test on emptiness:
    [filtered_df_all] and [filtered_df].  Simple mode keeps the college and
    year filters only; in detailed mode the nationality filters read the
    column [Nationality]. *)
Definition qaa_filter (df : DataFrame) (colleges years : list string)
    (degree_option gender_option : string) (nationality_option : option string)
    (mode_option : string)
  : M (list (gmap string string) * list (gmap string string)) :=
  let df := apply_column "Current Status" (fun s => clean_status (PyStr s)) df in
  let filtered_df_all :=
    List.filter (fun r => Py.mem (col_College r) colleges) (rows df) in
  let filtered_df_all :=
    List.filter (fun r => Py.mem (col_Year r) years) filtered_df_all in
  if String.eqb mode_option "simple" then ret (filtered_df_all, filtered_df_all)
  else
    let filtered_df_all :=
      if String.eqb degree_option "bachelor"
      then List.filter (fun r => negb (is_graduate r)) filtered_df_all
      else if String.eqb degree_option "master"
      then List.filter is_graduate filtered_df_all
      else filtered_df_all in
    let filtered_df := filtered_df_all in
    let filtered_df :=
      if negb (String.eqb (Py.lower gender_option) "all")
      then List.filter (gender_is gender_option) filtered_df
      else filtered_df in
    filtered_df <~
      (if truthy nationality_option
          && String.eqb (option_lower nationality_option) "saudi"
       then u <~ require_column "Nationality" df ;;
            ret (List.filter is_saudi filtered_df)
       else if truthy nationality_option
               && String.eqb (option_lower nationality_option) "non-saudi"
       then u <~ require_column "Nationality" df ;;
            ret (List.filter (fun r => negb (is_saudi r)) filtered_df)
       else ret filtered_df) ;;
    ret (filtered_df_all, filtered_df).

Definition process_qaa_report (session_data : gmap string session)
    (session_id : string) (colleges years : list string) (degree_option : string)
    (combine_all combine_years : bool) (gender_option : string)
    (nationality_option : option string) (mode_option : string)
  : response qaa_report :=
  try_except "Error generating QAA report: "
    match session_data !! session_id with
    | None => ret (Error no_session)
    | Some s =>
        frames <~ qaa_filter (data s) colleges years degree_option gender_option
                    nationality_option mode_option ;;
        let '(filtered_df_all, filtered_df) := frames in
        if is_nil filtered_df then ret (Error no_matching_data)
        else if String.eqb mode_option "simple"
        then ret (Success (Simple_mode filtered_df_all))
        else ret (Success (Detailed_mode
                    (detailed_sheets filtered_df colleges years degree_option
                       combine_all combine_years)))
    end.

(** ** The alumni list *)

(** [process_alumni_list] cleans the statuses of the cached frame in place,
    so it returns the store as well.  The payload is the list of the sheets,
    one per college with rows. *)
Definition alumni_filter (df : DataFrame) (colleges years allowed_statuses : list string)
    (gender_option : string) (nationality_option : option string)
    (degree_option : string) : M (list (gmap string string)) :=
  let allowed_statuses := map (fun s => clean_status (PyStr s)) allowed_statuses in
  let filtered_df :=
    List.filter (fun r => Py.mem (Py.strip (cell "College" r)) colleges) (rows df) in
  let filtered_df :=
    List.filter (fun r => Py.mem (col_Year r) years) filtered_df in
  let filtered_df :=
    if String.eqb degree_option "bachelor"
    then List.filter (fun r => negb (is_graduate r)) filtered_df
    else if String.eqb degree_option "master"
    then List.filter is_graduate filtered_df
    else filtered_df in
  let filtered_df :=
    if negb (String.eqb (Py.lower gender_option) "all")
    then List.filter (gender_is gender_option) filtered_df
    else filtered_df in
  filtered_df <~
    (if truthy nationality_option
        && negb (String.eqb (option_lower nationality_option) "all")
     then
       if String.eqb (option_lower nationality_option) "saudi"
       then u <~ require_column "Nationality" df ;;
            ret (List.filter is_saudi filtered_df)
       else if String.eqb (option_lower nationality_option) "non-saudi"
       then u <~ require_column "Nationality" df ;;
            ret (List.filter (fun r => negb (is_saudi r)) filtered_df)
       else ret filtered_df
     else ret filtered_df) ;;
  ret (List.filter (fun r => Py.mem (cell "Current Status" r) allowed_statuses)
         filtered_df).

(** The sheets of the workbook, in the order of the requested colleges.
    The name of a sheet is the abbreviation of the college or, for a
    college that is no option of the form, the head of its name;
    [xlsxwriter] raises on a name with one of the characters [[]:*?/\] and
    on a name used twice, which the model does not follow: the sheets
    stand for the workbook when the colleges are options of the form, each
    requested once ([college_options_once], below). *)
Definition alumni_sheets (filtered_df : list (gmap string string))
    (colleges : list string) : list (string * list (gmap string string)) :=
  flat_map (fun college =>
    let college_df :=
      List.filter (fun r => String.eqb (Py.strip (cell "College" r)) college)
        filtered_df in
    if is_nil college_df then []
    else [ (sheet_of_college 25 college, college_df) ])
    colleges.

Definition process_alumni_list (session_data : gmap string session)
    (session_id : string) (colleges years allowed_statuses : list string)
    (gender_option : string) (nationality_option : option string)
    (degree_option : string)
  : response (list (string * list (gmap string string))) * gmap string session :=
  match session_data !! session_id with
  | None => (Error no_session, session_data)
  | Some s =>
      let df := apply_column "Current Status" (fun s => clean_status (PyStr s)) (data s) in
      let session_data :=
        <[session_id := {| data := df; file_name := file_name s |}]> session_data in
      (try_except "Error generating alumni list: "
         (filtered_df <~ alumni_filter df colleges years allowed_statuses
                           gender_option nationality_option degree_option ;;
          if is_nil filtered_df then ret (Error no_matching_data)
          else ret (Success (alumni_sheets filtered_df colleges))),
       session_data)
  end.

(** ** Banner integration *)

Definition field_mapping : list (string * string) :=
  [ ("Graduation Term", "Year/Semester of Graduation");
    ("Student ID", "Student ID");
    ("Student Name", "Student Name");
    ("College", "College");
    ("Degree", "Degree");
    ("Major", "Major");
    ("Minor", "Minor");
    ("Concentration", "Concentration");
    ("Nationality", "Nationality");
    ("SSN", "SSN");
    ("Gender", "Gender");
    ("Alfaisal Email", "Alfaisal Email");
    ("Personal Email", "Personal Email");
    ("Phone Number", "Phone Number");
    ("Joined AU", "Joining date");
    ("CGPA", "GPA") ].

(** The fields that a new record gets besides the mapped ones. *)
Definition new_graduate_defaults (current_date : string) : list (string * string) :=
  [ ("Current Status", "New graduate");
    ("Current Workplace", "");
    ("Current Position", "");
    ("Work Industry", "");
    ("Workplace Country", "");
    ("Workplace City", "");
    ("Work Email", "");
    ("Work Phone", "");
    ("Social Media and Events", "");
    ("Comments", "Added from Banner on " +:+ current_date) ].

(** The dict [new_record] built for one Banner row. *)
Definition new_alumni_record (banner_columns alumni_columns : list string)
    (current_date : string) (row : gmap string string) : gmap string string :=
  let new_record : gmap string string :=
    list_to_map (map (fun col => (col, "")) alumni_columns) in
  let new_record :=
    fold_left (fun (rec : gmap string string) (m : string * string) =>
                 if Py.mem (fst m) banner_columns && Py.mem (snd m) alumni_columns
                 then <[snd m := cell (fst m) row]> rec
                 else rec)
      field_mapping new_record in
  fold_left (fun (rec : gmap string string) (d : string * string) =>
               <[fst d := snd d]> rec)
    (new_graduate_defaults current_date) new_record.

(** [pd.DataFrame(records, columns=cols)]: the cells under [cols]. *)
Definition frame_of_records (cols : list string) (records : list (gmap string string))
  : DataFrame :=
  {| columns := cols;
     rows := map (fun rec => list_to_map (map (fun col => (col, cell col rec)) cols))
               records |}.

Record banner_integration : Type := {
  new_records : nat;
  banner_records : nat;
  alumni_records : nat;
  new_students : list (string * string);
  combined_df : option DataFrame
}.

Definition Student_IDs (df : DataFrame) : list string :=
  map (cell "Student ID") (rows df).

(** The comparison of the two frames, their identifiers already stripped. *)
Definition banner_diff (banner_df alumni_df : DataFrame) (current_date : string)
  : M (response banner_integration) :=
  let banner_student_ids : gset string := list_to_set (Student_IDs banner_df) in
  let alumni_student_ids : gset string := list_to_set (Student_IDs alumni_df) in
  let new_student_ids := banner_student_ids ∖ alumni_student_ids in
  if bool_decide (new_student_ids = ∅) then
    ret (Success {| new_records := 0;
                    banner_records := length (rows banner_df);
                    alumni_records := length (rows alumni_df);
                    new_students := [];
                    combined_df := None |})
  else
    let new_students_df :=
      List.filter (fun r => bool_decide (cell "Student ID" r ∈ new_student_ids))
        (rows banner_df) in
    let alumni_columns := columns alumni_df in
    let new_alumni_records :=
      map (new_alumni_record (columns banner_df) alumni_columns current_date)
        new_students_df in
    let new_alumni_df := frame_of_records alumni_columns new_alumni_records in
    let combined :=
      {| columns := alumni_columns;
         rows := rows alumni_df ++ rows new_alumni_df |} in
    u <~ (if has_column "Student Name" banner_df then ret tt
          else raise (KeyError_not_in_index "Student Name")) ;;
    ret (Success {| new_records := length new_alumni_records;
                    banner_records := length (rows banner_df);
                    alumni_records := length (rows alumni_df);
                    new_students :=
                      map (fun r => (cell "Student ID" r, cell "Student Name" r))
                        new_students_df;
                    combined_df := Some combined |}).

Definition set_data (df : DataFrame) (s : session) : session :=
  {| data := df; file_name := file_name s |}.

(** [process_banner_integration] strips the identifiers of both cached
    frames in place, so it returns the store as well.  [current_date] is
    the date of the call.  When both identifiers name one session its frame
    is stripped twice, which is stripping it once. *)
Definition process_banner_integration (session_data : gmap string session)
    (banner_session_id alumni_session_id current_date : string)
  : response banner_integration * gmap string session :=
  match session_data !! banner_session_id, session_data !! alumni_session_id with
  | None, _ =>
      (Error "No Banner data found for your session. Please upload the Banner Excel file first.",
       session_data)
  | Some _, None =>
      (Error "No Alumni List data found for your session. Please upload the Alumni List Excel file first.",
       session_data)
  | Some b, Some a =>
      if negb (has_column "Student ID" (data b)) then
        (Error "Student ID column not found in Banner data. Please check your file format.",
         session_data)
      else if negb (has_column "Student ID" (data a)) then
        (Error "Student ID column not found in Alumni List data. Please check your file format.",
         session_data)
      else
        let banner_df := apply_column "Student ID" Py.strip (data b) in
        let alumni_df := apply_column "Student ID" Py.strip (data a) in
        (try_except "Error processing Banner integration: "
           (banner_diff banner_df alumni_df current_date),
         <[alumni_session_id := set_data alumni_df a]>
           (<[banner_session_id := set_data banner_df b]> session_data))
  end.

(** ** Classes of inputs of the company normalizer *)

Inductive input_kind : Type :=
  | Missing
  | NonString
  | Blank.

(** Missing: [None] or [NaN]; non-string: any other value that is not a
    [str]; blank: a string that is empty after [strip]. *)
Definition kind_of (x : pyval) : option input_kind :=
  match x with
  | PyNone | PyNaN => Some Missing
  | PyInt _ => Some NonString
  | PyStr s => if Py.is_empty (Py.strip s) then Some Blank else None
  end.

Definition sentinel_of (k : input_kind) : string :=
  match k with
  | Missing => "EMPTY (NULL)"
  | NonString => "EMPTY (INVALID TYPE)"
  | Blank => "EMPTY (COMPLETELY EMPTY)"
  end.

(** The canonical names of the alias table that the normalizer changes
    when it is given them: none is a key of the table, and each holds a
    generic word after a blank. *)
Definition unstable_canonical_names : list string :=
  [ "BOSTON CONSULTING GROUP";
    "DR. SULAIMAN AL HABIB MEDICAL GROUP";
    "SAUDI TELECOM COMPANY";
    "SAUDI BASIC INDUSTRIES CORPORATION" ].

(** An input that the normalizer settles without the suffix rules: a value
    that is not a string, a string whose cleaned form is an empty pattern,
    or an alias whose canonical name is not one of the four above. *)
Definition settled_by_table (x : pyval) : Prop :=
  match x with
  | PyStr s =>
      let name := Py.upper (Py.strip s) in
      is_Some (match_empty_pattern name empty_patterns) \/
      exists canonical,
        Py.dict_get name company_aliases = Some canonical /\
        ~ In canonical unstable_canonical_names
  | _ => True
  end.

(** ** What a request keeps

    The record filter in the words of the specification: one predicate per
    request, to which the chains of filters of the code are compared. *)

Definition gender_selects (gender_option : string) (r : gmap string string) : bool :=
  String.eqb (Py.lower gender_option) "all" || gender_is gender_option r.

Definition nationality_selects (nationality_option : option string)
    (r : gmap string string) : bool :=
  if truthy nationality_option && String.eqb (option_lower nationality_option) "saudi"
  then is_saudi r
  else if truthy nationality_option
          && String.eqb (option_lower nationality_option) "non-saudi"
  then negb (is_saudi r)
  else true.

(** The options under which a report reads the column [Nationality]. *)
Definition reads_Nationality (nationality_option : option string) : bool :=
  truthy nationality_option
  && (String.eqb (option_lower nationality_option) "saudi"
      || String.eqb (option_lower nationality_option) "non-saudi").

Definition qaa_keeps (colleges years : list string)
    (degree_option gender_option : string) (nationality_option : option string)
    (mode_option : string) (r : gmap string string) : bool :=
  Py.mem (col_College r) colleges && Py.mem (col_Year r) years
  && (String.eqb mode_option "simple"
      || degree_mask degree_option r && gender_selects gender_option r
         && nationality_selects nationality_option r).

Definition alumni_keeps (colleges years allowed_statuses : list string)
    (gender_option : string) (nationality_option : option string)
    (degree_option : string) (r : gmap string string) : bool :=
  Py.mem (col_College r) colleges && Py.mem (col_Year r) years
  && degree_mask degree_option r && gender_selects gender_option r
  && nationality_selects nationality_option r
  && Py.mem (clean_status (PyStr (cell "Current Status" r)))
       (map (fun s => clean_status (PyStr s)) allowed_statuses).

(** ** Sample rosters *)

Definition roster_row (sid name college term status gender major workplace
    position nationality : string) : gmap string string :=
  list_to_map
    [ ("Student ID", sid); ("Student Name", name); ("College", college);
      ("Year/Semester of Graduation", term); ("Current Status", status);
      ("Gender", gender); ("Major", major); ("Current Workplace", workplace);
      ("Current Position", position); ("Nationality", nationality) ].

Definition roster_columns : list string :=
  [ "Student ID"; "Student Name"; "College"; "Year/Semester of Graduation";
    "Current Status"; "Gender"; "Major"; "Current Workplace";
    "Current Position"; "Nationality" ].

Definition sample_rows : list (gmap string string) :=
  [ roster_row "1001" "Amal" "College of Business" "2013-2014 FALL" "Employed"
      "Female" "Finance" "SNB" "Chief Accountant" "Saudi Arabia";
    roster_row "G1002" "Badr" "College of Business" "2013-2014 FALL" "unemployed"
      "Male" "Finance" "N/A" "" "Egypt";
    roster_row "1003" "Dana" "College of Medicine" "2013-2014 FALL" "Studying"
      "Female" "Medicine" "-" "" "Saudi Arabia" ].

Definition sample_roster : DataFrame :=
  {| columns := roster_columns; rows := sample_rows |}.

(** The same roster uploaded without the optional column [Nationality]. *)
Definition sample_roster_without_Nationality : DataFrame :=
  {| columns := List.filter (fun c => negb (String.eqb c "Nationality")) roster_columns;
     rows := map (delete "Nationality") sample_rows |}.

Definition sample_colleges : list string :=
  [ "College of Business"; "College of Medicine" ].

Definition sample_years : list string := [ "2013-2014 FALL" ].

Definition sample_sessions : gmap string session :=
  <["full" := {| data := sample_roster; file_name := "alumni.xlsx" |}]>
    (<["bare" := {| data := sample_roster_without_Nationality;
                   file_name := "alumni_bare.xlsx" |}]> ∅).

Definition banner_columns : list string :=
  [ "Student ID"; "Student Name"; "College"; "Graduation Term"; "Major"; "Gender" ].

Definition banner_row (sid name college term major gender : string)
  : gmap string string :=
  list_to_map
    [ ("Student ID", sid); ("Student Name", name); ("College", college);
      ("Graduation Term", term); ("Major", major); ("Gender", gender) ].

(** A Banner export in which the graduate [2001] is listed twice, as for a
    double major, next to [1001], who is in the alumni roster. *)
Definition sample_banner : DataFrame :=
  {| columns := banner_columns;
     rows :=
       [ banner_row "1001" "Amal" "College of Business" "2013-2014 FALL" "Finance"
           "Female";
         banner_row "2001" "Hana" "College of Business" "2014-2015 FALL" "Finance"
           "Female";
         banner_row "2001" "Hana" "College of Business" "2014-2015 FALL"
           "Marketing" "Female" ] |}.

(** The same export with one row per graduate. *)
Definition sample_banner_distinct : DataFrame :=
  {| columns := banner_columns;
     rows :=
       [ banner_row "1001" "Amal" "College of Business" "2013-2014 FALL" "Finance"
           "Female";
         banner_row "2001" "Hana" "College of Business" "2014-2015 FALL" "Finance"
           "Female" ] |}.

Definition banner_sessions : gmap string session :=
  <["banner" := {| data := sample_banner; file_name := "banner.xlsx" |}]>
    (<["banner1" := {| data := sample_banner_distinct; file_name := "banner1.xlsx" |}]>
       sample_sessions).

(** The stripped identifiers of a frame, as the diff compares them. *)
Definition stripped_ids (df : DataFrame) : list string :=
  map (fun r => Py.strip (cell "Student ID" r)) (rows df).

(** ** Reading a cross-tab

    The employment statistics are the last columns of a sheet and repeat
    three names of status columns, so a derived cell is read under the last
    column of its name; [Total] is read under the first. *)

Definition first_named (rep : Report) (name : string) (row : list num) : num :=
  get_num (header rep) name row.

Definition last_named (rep : Report) (name : string) (row : list num) : num :=
  get_num (rev (header rep)) name (rev row).

(** The rows of a sheet above [Overall Total], and that row. *)
Definition data_rows (rep : Report) : list (string * list num) :=
  List.removelast (body rep).

Definition overall_row (rep : Report) : list num :=
  snd (List.last (body rep) ("", [])).

(** The cells of column [j]. *)
Definition column (j : nat) (rws : list (string * list num)) : list num :=
  map (fun r => nth j (snd r) NaN) rws.

(** The positions of the counts in a row of a sheet: the status columns
    with [Total] come first, then the two blank columns, the three buckets
    and the three percentages. *)
Definition count_positions (rep : Report) : list nat :=
  let width := (length (header rep) - 8)%nat in
  seq 0 width ++ seq (width + 2) 3.

Fixpoint Zsum (l : list Z) : Z :=
  match l with
  | [] => 0
  | x :: l' => x + Zsum l'
  end.

(** The closed form of a data row: the counts of the statuses that occur,
    with [Total] their sum, two blanks, and the employment statistics. *)
Definition status_columns (recs : list (string * string)) : list string :=
  sorted_unique (map snd recs).

Definition group_keys (recs : list (string * string)) : list string :=
  sorted_unique (map fst recs).

(** The pairs of one group under a list of statuses. *)
Definition in_group (key : string) (statuses : list string) (r : string * string)
  : bool :=
  String.eqb key (fst r) && Py.mem (snd r) statuses.

Definition row_total (recs : list (string * string)) (key : string) : Z :=
  Zsum (map (fun status => group_size key status recs) (status_columns recs)).

Definition employed_count (recs : list (string * string)) (key : string) : Z :=
  Zsum (map (fun status => group_size key status recs) employed_statuses).

Definition grand_total (recs : list (string * string)) : Z :=
  Zsum (map (row_total recs) (group_keys recs)).

Definition counts_row (recs : list (string * string)) (key : string) : list num :=
  set_num (status_columns recs) "Total" (Int (row_total recs key))
    (map (fun status => Int (group_size key status recs)) (status_columns recs)).

Definition stats_row (recs : list (string * string)) (key : string) : list num :=
  let overall_total := Int (grand_total recs) in
  [ Int (employed_count recs key);
    Int (group_size key "Unemployed" recs);
    Int (group_size key "Studying" recs);
    percentage (Int (employed_count recs key)) overall_total;
    percentage (Int (group_size key "Unemployed" recs)) overall_total;
    percentage (Int (group_size key "Studying" recs)) overall_total ].

Definition data_row (recs : list (string * string)) (key : string)
  : string * list num :=
  (key, (counts_row recs key ++ [ NaN; NaN ]) ++ stats_row recs key).

(** The pairs of a sheet with one major, an employed and an unemployed
    graduate. *)
Definition two_graduates : list (string * string) :=
  [ ("Finance", "Employed"); ("Finance", "Unemployed") ].

Definition three_majors : list (string * string) :=
  [ ("Finance", "Employed"); ("Marketing", "Employed"); ("Accounting", "Employed") ].

(** ** Predicates on strings used by the properties *)

(** Every character of [s] satisfies [p]. *)
Fixpoint all_chars (p : ascii -> bool) (s : string) : bool :=
  match s with
  | EmptyString => true
  | String c s' => p c && all_chars p s'
  end.

Definition no_lower_case (s : string) : bool :=
  all_chars (fun c => negb (Py.is_lower c)) s.

(** The values that [normalize_company_name] can return besides the
    residue of the suffix rules. *)
Definition fixed_outputs : list string :=
  [ "EMPTY (NULL)"; "EMPTY (INVALID TYPE)";
    "MINISTRY OF NATIONAL GUARD HEALTH AFFAIRS"; "KING FAHAD MEDICAL CITY" ]
  ++ map (fun c => "EMPTY (" +:+ fst c +:+ ")") empty_patterns
  ++ map snd company_aliases.

(** The row that [df["Current Status"].apply(clean_status)] makes of [r]. *)
Definition cleaned_row (r : gmap string string) : gmap string string :=
  <["Current Status" := clean_status (PyStr (cell "Current Status" r))]> r.

(** The rows that an alumni list is made of. *)
Definition alumni_kept (df : DataFrame) (colleges years allowed_statuses : list string)
    (gender_option : string) (nationality_option : option string)
    (degree_option : string) : list (gmap string string) :=
  map cleaned_row
    (List.filter (alumni_keeps colleges years allowed_statuses gender_option
                    nationality_option degree_option) (rows df)).

(** The rows that the detailed QAA report aggregates. *)
Definition qaa_kept (df : DataFrame) (colleges years : list string)
    (degree_option gender_option : string) (nationality_option : option string)
    (mode_option : string) : list (gmap string string) :=
  map cleaned_row
    (List.filter (qaa_keeps colleges years degree_option gender_option
                    nationality_option mode_option) (rows df)).

(** The Banner rows whose identifier is in no alumni row, and the answer of
    the diff when there is none. *)
Definition new_banner_rows (banner_df alumni_df : DataFrame) : list (gmap string string) :=
  List.filter (fun r => negb (Py.mem (cell "Student ID" r) (Student_IDs alumni_df)))
    (rows banner_df).

Definition nothing_new (banner_df alumni_df : DataFrame) : banner_integration :=
  {| new_records := 0;
     banner_records := length (rows banner_df);
     alumni_records := length (rows alumni_df);
     new_students := [];
     combined_df := None |}.

(** ** The preview routes

    The previews read the derived columns of an alumni roster: [_College],
    [_Year] and [_CurrentStatus], which [load_excel_data] sets to
    [clean_status] of the status.  The only later write to the status is
    [clean_status] again, which leaves a canonical status of ASCII text as
    it is, so on such statuses ([ascii_statuses]) the derived column is
    [clean_status] of the cell at any time.  The frame of a Banner file
    has no column [_CurrentStatus]: the model stands for the routes on
    the frames of alumni files.  The routes have no handler: an exception
    leaves them.  Of the detailed preview the ten most frequent statuses are not
    part of the model. *)

Definition col_CurrentStatus (r : gmap string string) : string :=
  clean_status (PyStr (cell "Current Status" r)).

(** [series.value_counts().to_dict()] *)
Definition value_counts (values : list string) : gmap string nat :=
  fold_right (fun v counts => <[v := S (default 0%nat (counts !! v))]> counts)
    ∅ values.

Definition session_not_found : string :=
  "Session not found. Please upload your file again.".

Module QaaPreview.
Record t : Type := {
  total_records : nat;
  college_counts : gmap string nat;
  gender_counts : option (gmap string nat);
  mode : string
}.
End QaaPreview.

Module AlumniPreview.
Record t : Type := {
  total_alumni : nat;
  college_counts : gmap string nat;
  gender_counts : gmap string nat
}.
End AlumniPreview.

Definition qaa_preview (session_data : gmap string session) (session_id : string)
    (colleges years : list string) (degree_option gender_option : string)
    (nationality_option : option string) (mode_option : string)
  : M (response QaaPreview.t) :=
  match session_data !! session_id with
  | None => ret (Error session_not_found)
  | Some s =>
      let df := data s in
      let filtered_df :=
        List.filter (fun r => Py.mem (col_College r) colleges
                              && Py.mem (col_Year r) years) (rows df) in
      let filtered_df :=
        if negb (String.eqb (Py.lower gender_option) "all")
        then List.filter (gender_is gender_option) filtered_df
        else filtered_df in
      filtered_df <~
        (if truthy nationality_option
            && negb (String.eqb (option_lower nationality_option) "all")
         then
           if String.eqb (option_lower nationality_option) "saudi"
           then u <~ require_column "Nationality" df ;;
                ret (List.filter is_saudi filtered_df)
           else if String.eqb (option_lower nationality_option) "non-saudi"
           then u <~ require_column "Nationality" df ;;
                ret (List.filter (fun r => negb (is_saudi r)) filtered_df)
           else ret filtered_df
         else ret filtered_df) ;;
      let filtered_df :=
        if String.eqb degree_option "bachelor"
        then List.filter (fun r => negb (is_graduate r)) filtered_df
        else if String.eqb degree_option "master"
        then List.filter is_graduate filtered_df
        else filtered_df in
      let college_counts := value_counts (map col_College filtered_df) in
      if String.eqb mode_option "simple" then
        let gender_counts := value_counts (map (cell "Gender") filtered_df) in
        ret (Success {| QaaPreview.total_records := length filtered_df;
                        QaaPreview.college_counts := college_counts;
                        QaaPreview.gender_counts := Some gender_counts;
                        QaaPreview.mode := "simple" |})
      else
        ret (Success {| QaaPreview.total_records := length filtered_df;
                        QaaPreview.college_counts := college_counts;
                        QaaPreview.gender_counts := None;
                        QaaPreview.mode := "detailed" |})
  end.

Definition alumni_list_preview (session_data : gmap string session)
    (session_id : string) (colleges years : list string)
    (degree_option gender_option : string) (nationality_option : option string)
    (status_options : list string)
  : M (response AlumniPreview.t) :=
  match session_data !! session_id with
  | None => ret (Error session_not_found)
  | Some s =>
      let df := data s in
      let filtered_df :=
        List.filter (fun r => Py.mem (col_College r) colleges
                              && Py.mem (col_Year r) years) (rows df) in
      let filtered_df :=
        if String.eqb degree_option "bachelor"
        then List.filter (fun r => negb (is_graduate r)) filtered_df
        else if String.eqb degree_option "master"
        then List.filter is_graduate filtered_df
        else filtered_df in
      let filtered_df :=
        if negb (String.eqb (Py.lower gender_option) "all")
        then List.filter (gender_is gender_option) filtered_df
        else filtered_df in
      filtered_df <~
        (if truthy nationality_option
            && negb (String.eqb (option_lower nationality_option) "all")
         then
           if String.eqb (option_lower nationality_option) "saudi"
           then u <~ require_column "Nationality" df ;;
                ret (List.filter is_saudi filtered_df)
           else if String.eqb (option_lower nationality_option) "non-saudi"
           then u <~ require_column "Nationality" df ;;
                ret (List.filter (fun r => negb (is_saudi r)) filtered_df)
           else ret filtered_df
         else ret filtered_df) ;;
      let filtered_df :=
        List.filter (fun r => Py.mem (col_CurrentStatus r) status_options)
          filtered_df in
      ret (Success
             {| AlumniPreview.total_alumni := length filtered_df;
                AlumniPreview.college_counts := value_counts (map col_College filtered_df);
                AlumniPreview.gender_counts :=
                  value_counts (map (cell "Gender") filtered_df) |})
  end.

(** The sum of the counts of a dict. *)
Definition total_count (counts : gmap string nat) : nat :=
  map_fold (fun _ n acc => (n + acc)%nat) 0%nat counts.

(** The rows that a preview counts. *)
Definition preview_keeps (colleges years : list string)
    (degree_option gender_option : string) (nationality_option : option string)
    (r : gmap string string) : bool :=
  Py.mem (col_College r) colleges && Py.mem (col_Year r) years
  && degree_mask degree_option r && gender_selects gender_option r
  && nationality_selects nationality_option r.

(** ** The simple mode of the QAA report *)

(** [re.search(pattern, s)] for a pattern whose match at a position is
    unique: the match at the leftmost position that has one. *)
Fixpoint re_search {A} (match_here : string -> option A) (s : string) : option A :=
  match match_here s with
  | Some m => Some m
  | None =>
      match s with
      | EmptyString => None
      | String _ s' => re_search match_here s'
      end
  end.

(** [\d{n}] at the head of [s]: the digits and what follows them. *)
Fixpoint digits (n : nat) (s : string) : option (string * string) :=
  match n with
  | O => Some (EmptyString, s)
  | S n' =>
      match s with
      | String c s' =>
          if Py.is_digit c
          then match digits n' s' with
               | Some (d, rest) => Some (String c d, rest)
               | None => None
               end
          else None
      | EmptyString => None
      end
  end.

(** [(\d{4})-(\d{n})] at the head of [s]: the two groups. *)
Definition year_dash (n : nat) (s : string) : option (string * string) :=
  match digits 4 s with
  | Some (a, String "-" rest) =>
      match digits n rest with
      | Some (b, _) => Some (a, b)
      | None => None
      end
  | _ => None
  end.

(** [(\d{4})] at the head of [s]. *)
Definition four_digits (s : string) : option string :=
  match digits 4 s with
  | Some (a, _) => Some a
  | None => None
  end.

(** [int(s)] on a string of digits, and [str(n)] on an integer. *)
Fixpoint int_from (acc : Z) (s : string) : Z :=
  match s with
  | EmptyString => acc
  | String c s' => int_from (10 * acc + (Z.of_N (Py.code c) - 48)) s'
  end.

Definition int (s : string) : Z := int_from 0 s.

Definition str_int (n : Z) : string :=
  DecimalString.NilZero.string_of_int (Z.to_int n).

(** The helper [extract_academic_year] of [process_simple_mode_report], on
    the strings of the column [_Year].  [\d] is an ASCII digit here; for
    [re] it is any decimal digit of Unicode, so the function stands for
    the helper on ASCII terms. *)
Definition extract_academic_year (graduation_term : string) : string :=
  match re_search (year_dash 4) graduation_term with
  | Some (a, b) => a +:+ "-" +:+ b
  | None =>
      match re_search (year_dash 2) graduation_term with
      | Some (a, b) => a +:+ "-20" +:+ b
      | None =>
          match re_search four_digits graduation_term with
          | Some a =>
              let year := int a in
              let prev_year := year - 1 in
              str_int prev_year +:+ "-" +:+ str_int year
          | None => "Unknown"
          end
      end
  end.

Definition Gender_Normalized (r : gmap string string) : string :=
  Py.upper (Py.strip (cell "Gender" r)).

Definition College_Normalized (r : gmap string string) : string :=
  Py.strip (col_College r).

Definition Academic_Year (r : gmap string string) : string :=
  extract_academic_year (col_Year r).

(** [series.unique()]: the distinct values in the order of their first
    occurrence. *)
Fixpoint unique (l : list string) : list string :=
  match l with
  | [] => []
  | x :: l' => x :: List.filter (fun y => negb (String.eqb y x)) (unique l')
  end.

(** One dict of [summary_data]. *)
Record college_totals : Type := {
  College : string;
  Total_Graduates : nat;
  Gentlemen : nat;
  Ladies : nat
}.

Definition college_totals_of (college : string) (df : list (gmap string string))
  : college_totals :=
  let college_df :=
    List.filter (fun r => String.eqb (College_Normalized r) college) df in
  {| College := college;
     Total_Graduates := length college_df;
     Gentlemen :=
       length (List.filter (fun r => String.eqb (Gender_Normalized r) "MALE") college_df);
     Ladies :=
       length (List.filter (fun r => String.eqb (Gender_Normalized r) "FEMALE")
                 college_df) |}.

(** A sheet of one academic year: its name, its rows and its row [TOTAL]
    (graduates, gentlemen, ladies). *)
Record year_sheet : Type := {
  year_sheet_name : string;
  summary_df : list college_totals;
  TOTAL : nat * nat * nat
}.

Definition year_sheets (filtered_df : list (gmap string string)) : list year_sheet :=
  let academic_years := sorted_unique (map Academic_Year filtered_df) in
  flat_map (fun academic_year =>
    if String.eqb academic_year "Unknown" then []
    else
      let year_df :=
        List.filter (fun r => String.eqb (Academic_Year r) academic_year) filtered_df in
      if is_nil year_df then []
      else
        let colleges_with_data := unique (map College_Normalized year_df) in
        let summary_data :=
          map (fun college => college_totals_of college year_df) colleges_with_data in
        if is_nil summary_data then []
        else
          [ {| year_sheet_name := take_chars 31 (Py.replace "-" "_" academic_year);
               summary_df := summary_data;
               TOTAL := (list_sum (map Total_Graduates summary_data),
                         list_sum (map Gentlemen summary_data),
                         list_sum (map Ladies summary_data)) |} ])
    academic_years.

(** One dict of the summary of all years, and the tab: its rows and its
    row of totals. *)
Record nationality_totals : Type := {
  by_college : college_totals;
  Saudi : nat;
  Non_Saudi : nat
}.

Record all_years_summary : Type := {
  all_years_rows : list nationality_totals;
  Total_of_Graduates : college_totals;
  Total_Saudi : nat;
  Total_Non_Saudi : nat
}.

(** The loop [for x in l: out.append(f(x))] in the monad of exceptions. *)
Fixpoint for_each {A B} (f : A -> M B) (l : list A) : M (list B) :=
  match l with
  | [] => ret []
  | x :: l' => y <~ f x ;; ys <~ for_each f l' ;; ret (y :: ys)
  end.

(** [create_all_years_summary_tab] prints what it catches and writes no tab
    then; it reads the column [Nationality] of each college. *)
Definition create_all_years_summary_tab (filtered_df : DataFrame)
  : option all_years_summary :=
  let colleges_with_data := unique (map College_Normalized (rows filtered_df)) in
  match
    for_each (fun college =>
      let college_df :=
        List.filter (fun r => String.eqb (College_Normalized r) college)
          (rows filtered_df) in
      let totals := college_totals_of college (rows filtered_df) in
      u <~ require_column "Nationality" filtered_df ;;
      let saudi_count := length (List.filter is_saudi college_df) in
      ret {| by_college := totals;
             Saudi := saudi_count;
             Non_Saudi := Total_Graduates totals - saudi_count |})
      colleges_with_data
  with
  | inl _ => None
  | inr summary_data =>
      if is_nil summary_data then None
      else
        Some {| all_years_rows := summary_data;
                Total_of_Graduates :=
                  {| College := "Total of Graduates";
                     Total_Graduates :=
                       list_sum (map (fun t => Total_Graduates (by_college t)) summary_data);
                     Gentlemen :=
                       list_sum (map (fun t => Gentlemen (by_college t)) summary_data);
                     Ladies :=
                       list_sum (map (fun t => Ladies (by_college t)) summary_data) |};
                Total_Saudi := list_sum (map Saudi summary_data);
                Total_Non_Saudi := list_sum (map Non_Saudi summary_data) |}
  end.

Record simple_workbook : Type := {
  sheets_by_year : list year_sheet;
  All_years_summary : option all_years_summary
}.

Definition process_simple_mode_report (filtered_df : DataFrame)
  : response simple_workbook :=
  try_except "Error generating Simple mode report: "
    (ret (Success {| sheets_by_year := year_sheets (rows filtered_df);
                     All_years_summary := create_all_years_summary_tab filtered_df |})).

(** A run of four digits somewhere in [s]. *)
Fixpoint has_four_digits (s : string) : bool :=
  match s with
  | EmptyString => false
  | String c s' =>
      match digits 4 s with
      | Some _ => true
      | None => has_four_digits s'
      end
  end.

(** The sheet that the loop of [year_sheets] writes for one academic year
    with records. *)
Definition sheet_of_year (filtered_df : list (gmap string string))
    (academic_year : string) : year_sheet :=
  let year_df :=
    List.filter (fun r => String.eqb (Academic_Year r) academic_year) filtered_df in
  let summary_data :=
    map (fun college => college_totals_of college year_df)
      (unique (map College_Normalized year_df)) in
  {| year_sheet_name := take_chars 31 (Py.replace "-" "_" academic_year);
     summary_df := summary_data;
     TOTAL := (list_sum (map Total_Graduates summary_data),
               list_sum (map Gentlemen summary_data),
               list_sum (map Ladies summary_data)) |}.

Definition is_MALE (r : gmap string string) : bool :=
  String.eqb (Gender_Normalized r) "MALE".

Definition is_FEMALE (r : gmap string string) : bool :=
  String.eqb (Gender_Normalized r) "FEMALE".

Definition known_year (r : gmap string string) : bool :=
  negb (String.eqb (Academic_Year r) "Unknown").

(** ** The breakdown by gender and nationality

    The sheet that the detailed QAA report adds from [filtered_df_all].
    [groupby([...]).size().unstack(fill_value=0)] has one row for each pair
    of a gender and a nationality category that some record has, in the
    order of the pairs. *)

(** The helper [get_employment_status]; its list of the statuses that
    count as employed is [employed_statuses]. *)
Definition get_employment_status (status : string) : string :=
  if Py.mem status employed_statuses then "Employed"
  else if String.eqb status "Unemployed" then "Unemployed"
  else if String.eqb status "Studying" then "Studying"
  else "Other".

Definition Employment_Status (r : gmap string string) : string :=
  get_employment_status (cell "Current Status" r).

Definition Nationality_Category (r : gmap string string) : string :=
  if String.eqb (Py.strip (cell "Nationality" r)) "Saudi Arabia"
  then "Saudi" else "Non-Saudi".

Module Breakdown.
Record row : Type := {
  College : string;
  Gender : string;
  Nationality_Category : string;
  Employed : nat;
  Unemployed : nat;
  Studying : nat;
  Total : nat;
  Employed_pct : num;
  Unemployed_pct : num;
  Studying_pct : num
}.
End Breakdown.

(** The frame [grouped] of one college, with its added columns. *)
Definition breakdown_of_college (breakdown_df : list (gmap string string))
    (college : string) : list Breakdown.row :=
  let college_df :=
    List.filter (fun r => String.eqb (Py.strip (cell "College" r)) college)
      breakdown_df in
  if is_nil college_df then []
  else
    let emp_df :=
      List.filter (fun r => Py.mem (Employment_Status r)
                              [ "Employed"; "Unemployed"; "Studying" ]) college_df in
    if is_nil emp_df then []
    else
      flat_map (fun gender =>
        flat_map (fun category =>
          let group :=
            List.filter (fun r => String.eqb (cell "Gender" r) gender
                                  && String.eqb (Nationality_Category r) category)
              emp_df in
          if is_nil group then []
          else
            let size status :=
              length (List.filter (fun r => String.eqb (Employment_Status r) status)
                        group) in
            let total := (size "Employed" + size "Unemployed" + size "Studying")%nat in
            let pct n := percentage (Int (Z.of_nat n)) (Int (Z.of_nat total)) in
            [ {| Breakdown.College := college;
                 Breakdown.Gender := gender;
                 Breakdown.Nationality_Category := category;
                 Breakdown.Employed := size "Employed";
                 Breakdown.Unemployed := size "Unemployed";
                 Breakdown.Studying := size "Studying";
                 Breakdown.Total := total;
                 Breakdown.Employed_pct := pct (size "Employed");
                 Breakdown.Unemployed_pct := pct (size "Unemployed");
                 Breakdown.Studying_pct := pct (size "Studying") |} ])
          (sorted_unique (map Nationality_Category emp_df)))
        (sorted_unique (map (cell "Gender") emp_df)).

(** The rows of the sheet [Gender_Nationality_Breakdown], if it is written,
    and the printed lines.  The writer is the one of [openpyxl], whose
    worksheet has no [set_column]: the rows are written, then the setting
    of the widths raises, which is caught and printed. *)
Definition create_gender_nationality_breakdown (filtered_df : DataFrame)
    (colleges : list string) : option (list Breakdown.row) * list string :=
  if negb (has_column "Gender" filtered_df)
  then (None, [ "Warning: Gender column not found in dataset" ])
  else if negb (has_column "Nationality" filtered_df)
  then (None, [ "Warning: Nationality column not found in dataset" ])
  else if negb (has_column "Current Status" filtered_df)
  then (None, [ "Warning: Current Status column not found in dataset" ])
  else
    let college_results :=
      List.filter (fun grouped => negb (is_nil grouped))
        (map (breakdown_of_college (rows filtered_df)) colleges) in
    if is_nil college_results then (None, [])
    else (Some (concat college_results),
          [ "Error creating breakdown sheet: "
            +:+ "'Worksheet' object has no attribute 'set_column'" ]).

(** The records of a college that the breakdown counts. *)
Definition counted_in_breakdown (college : string) (r : gmap string string) : bool :=
  String.eqb (Py.strip (cell "College" r)) college
  && negb (String.eqb (Employment_Status r) "Other").

(** ** Loading a roster

    [load_excel_data] on the frame that [pd.read_excel(file_path, dtype=str)]
    gives once the names of its columns are stripped; a key that a row
    lacks is an empty cell ([NaN]).  When two columns have the same
    stripped name, [df[col]] is a frame, which has no [.str]: the
    [AttributeError] is caught like any exception.  The file is read a
    second time by
    [extract_graduation_years], which looks at the cell [O1] of the sheet
    when the column of the years is not there.  The function writes the
    store and the global list [graduation_years], so it returns them; of
    the stored entry the model keeps the frame and the name of the file.
    The warnings are kept as values, not as the sentences made of them. *)

Definition college_options : list string :=
  [ "College of Engineering & Advan";
    "College of Business";
    "College of Science & General S";
    "College of Medicine";
    "College of Pharmacy" ].

Definition default_graduation_years : list string :=
  [ "2010-2011 Spring"; "2010-2011 Summer";
    "2011-2012 Spring"; "2011-2012 Summer";
    "2012-2013 FALL"; "2012-2013 Spring"; "2012-2013 Summer";
    "2013-2014 FALL"; "2013-2014 Spring"; "2013-2014 Summer";
    "2014-2015 FALL"; "2014-2015 Spring"; "2014-2015 Summer";
    "2015-2016 FALL"; "2015-2016 Spring"; "2015-2016 Summer";
    "2016-2017 FALL"; "2016-2017 Spring"; "2016-2017 Summer";
    "2017-2018 FALL"; "2017-2018 Spring"; "2017-2018 Summer";
    "2018-2019 FALL"; "2018-2019 Spring"; "2018-2019 Summer";
    "2019-2020 FALL"; "2019-2020 Spring"; "2019-2020 Summer";
    "2020-2021 FALL"; "2020-2021 Spring"; "2020-2021 Summer";
    "2021-2022 FALL"; "2021-2022 Spring"; "2021-2022 Summer";
    "2022-2023 FALL"; "2022-2023 Spring"; "2022-2023 Summer";
    "2023-2024 Spring"; "2023-2024 FALL"; "2023-2024 Summer";
    "2024-2025 FALL" ].

Definition banner_required_columns : list string :=
  [ "Student ID"; "Student Name"; "College"; "Graduation Term"; "Major"; "Gender" ].

Definition alumni_required_columns : list string :=
  [ "College"; "Year/Semester of Graduation"; "Current Status"; "Student ID";
    "Gender"; "Major"; "Current Workplace"; "Current Position" ].

Definition optional_columns : list string :=
  [ "Nationality"; "Industry"; "Full Time or Part Time"; "Degree";
    "Personal Email"; "Phone Number"; "Minor"; "Concentration"; "GPA" ].

(** The frame of an alumni file: not taken for a Banner file, with every
    required column.  These are the frames that the reports and the
    previews are modelled on. *)
Definition is_alumni_roster (df : DataFrame) : bool :=
  negb (has_column "Graduation Term" df && has_column "Student Name" df)
  && forallb (fun col => has_column col df) alumni_required_columns.

(** A label that two columns of the file have once the labels are
    stripped: [df[col]] is a frame then, not a series. *)
Definition duplicated (col : string) (df : DataFrame) : bool :=
  (1 <? length (List.filter (String.eqb col) (columns df)))%nat.

(** The statuses of a frame are ASCII text; every cell of the frame is. *)
Definition ascii_statuses (df : DataFrame) : bool :=
  forallb (fun r => Py.isascii (cell "Current Status" r)) (rows df).

Definition isascii_frame (df : DataFrame) : bool :=
  forallb (fun r => forallb (fun col => Py.isascii (cell col r)) (columns df))
    (rows df).

(** The options of a request are ASCII text. *)
Definition isascii_option (o : option string) : bool :=
  match o with
  | Some s => Py.isascii s
  | None => true
  end.

Definition isascii_options (gender_option : string)
    (nationality_option : option string) (statuses : list string) : bool :=
  Py.isascii gender_option && isascii_option nationality_option
  && forallb Py.isascii statuses.



(** [sep.join(l)] *)
Fixpoint join (sep : string) (l : list string) : string :=
  match l with
  | [] => ""
  | x :: l' =>
      match l' with
      | [] => x
      | _ :: _ => x +:+ sep +:+ join sep l'
      end
  end.

(** [df[name] = f(row)]: a new column goes last. *)
Definition assign (name : string) (f : gmap string string -> string) (df : DataFrame)
  : DataFrame :=
  {| columns := if Py.mem name (columns df) then columns df else columns df ++ [ name ];
     rows := map (fun r => <[name := f r]> r) (rows df) |}.

(** [\d*$]: digits up to the end, or up to a last line feed. *)
Fixpoint digits_to_end (s : string) : bool :=
  match s with
  | EmptyString => true
  | String c s' =>
      if Py.is_digit c then digits_to_end s'
      else Ascii.eqb c "010" && Py.is_empty s'
  end.

(** [re.match(r'^[0-9G]\d*$', s)] *)
Definition valid_Student_ID (s : string) : bool :=
  match s with
  | EmptyString => false
  | String c s' => (Py.is_digit c || Ascii.eqb c "G") && digits_to_end s'
  end.

(** [df[name].dropna()] *)
Definition dropna (name : string) (df : DataFrame) : list string :=
  omap (fun r : gmap string string => r !! name) (rows df).

(** [extract_graduation_years] on the frame of the file and its cell [O1]:
    the years and the warnings. *)
Definition extract_graduation_years (df : DataFrame) (O1 : option string)
  : list string * list string :=
  if has_column "Year/Semester of Graduation" df then
    let years :=
      unique (map Py.strip (dropna "Year/Semester of Graduation" df)) in
    (merge_sort String.le years, [])
  else if truthy O1 && Py.contains "Year/Semester of Graduation" (default "" O1)
  then (default_graduation_years,
        [ "Could not extract graduation years from O1, using defaults" ])
  else (default_graduation_years,
        [ "Cell O1 does not contain Year/Semester of Graduation" ]).

Inductive warning : Type :=
  | Missing_optional_columns (missing_optional : list string)
  | Invalid_Student_IDs (n : nat)
  | Year_extraction (msg : string)
  | Invalid_graduation_years (n : nat) (unique_invalid_years : list string)
      (at_rows : list nat) (more : bool)
  | Invalid_colleges (n : nat)
  | Unexpected_statuses (unexpected_values : list string).

(** [series.min()] and [series.max()] of strings. *)
Definition min_max (l : list string) : option (string * string) :=
  match l with
  | [] => None
  | x :: l' =>
      Some (fold_left (fun m y => if String.ltb y m then y else m) l' x,
            fold_left (fun m y => if String.ltb m y then y else m) l' x)
  end.

Record load_stats : Type := {
  warnings : list warning;
  record_count : nat;
  unique_colleges : nat;
  college_distribution : gmap string nat;
  year_range : option (string * string);
  gender_distribution : gmap string nat;
  is_banner : bool
}.

(** The rows of a frame with their positions. *)
Definition indexed (l : list (gmap string string)) : list (nat * gmap string string) :=
  combine (seq 0 (length l)) l.

Definition load_excel_data (session_data : gmap string session)
    (graduation_years : list string) (df : DataFrame) (O1 : option string)
    (file_name session_id : string)
  : response load_stats * gmap string session * list string :=
  let raw := df in
  let is_banner_file :=
    has_column "Graduation Term" df && has_column "Student Name" df in
  let required_columns :=
    if is_banner_file then banner_required_columns else alumni_required_columns in
  let missing_columns :=
    List.filter (fun col => negb (has_column col df)) required_columns in
  if negb (is_nil missing_columns) then
    (Error ("Missing required columns: " +:+ join ", " missing_columns),
     session_data, graduation_years)
  else
    let missing_optional :=
      List.filter (fun col => negb (has_column col df)) optional_columns in
    let warnings :=
      if negb (is_nil missing_optional)
      then [ Missing_optional_columns missing_optional ] else [] in
    if existsb (fun col => duplicated col df) (required_columns ++ optional_columns)
    then
      (Error "Error loading data: 'DataFrame' object has no attribute 'str'",
       session_data, graduation_years)
    else
    let df :=
      fold_left (fun df col => apply_column col Py.strip df) required_columns df in
    let df :=
      fold_left (fun df col =>
                   if has_column col df then apply_column col Py.strip df else df)
        optional_columns df in
    let invalid_ids :=
      List.filter (fun r => negb (String.eqb (cell "Student ID" r) "")
                            && negb (valid_Student_ID (cell "Student ID" r)))
        (rows df) in
    let warnings :=
      if negb (is_nil invalid_ids)
      then warnings ++ [ Invalid_Student_IDs (length invalid_ids) ] else warnings in
    let df := assign "_College" (fun r => Py.strip (cell "College" r)) df in
    let df :=
      if is_banner_file
      then assign "_Year" (fun r => Py.strip (cell "Graduation Term" r)) df
      else
        assign "_CurrentStatus"
          (fun r => Py.capitalize (Py.lower (Py.strip (cell "Current Status" r))))
          (assign "_Year" (fun r => Py.strip (cell "Year/Semester of Graduation" r)) df) in
    let '(years_from_file, year_warnings) := extract_graduation_years raw O1 in
    let warnings := warnings ++ map Year_extraction year_warnings in
    let graduation_years :=
      if negb (is_nil years_from_file) && negb is_banner_file
      then years_from_file else graduation_years in
    let years_to_validate :=
      if negb (is_nil years_from_file) then years_from_file else graduation_years in
    let years_to_validate :=
      if is_nil years_to_validate then default_graduation_years
      else years_to_validate in
    let invalid_years :=
      List.filter (fun ir => negb (Py.mem (cell "_Year" (snd ir)) years_to_validate))
        (indexed (rows df)) in
    let warnings :=
      if negb (is_nil invalid_years)
      then
        warnings ++
        [ Invalid_graduation_years (length invalid_years)
            (unique (map (fun ir => cell "_Year" (snd ir)) invalid_years))
            (firstn 10 (map fst invalid_years))
            (10 <? length invalid_years)%nat ]
      else warnings in
    let invalid_colleges :=
      List.filter (fun r => negb (Py.mem (cell "_College" r) college_options))
        (rows df) in
    let warnings :=
      if negb (is_nil invalid_colleges)
      then warnings ++ [ Invalid_colleges (length invalid_colleges) ] else warnings in
    let '(df, warnings) :=
      if negb is_banner_file && has_column "Current Status" df
      then
        let df :=
          assign "_CurrentStatus"
            (fun r => clean_status (PyStr (cell "Current Status" r))) df in
        let normalized_expected_statuses :=
          map (fun status => clean_status (PyStr status)) expected_current_status in
        let unexpected_statuses :=
          List.filter (fun r => negb (Py.mem (cell "_CurrentStatus" r)
                                        normalized_expected_statuses)) (rows df) in
        (df,
         if negb (is_nil unexpected_statuses)
         then warnings ++
              [ Unexpected_statuses
                  (unique (map (cell "_CurrentStatus") unexpected_statuses)) ]
         else warnings)
      else (df, warnings) in
    (Success {| warnings := warnings;
                record_count := length (rows df);
                unique_colleges := length (unique (map (cell "_College") (rows df)));
                college_distribution := value_counts (map (cell "_College") (rows df));
                year_range := min_max (map (cell "_Year") (rows df));
                gender_distribution := value_counts (map (cell "Gender") (rows df));
                is_banner := is_banner_file |},
     <[session_id := {| data := df; file_name := file_name |}]> session_data,
     graduation_years).

(** The row that the cleaning of the columns [cols] makes of [r], and the
    frame that a successful load of an alumni file stores. *)
Definition strip_cells (cols : list string) (r : gmap string string)
  : gmap string string :=
  fold_left (fun r col => <[col := Py.strip (cell col r)]> r) cols r.

Definition loaded_alumni_frame (df : DataFrame) : DataFrame :=
  let df :=
    fold_left (fun df col => apply_column col Py.strip df) alumni_required_columns df in
  let df :=
    fold_left (fun df col =>
                 if has_column col df then apply_column col Py.strip df else df)
      optional_columns df in
  let df := assign "_College" (fun r => Py.strip (cell "College" r)) df in
  let df :=
    assign "_Year" (fun r => Py.strip (cell "Year/Semester of Graduation" r)) df in
  let df :=
    assign "_CurrentStatus"
      (fun r => Py.capitalize (Py.lower (Py.strip (cell "Current Status" r)))) df in
  assign "_CurrentStatus" (fun r => clean_status (PyStr (cell "Current Status" r))) df.

(** An alumni file that loads: the frame of an alumni file in which no
    required or optional column comes twice. *)
Definition is_alumni_file (df : DataFrame) : bool :=
  is_alumni_roster df
  && negb (existsb (fun col => duplicated col df)
             (alumni_required_columns ++ optional_columns)).

(** A file in which the year cell of the second graduate is empty. *)
Definition sample_roster_missing_year : DataFrame :=
  {| columns := roster_columns;
     rows :=
       [ roster_row "1001" "Amal" "College of Business" "2013-2014 FALL" "Employed"
           "Female" "Finance" "SNB" "Chief Accountant" "Saudi Arabia";
         delete "Year/Semester of Graduation"
           (roster_row "G1002" "Badr" "College of Business" "" "unemployed"
              "Male" "Finance" "N/A" "" "Egypt") ] |}.

(** The rows of the file without a cell for the graduation year. *)
Definition without_year (r : gmap string string) : bool :=
  match r !! "Year/Semester of Graduation" with
  | Some _ => false
  | None => true
  end.

(** * Properties *)

(** ** Scenarios of the specification *)

Example normalize_snb : normalize_company_name (PyStr "snb ") = "SAUDI NATIONAL BANK".
Proof. vm_compute. reflexivity. Qed.

Example normalize_empty : normalize_company_name (PyStr "") = "EMPTY (COMPLETELY EMPTY)".
Proof. vm_compute. reflexivity. Qed.

Example normalize_na : normalize_company_name (PyStr "N/A") = "EMPTY (PLACEHOLDER)".
Proof. vm_compute. reflexivity. Qed.

Example normalize_suffix :
  normalize_company_name (PyStr "Acme Trading Co Ltd") = "ACME TRADING".
Proof. vm_compute. reflexivity. Qed.

Example high_it_director : is_high_position (PyStr "IT Director") = Some "DIRECTOR".
Proof. vm_compute. reflexivity. Qed.

Example high_directory :
  is_high_position (PyStr "Directory Administrator") = None.
Proof. vm_compute. reflexivity. Qed.

Example high_head_of_department :
  is_high_position (PyStr "Head of Department") = Some "HEAD".
Proof. vm_compute. reflexivity. Qed.

Example high_head_chef : is_high_position (PyStr "Head Chef") = None.
Proof. vm_compute. reflexivity. Qed.

Example clean_status_employed : clean_status (PyStr "  EMPLOYED ") = "Employed".
Proof. vm_compute. reflexivity. Qed.

Example clean_status_new_graduate :
  clean_status (PyStr "NEW GRADUATE") = "New graduate".
Proof. vm_compute. reflexivity. Qed.

(** ** The company normalizer *)

Lemma mem_In x l : Py.mem x l = true -> In x l.
Proof.
  unfold Py.mem. induction l as [|y l IH]; simpl; [discriminate|].
  destruct (String.eqb_spec x y) as [->|_]; [now left|].
  intros H. right. now apply IH.
Qed.

Lemma dict_get_In {A} k (d : list (string * A)) v :
  Py.dict_get k d = Some v -> In v (map snd d).
Proof.
  induction d as [|[k' v'] d IH]; simpl; [discriminate|].
  destruct (String.eqb k k'); [intros [= ->]; now left | intros H; right; auto].
Qed.

Lemma match_empty_pattern_In name tbl y :
  match_empty_pattern name tbl = Some y ->
  In y (map (fun c => "EMPTY (" +:+ fst c +:+ ")") tbl).
Proof.
  induction tbl as [|[category patterns] tbl IH]; simpl; [discriminate|].
  destruct (Py.mem name patterns); [intros [= <-]; now left | intros H; right; auto].
Qed.

(** Every sentinel of the empty table is a fixed point. *)
Lemma sentinels_fixed y :
  In y (map (fun c => "EMPTY (" +:+ fst c +:+ ")") empty_patterns) ->
  normalize_company_name (PyStr y) = y.
Proof.
  simpl. intros H.
  repeat (destruct H as [<-|H]; [vm_compute; reflexivity|]).
  destruct H.
Qed.

(** A canonical name of the alias table is a fixed point, the four
    unstable ones apart. *)
Lemma canonical_fixed c :
  In c (map snd company_aliases) -> ~ In c unstable_canonical_names ->
  normalize_company_name (PyStr c) = c.
Proof.
  intros H Hstable. simpl in H.
  repeat (destruct H as [<-|H];
          [first [ vm_compute; reflexivity
                 | exfalso; apply Hstable; vm_compute; tauto ]|]).
  destruct H.
Qed.

Lemma normalize_cleaned_empty name sentinel :
  match_empty_pattern name empty_patterns = Some sentinel ->
  normalize_cleaned name = sentinel.
Proof. unfold normalize_cleaned. intros ->. reflexivity. Qed.

Lemma normalize_cleaned_alias name canonical :
  match_empty_pattern name empty_patterns = None ->
  Py.dict_get name company_aliases = Some canonical ->
  normalize_cleaned name = canonical.
Proof. unfold normalize_cleaned. intros -> ->. reflexivity. Qed.

(** C1 (as amended): normalizing twice is normalizing once for every input
    that the tables settle: a missing or non-string value, a string whose
    cleaned form is an empty pattern, and an alias whose canonical name is
    not one of the four unstable names. *)
Theorem normalize_idempotent_on_table (x : pyval) :
  settled_by_table x ->
  normalize_company_name (PyStr (normalize_company_name x)) = normalize_company_name x.
Proof.
  destruct x as [| |n|s]; intros H;
    [vm_compute; reflexivity | vm_compute; reflexivity | vm_compute; reflexivity |].
  unfold settled_by_table in H. cbv zeta in H.
  change (normalize_company_name (PyStr s))
    with (normalize_cleaned (Py.upper (Py.strip s))).
  destruct (match_empty_pattern (Py.upper (Py.strip s)) empty_patterns)
    as [sentinel|] eqn:Hempty.
  - rewrite (normalize_cleaned_empty _ _ Hempty).
    apply sentinels_fixed. eapply match_empty_pattern_In; eassumption.
  - destruct H as [[? [=]]|(canonical & Halias & Hstable)].
    rewrite (normalize_cleaned_alias _ _ Hempty Halias).
    apply canonical_fixed; [|assumption].
    eapply dict_get_In; eassumption.
Qed.

Lemma normalize_idempotent_on_table_witness :
  normalize_company_name (PyStr (normalize_company_name (PyStr " snb ")))
  = normalize_company_name (PyStr " snb ").
Proof.
  apply (normalize_idempotent_on_table (PyStr " snb ")).
  right. exists "SAUDI NATIONAL BANK". split; [vm_compute; reflexivity|].
  vm_compute. intuition discriminate.
Defined.

(** C1 (as stated) fails: the output for [BCG] is changed by a second
    pass, which strips [" CO"] and [" GROUP"] from it. *)
Lemma normalize_not_idempotent :
  normalize_company_name (PyStr "BCG") = "BOSTON CONSULTING GROUP" /\
  normalize_company_name (PyStr (normalize_company_name (PyStr "BCG")))
  = "BOSTONNSULTING" /\
  normalize_company_name (PyStr (normalize_company_name (PyStr "BCG")))
  <> normalize_company_name (PyStr "BCG").
Proof. vm_compute. repeat split; discriminate. Qed.

(** Each of the four unstable canonical names is changed by the normalizer. *)
Lemma unstable_canonical_names_change :
  map (fun c => normalize_company_name (PyStr c)) unstable_canonical_names
  = [ "BOSTONNSULTING"; "DR. SULAIMAN AL HABIB MEDICAL"; "SAUDI TELECOMMPANY";
      "SAUDI BASIC INDUSTRIES" ].
Proof. vm_compute. reflexivity. Qed.

(** The suffix rules alone break idempotence as well: one pass removes the
    occurrences of a word that are there, not those it uncovers. *)
Lemma suffix_rules_not_idempotent :
  normalize_company_name (PyStr "ACME L LTDTD") = "ACME LTD" /\
  normalize_company_name (PyStr "ACME LTD") = "ACME".
Proof. vm_compute. split; reflexivity. Qed.

(** C7 (as amended): a missing input gives [EMPTY (NULL)], another
    non-string input gives [EMPTY (INVALID TYPE)], and a blank string gives
    [EMPTY (COMPLETELY EMPTY)]. *)
Theorem normalize_degenerate_inputs (x : pyval) (k : input_kind) :
  kind_of x = Some k -> normalize_company_name x = sentinel_of k.
Proof.
  destruct x as [| |n|s]; try (intros [= <-]; reflexivity).
  unfold kind_of.
  change (normalize_company_name (PyStr s))
    with (normalize_cleaned (Py.upper (Py.strip s))).
  destruct (Py.strip s) as [|c t]; [|discriminate].
  intros [= <-]. vm_compute. reflexivity.
Qed.

Lemma normalize_degenerate_inputs_witness :
  normalize_company_name (PyStr "   ") = "EMPTY (COMPLETELY EMPTY)".
Proof.
  apply (normalize_degenerate_inputs (PyStr "   ") Blank). vm_compute. reflexivity.
Defined.

(** C7 (as stated) fails: a number and a blank string do not give
    [EMPTY (NULL)]. *)
Lemma normalize_degenerate_not_null :
  kind_of (PyInt 5) = Some NonString /\
  normalize_company_name (PyInt 5) = "EMPTY (INVALID TYPE)" /\
  normalize_company_name (PyInt 5) <> "EMPTY (NULL)" /\
  kind_of (PyStr "  ") = Some Blank /\
  normalize_company_name (PyStr "  ") = "EMPTY (COMPLETELY EMPTY)" /\
  normalize_company_name (PyStr "  ") <> "EMPTY (NULL)".
Proof. vm_compute. repeat split; discriminate. Qed.

(** ** The job-title classifier *)

(** The test on the length leaves [HEAD] as the only guarded keyword. *)
Lemma needs_context_only_head :
  map needs_context guarded_keywords = [ true; false; false ].
Proof. vm_compute. reflexivity. Qed.

(** One step of the scan: a keyword that needs no context is accepted as
    soon as it is found; one that needs it is accepted with a contextual
    word and passed over without. *)
Lemma scan_step_unguarded position keyword normalized tbl :
  Py.search_word keyword position = true -> needs_context keyword = false ->
  scan_keywords position ((keyword, normalized) :: tbl) = Some normalized.
Proof. intros Hfound Hfree. cbn [scan_keywords]. now rewrite Hfound, Hfree. Qed.

Lemma scan_step_guarded position keyword normalized tbl :
  Py.search_word keyword position = true -> needs_context keyword = true ->
  scan_keywords position ((keyword, normalized) :: tbl)
  = if has_leadership_context position then Some normalized
    else scan_keywords position tbl.
Proof. intros Hfound Hguard. cbn [scan_keywords]. now rewrite Hfound, Hguard. Qed.

(** The scan passes over the keywords that are not found. *)
Lemma scan_skip position (skipped tbl : list (string * string)) :
  (forall keyword, In keyword (map fst skipped) ->
     Py.search_word keyword position = false) ->
  scan_keywords position (skipped ++ tbl) = scan_keywords position tbl.
Proof.
  induction skipped as [|[keyword normalized] skipped IH]; intros H; [reflexivity|].
  cbn [app scan_keywords]. rewrite (H keyword (or_introl eq_refl)).
  apply IH. intros k Hk. apply H. now right.
Qed.

(** Whatever the title holds besides, [CHIEF] is accepted where the scan
    reaches it, and so is [OWNER]; [HEAD] alone waits for a contextual
    word. *)
Lemma chief_accepted_without_test position :
  (forall keyword, In keyword (map fst (firstn 13 high_position_mapping)) ->
     Py.search_word keyword position = false) ->
  Py.search_word "CHIEF" position = true ->
  scan_keywords position high_position_mapping = Some "CHIEF".
Proof.
  intros Hbefore Hfound.
  change high_position_mapping
    with (firstn 13 high_position_mapping ++ skipn 13 high_position_mapping).
  rewrite scan_skip by exact Hbefore.
  apply scan_step_unguarded; [exact Hfound|reflexivity].
Qed.

Lemma owner_accepted_without_test position :
  (forall keyword, In keyword (map fst (firstn 33 high_position_mapping)) ->
     Py.search_word keyword position = false) ->
  Py.search_word "OWNER" position = true ->
  scan_keywords position high_position_mapping = Some "OWNER".
Proof.
  intros Hbefore Hfound.
  change high_position_mapping
    with (firstn 33 high_position_mapping ++ skipn 33 high_position_mapping).
  rewrite scan_skip by exact Hbefore.
  apply scan_step_unguarded; [exact Hfound|reflexivity].
Qed.

Lemma head_waits_for_context position :
  (forall keyword, In keyword (map fst (firstn 24 high_position_mapping)) ->
     Py.search_word keyword position = false) ->
  Py.search_word "HEAD" position = true ->
  scan_keywords position high_position_mapping
  = if has_leadership_context position then Some "HEAD"
    else scan_keywords position (skipn 25 high_position_mapping).
Proof.
  intros Hbefore Hfound.
  change high_position_mapping
    with (firstn 24 high_position_mapping ++ skipn 24 high_position_mapping).
  rewrite scan_skip by exact Hbefore.
  apply scan_step_guarded; [exact Hfound|reflexivity].
Qed.

(** C5: the code accepts [CHIEF] and [OWNER] without any contextual word.
    [Chief Accountant] and [Shop Owner] are no keys of the mapping and hold
    none of [OF], [DEPARTMENT], [DIVISION], [TEAM], and are classified. *)
Theorem chief_owner_accepted_without_context :
  Py.dict_get "CHIEF ACCOUNTANT" high_position_mapping = None /\
  has_leadership_context "CHIEF ACCOUNTANT" = false /\
  is_high_position (PyStr "Chief Accountant") = Some "CHIEF" /\
  Py.dict_get "SHOP OWNER" high_position_mapping = None /\
  has_leadership_context "SHOP OWNER" = false /\
  is_high_position (PyStr "Shop Owner") = Some "OWNER".
Proof. vm_compute. repeat split; reflexivity. Qed.

(** ** Lists and cells *)

Lemma filter_filter_and {A} (f g : A -> bool) l :
  List.filter f (List.filter g l) = List.filter (fun x => g x && f x) l.
Proof.
  induction l as [|x l IH]; [reflexivity|]. simpl.
  destruct (g x); simpl; [destruct (f x); simpl; congruence | exact IH].
Qed.

Lemma filter_map_comm {A B} (f : B -> bool) (h : A -> B) l :
  List.filter f (map h l) = map h (List.filter (fun x => f (h x)) l).
Proof.
  induction l as [|x l IH]; [reflexivity|]. simpl.
  destruct (f (h x)); simpl; congruence.
Qed.

Lemma filter_none {A} (f : A -> bool) l :
  (forall x, In x l -> f x = false) -> List.filter f l = [].
Proof.
  induction l as [|x l IH]; [reflexivity|]. intros H. simpl.
  rewrite (H x (or_introl eq_refl)). apply IH. intros y Hy. apply H. now right.
Qed.

Lemma filter_all {A} (f : A -> bool) l :
  (forall x, f x = true) -> List.filter f l = l.
Proof.
  intros H. induction l as [|x l IH]; [reflexivity|]. simpl.
  now rewrite H, IH.
Qed.

Lemma cell_insert_ne name k v r : name <> k -> cell name (<[k := v]> r) = cell name r.
Proof. intros H. unfold cell. rewrite lookup_insert_ne by congruence. reflexivity. Qed.

Lemma cell_insert_eq k v r : cell k (<[k := v]> r) = v.
Proof. unfold cell. rewrite lookup_insert_eq. reflexivity. Qed.

(** Writing the column [Current Status] leaves what the filters read. *)
Section status_write.
Variables (v : string) (r : gmap string string).

Lemma col_College_status : col_College (<["Current Status" := v]> r) = col_College r.
Proof. unfold col_College. rewrite cell_insert_ne by discriminate. reflexivity. Qed.

Lemma col_Year_status : col_Year (<["Current Status" := v]> r) = col_Year r.
Proof. unfold col_Year. rewrite cell_insert_ne by discriminate. reflexivity. Qed.

Lemma is_graduate_status : is_graduate (<["Current Status" := v]> r) = is_graduate r.
Proof. unfold is_graduate. rewrite cell_insert_ne by discriminate. reflexivity. Qed.

Lemma degree_mask_status d :
  degree_mask d (<["Current Status" := v]> r) = degree_mask d r.
Proof. unfold degree_mask. rewrite is_graduate_status. reflexivity. Qed.

Lemma gender_is_status g : gender_is g (<["Current Status" := v]> r) = gender_is g r.
Proof. unfold gender_is. rewrite cell_insert_ne by discriminate. reflexivity. Qed.

Lemma is_saudi_status : is_saudi (<["Current Status" := v]> r) = is_saudi r.
Proof. unfold is_saudi. rewrite cell_insert_ne by discriminate. reflexivity. Qed.

Lemma college_cell_status :
  cell "College" (<["Current Status" := v]> r) = cell "College" r.
Proof. apply cell_insert_ne. discriminate. Qed.
End status_write.

Create Rewrite HintDb cells.
#[local] Hint Rewrite col_College_status col_Year_status is_graduate_status
  degree_mask_status gender_is_status is_saudi_status college_cell_status
  cell_insert_eq : cells.

(** ** The filters of the requests *)

Lemma nationality_cases (n : option string) :
  (truthy n && String.eqb (option_lower n) "saudi" = true /\
   truthy n && String.eqb (option_lower n) "non-saudi" = false /\
   truthy n && negb (String.eqb (option_lower n) "all") = true /\
   reads_Nationality n = true) \/
  (truthy n && String.eqb (option_lower n) "saudi" = false /\
   truthy n && String.eqb (option_lower n) "non-saudi" = true /\
   truthy n && negb (String.eqb (option_lower n) "all") = true /\
   String.eqb (option_lower n) "saudi" = false /\
   reads_Nationality n = true) \/
  (truthy n && String.eqb (option_lower n) "saudi" = false /\
   truthy n && String.eqb (option_lower n) "non-saudi" = false /\
   (truthy n = false \/
    String.eqb (option_lower n) "saudi" = false /\
    String.eqb (option_lower n) "non-saudi" = false) /\
   reads_Nationality n = false).
Proof.
  unfold reads_Nationality.
  destruct (truthy n); cbn [andb];
    [|right; right; split; [|split; [|split]]; auto].
  destruct (String.eqb_spec (option_lower n) "saudi") as [->|_];
    [left; split; [|split; [|split]]; reflexivity|].
  destruct (String.eqb_spec (option_lower n) "non-saudi") as [->|_];
    [right; left; split; [|split; [|split; [|split]]]; reflexivity|].
  right; right; split; [|split; [|split]]; auto.
Qed.

(** The optional filters on the degree and on the gender are filters by
    [degree_mask] and [gender_selects]. *)
Lemma degree_filter d (l : list (gmap string string)) :
  (if String.eqb d "bachelor"
   then List.filter (fun r => negb (is_graduate r)) l
   else if String.eqb d "master" then List.filter is_graduate l else l)
  = List.filter (degree_mask d) l.
Proof.
  unfold degree_mask.
  destruct (String.eqb d "bachelor"); [reflexivity|].
  destruct (String.eqb d "master"); [reflexivity|].
  symmetry. now apply filter_all.
Qed.

Lemma gender_filter g (l : list (gmap string string)) :
  (if negb (String.eqb (Py.lower g) "all")
   then List.filter (gender_is g) l else l)
  = List.filter (gender_selects g) l.
Proof.
  unfold gender_selects.
  destruct (String.eqb (Py.lower g) "all"); cbn [negb orb]; [|reflexivity].
  symmetry. now apply filter_all.
Qed.

(** The chain of filters of the QAA report keeps what [qaa_keeps] says, as
    long as the column [Nationality] is there when it is read. *)
Lemma qaa_filter_keeps df colleges years d g n mode :
  has_column "Nationality" df = true \/ reads_Nationality n = false
    \/ String.eqb mode "simple" = true ->
  exists filtered_df_all,
    qaa_filter df colleges years d g n mode
    = inr (filtered_df_all,
           List.filter (qaa_keeps colleges years d g n mode)
             (rows (apply_column "Current Status" (fun s => clean_status (PyStr s)) df))).
Proof.
  intros Hcol. unfold qaa_filter.
  set (l := rows (apply_column _ _ df)).
  assert (Hhas : has_column "Nationality"
                   (apply_column "Current Status" (fun s => clean_status (PyStr s)) df)
                 = has_column "Nationality" df) by reflexivity.
  destruct (String.eqb mode "simple") eqn:Hmode.
  { eexists. unfold ret. do 2 f_equal. rewrite filter_filter_and.
    apply List.filter_ext. intros r. unfold qaa_keeps. rewrite Hmode.
    cbn [orb]. now rewrite andb_true_r. }
  unfold require_column. rewrite Hhas, degree_filter, gender_filter.
  assert (Hshape : forall p : gmap string string -> bool,
             (forall r, p r = nationality_selects n r) ->
             List.filter p
               (List.filter (gender_selects g)
                  (List.filter (degree_mask d)
                     (List.filter (fun r => Py.mem (col_Year r) years)
                        (List.filter (fun r => Py.mem (col_College r) colleges) l))))
             = List.filter (qaa_keeps colleges years d g n mode) l).
  { intros p Hp. rewrite !filter_filter_and. apply List.filter_ext. intros r.
    unfold qaa_keeps. rewrite Hmode, Hp. cbn [orb].
    now rewrite !andb_assoc. }
  destruct (nationality_cases n)
    as [(Hs & Hn & _ & Hr)|[(Hs & Hn & _ & _ & Hr)|(Hs & Hn & _ & Hr)]];
    rewrite Hs; try rewrite Hn.
  - destruct Hcol as [Hc|[Hc|Hc]]; [|congruence|congruence].
    rewrite Hc. cbn [bind ret]. eexists. do 2 f_equal.
    apply Hshape. intros r. unfold nationality_selects. now rewrite Hs.
  - destruct Hcol as [Hc|[Hc|Hc]]; [|congruence|congruence].
    rewrite Hc. cbn [bind ret]. eexists. do 2 f_equal.
    apply Hshape. intros r. unfold nationality_selects. now rewrite Hs, Hn.
  - cbn [bind ret]. eexists. do 2 f_equal.
    rewrite <- (Hshape (fun _ => true)).
    + symmetry. now apply filter_all.
    + intros r. unfold nationality_selects. now rewrite Hs, Hn.
Qed.

(** The same for the alumni list, on the frame whose statuses are cleaned. *)
Lemma alumni_filter_keeps df colleges years allowed g n d :
  has_column "Nationality" df = true \/ reads_Nationality n = false ->
  alumni_filter df colleges years allowed g n d
  = inr (List.filter
           (fun r =>
              Py.mem (col_College r) colleges && Py.mem (col_Year r) years
              && degree_mask d r && gender_selects g r && nationality_selects n r
              && Py.mem (cell "Current Status" r)
                   (map (fun s => clean_status (PyStr s)) allowed))
           (rows df)).
Proof.
  intros Hcol. unfold alumni_filter, require_column.
  rewrite degree_filter, gender_filter.
  set (l := rows df).
  assert (Hshape : forall p : gmap string string -> bool,
             (forall r, p r = nationality_selects n r) ->
             List.filter (fun r => Py.mem (cell "Current Status" r)
                                     (map (fun s => clean_status (PyStr s)) allowed))
               (List.filter p
                  (List.filter (gender_selects g)
                     (List.filter (degree_mask d)
                        (List.filter (fun r => Py.mem (col_Year r) years)
                           (List.filter
                              (fun r => Py.mem (Py.strip (cell "College" r)) colleges)
                              l)))))
             = List.filter
                 (fun r =>
                    Py.mem (col_College r) colleges && Py.mem (col_Year r) years
                    && degree_mask d r && gender_selects g r
                    && nationality_selects n r
                    && Py.mem (cell "Current Status" r)
                         (map (fun s => clean_status (PyStr s)) allowed)) l).
  { intros p Hp. rewrite !filter_filter_and. apply List.filter_ext. intros r.
    rewrite Hp. unfold col_College. now rewrite !andb_assoc. }
  destruct (nationality_cases n)
    as [(Hs & Hn & Ha & Hr)|[(Hs & Hn & Ha & Hs' & Hr)|(Hs & Hn & Ha & Hr)]].
  - destruct (andb_prop _ _ Hs) as [_ Hs2]. rewrite Ha, Hs2.
    destruct Hcol as [Hc|Hc]; [|congruence].
    rewrite Hc. cbn [bind ret]. f_equal.
    apply Hshape. intros r. unfold nationality_selects. now rewrite Hs.
  - destruct (andb_prop _ _ Hn) as [_ Hn2]. rewrite Ha, Hs', Hn2.
    destruct Hcol as [Hc|Hc]; [|congruence].
    rewrite Hc. cbn [bind ret]. f_equal.
    apply Hshape. intros r. unfold nationality_selects. now rewrite Hs, Hn.
  - assert (Hnone : forall r, nationality_selects n r = true).
    { intros r. unfold nationality_selects. now rewrite Hs, Hn. }
    rewrite <- (Hshape (fun _ => true)); [|intros r; now rewrite Hnone].
    rewrite (filter_all (fun _ => true)) by reflexivity.
    destruct Ha as [Ht|[Ha1 Ha2]].
    + rewrite Ht. reflexivity.
    + rewrite Ha1, Ha2. now destruct (truthy n && negb _).
Qed.

Lemma existsb_false_filter {A} (f : A -> bool) l :
  existsb f l = false -> List.filter f l = [].
Proof.
  intros H. apply filter_none. intros x Hx.
  destruct (f x) eqn:Hfx; [|reflexivity].
  assert (existsb f l = true) by (apply existsb_exists; eauto). congruence.
Qed.

Lemma qaa_keeps_status colleges years d g n mode v r :
  qaa_keeps colleges years d g n mode (<["Current Status" := v]> r)
  = qaa_keeps colleges years d g n mode r.
Proof.
  unfold qaa_keeps, gender_selects, nationality_selects.
  autorewrite with cells. reflexivity.
Qed.

(** ** Workplace statistics *)

(** C10: the valid and the empty entries partition the filtered frame, so
    their numbers add up to the total. *)
Theorem workplace_entries_partition (df : DataFrame) (colleges years : list string)
    (degree_option gender_option : string) (nationality_option : option string) :
  let result :=
    get_workplace_statistics df colleges years degree_option gender_option
      nationality_option in
  let stats := result.1.1 in
  let filtered_df := result.1.2 in
  total_alumni stats = length filtered_df /\
  empty_entries stats = length (List.filter empty_mask filtered_df) /\
  valid_entries stats = length (List.filter (fun r => negb (empty_mask r)) filtered_df) /\
  (forall r, In r filtered_df ->
     (In r (List.filter empty_mask filtered_df)
      <-> Py.startswith "EMPTY" (Normalized_Workplace r) = true) /\
     (In r (List.filter (fun r => negb (empty_mask r)) filtered_df)
      <-> Py.startswith "EMPTY" (Normalized_Workplace r) = false)) /\
  (valid_entries stats + empty_entries stats = total_alumni stats)%nat.
Proof.
  unfold get_workplace_statistics.
  destruct (workplace_mask df colleges years degree_option gender_option
              nationality_option) as [mask printed].
  cbn [fst snd total_alumni valid_entries empty_entries].
  set (filtered_df := List.filter mask (rows df)).
  split; [reflexivity|]. split; [reflexivity|]. split; [reflexivity|]. split.
  - intros r Hr. rewrite !filter_In, negb_true_iff. unfold empty_mask. tauto.
  - rewrite Nat.add_comm. apply List.filter_length.
Qed.

Lemma workplace_entries_partition_witness :
  let stats :=
    (get_workplace_statistics sample_roster sample_colleges sample_years "all" "all"
       None).1.1 in
  (valid_entries stats + empty_entries stats = total_alumni stats)%nat /\
  total_alumni stats = 3%nat.
Proof.
  destruct (workplace_entries_partition sample_roster sample_colleges sample_years
              "all" "all" None) as (Htotal & _ & _ & _ & Hsum).
  split; [exact Hsum|]. rewrite Htotal. vm_compute. reflexivity.
Defined.

(** The mask of the workplace statistics is the same for [non-saudi] as
    for no nationality option at all. *)
Lemma workplace_mask_ignores_non_saudi df colleges years d g :
  workplace_mask df colleges years d g (Some "non-saudi")
  = workplace_mask df colleges years d g None.
Proof. reflexivity. Qed.

(** C8: on a roster with the column [Nationality], the workplace
    statistics under [non-saudi] keep the three rows, two of them Saudi,
    where the QAA report and the alumni list keep the one row that is not. *)
Theorem workplace_statistics_keep_saudi_under_non_saudi :
  has_column "Nationality" sample_roster = true /\
  map is_saudi (rows sample_roster) = [ true; false; true ] /\
  (get_workplace_statistics sample_roster sample_colleges sample_years
     "all" "all" (Some "non-saudi")).1.2 = rows sample_roster /\
  total_alumni
    (get_workplace_statistics sample_roster sample_colleges sample_years
       "all" "all" (Some "non-saudi")).1.1 = 3%nat /\
  (let cleaned :=
     rows (apply_column "Current Status" (fun s => clean_status (PyStr s))
             sample_roster) in
   qaa_filter sample_roster sample_colleges sample_years "all" "all"
     (Some "non-saudi") "detailed"
   = inr (cleaned, List.filter (fun r => negb (is_saudi r)) cleaned) /\
   length (List.filter (fun r => negb (is_saudi r)) cleaned) = 1%nat).
Proof. repeat split; vm_compute; reflexivity. Qed.

(** What the two nationality options select where they are applied. *)
Lemma nationality_selects_options r :
  nationality_selects (Some "saudi") r = is_saudi r /\
  nationality_selects (Some "non-saudi") r = negb (is_saudi r) /\
  nationality_selects (Some "all") r = true /\
  nationality_selects None r = true.
Proof. repeat split. Qed.

(** Where the nationality filter is applied, [non-saudi] keeps the
    complement of [saudi]: the rows kept by the QAA report in detailed
    mode under the two options split the rows kept under no option. *)
Lemma non_saudi_is_complement colleges years d g mode r :
  String.eqb mode "simple" = false ->
  qaa_keeps colleges years d g None mode r
  = xorb (qaa_keeps colleges years d g (Some "saudi") mode r)
         (qaa_keeps colleges years d g (Some "non-saudi") mode r).
Proof.
  intros Hmode. unfold qaa_keeps, nationality_selects. rewrite Hmode.
  cbn [truthy option_lower Py.is_empty negb andb orb Py.lower Py.map_chars].
  change (String.eqb (Py.lower "saudi") "saudi") with true.
  change (String.eqb (Py.lower "non-saudi") "saudi") with false.
  change (String.eqb (Py.lower "non-saudi") "non-saudi") with true.
  cbn iota.
  destruct (Py.mem (col_College r) colleges), (Py.mem (col_Year r) years),
    (degree_mask d r), (gender_selects g r), (is_saudi r); reflexivity.
Qed.

(** Without the column, a request that reads it fails in the chain of
    filters of the QAA report (detailed mode) and of the alumni list. *)
Lemma qaa_filter_without_Nationality df colleges years d g n mode :
  has_column "Nationality" df = false -> reads_Nationality n = true ->
  String.eqb mode "simple" = false ->
  qaa_filter df colleges years d g n mode = inl (KeyError "Nationality").
Proof.
  intros Hcol Hreads Hmode. unfold qaa_filter, require_column. rewrite Hmode.
  change (has_column "Nationality"
            (apply_column "Current Status" (fun s => clean_status (PyStr s)) df))
    with (has_column "Nationality" df).
  rewrite Hcol.
  destruct (nationality_cases n)
    as [(Hs & _)|[(Hs & Hn & _)|(_ & _ & _ & Hr)]]; [| |congruence].
  - rewrite Hs. reflexivity.
  - rewrite Hs, Hn. reflexivity.
Qed.

Lemma alumni_filter_without_Nationality df colleges years allowed g n d :
  has_column "Nationality" df = false -> reads_Nationality n = true ->
  alumni_filter df colleges years allowed g n d = inl (KeyError "Nationality").
Proof.
  intros Hcol Hreads. unfold alumni_filter, require_column. rewrite Hcol.
  destruct (nationality_cases n)
    as [(Hs & _ & Ha & _)|[(_ & Hn & Ha & Hs' & _)|(_ & _ & _ & Hr)]];
    [| |congruence].
  - destruct (andb_prop _ _ Hs) as [_ Hs2]. rewrite Ha, Hs2. reflexivity.
  - destruct (andb_prop _ _ Hn) as [_ Hn2]. rewrite Ha, Hs', Hn2. reflexivity.
Qed.

Lemma qaa_report_without_Nationality (session_data : gmap string session)
    session_id s colleges years d combine_all combine_years g n mode :
  session_data !! session_id = Some s ->
  has_column "Nationality" (data s) = false -> reads_Nationality n = true ->
  String.eqb mode "simple" = false ->
  process_qaa_report session_data session_id colleges years d combine_all
    combine_years g n mode
  = Error "Error generating QAA report: 'Nationality'".
Proof.
  intros Hs Hcol Hreads Hmode. unfold process_qaa_report. rewrite Hs.
  rewrite qaa_filter_without_Nationality by assumption. reflexivity.
Qed.

Lemma alumni_list_without_Nationality (session_data : gmap string session)
    session_id s colleges years allowed g n d :
  session_data !! session_id = Some s ->
  has_column "Nationality" (data s) = false -> reads_Nationality n = true ->
  (process_alumni_list session_data session_id colleges years allowed g n d).1
  = Error "Error generating alumni list: 'Nationality'".
Proof.
  intros Hs Hcol Hreads. unfold process_alumni_list. rewrite Hs. cbn [fst].
  rewrite alumni_filter_without_Nationality by assumption. reflexivity.
Qed.

(** C9: on a roster without the column [Nationality], the QAA report and
    the alumni list asked for [saudi] fail with the message of the
    [KeyError], where the workplace statistics go on and print a warning. *)
Theorem missing_Nationality_fails_the_request :
  has_column "Nationality" sample_roster_without_Nationality = false /\
  process_qaa_report sample_sessions "bare" sample_colleges sample_years "all"
    true true "all" (Some "saudi") "detailed"
  = Error "Error generating QAA report: 'Nationality'" /\
  (process_alumni_list sample_sessions "bare" sample_colleges sample_years
     [ "Employed" ] "all" (Some "saudi") "all").1
  = Error "Error generating alumni list: 'Nationality'" /\
  (get_workplace_statistics sample_roster_without_Nationality sample_colleges
     sample_years "all" "all" (Some "saudi")).2 = [ nationality_warning ].
Proof. repeat split; vm_compute; reflexivity. Qed.

(** Without the column the workplace statistics under [saudi] keep the rows
    that no nationality option keeps, and print the warning. *)
Lemma workplace_mask_without_Nationality df colleges years d g :
  has_column "Nationality" df = false ->
  workplace_mask df colleges years d g (Some "saudi")
  = ((workplace_mask df colleges years d g None).1, [ nationality_warning ]).
Proof.
  intros H. unfold workplace_mask.
  cbn [truthy option_lower Py.is_empty negb andb Py.lower Py.map_chars].
  change (String.eqb (Py.lower "saudi") "saudi") with true.
  cbn iota. rewrite H. reflexivity.
Qed.

(** ** Requests that match no record *)

(** C4 (as amended): on the cached frame of an alumni file, the frame and
    the options being ASCII text, the QAA report and the alumni list
    answer a request that keeps no record with the error [No matching data
    found for the given filters.], provided the column [Nationality] is
    there when the request reads it; the workplace report has no such test
    and answers with a report whose counts are zero. *)
Theorem no_matching_data_responses (session_data : gmap string session)
    (session_id : string) (s : session)
    (colleges years allowed_statuses : list string)
    (degree_option gender_option : string) (nationality_option : option string)
    (mode_option : string) (combine_all combine_years : bool) :
  session_data !! session_id = Some s ->
  is_alumni_roster (data s) = true ->
  isascii_frame (data s) = true ->
  isascii_options gender_option nationality_option allowed_statuses = true ->
  (has_column "Nationality" (data s) = true
     \/ reads_Nationality nationality_option = false
     \/ String.eqb mode_option "simple" = true ->
   existsb (qaa_keeps colleges years degree_option gender_option
              nationality_option mode_option) (rows (data s)) = false ->
   process_qaa_report session_data session_id colleges years degree_option
     combine_all combine_years gender_option nationality_option mode_option
   = Error no_matching_data) /\
  (has_column "Nationality" (data s) = true
     \/ reads_Nationality nationality_option = false ->
   existsb (alumni_keeps colleges years allowed_statuses gender_option
              nationality_option degree_option) (rows (data s)) = false ->
   (process_alumni_list session_data session_id colleges years allowed_statuses
      gender_option nationality_option degree_option).1
   = Error no_matching_data) /\
  (existsb (workplace_mask (data s) colleges years degree_option gender_option
              nationality_option).1 (rows (data s)) = false ->
   exists report,
     process_workplace_report session_data session_id colleges years
       degree_option gender_option nationality_option = Success report /\
     summary report
     = {| total_alumni := 0; valid_entries := 0; empty_entries := 0;
          high_positions_count := 0 |}).
Proof.
  intros Hs _ _ _. split; [|split].
  - intros Hcol Hnone. unfold process_qaa_report. rewrite Hs.
    destruct (qaa_filter_keeps (data s) colleges years degree_option gender_option
                nationality_option mode_option Hcol) as [all Hfilter].
    rewrite Hfilter. cbn [bind try_except apply_column rows].
    rewrite filter_map_comm.
    rewrite (List.filter_ext _ (qaa_keeps colleges years degree_option gender_option
                                  nationality_option mode_option))
      by (intros r; apply qaa_keeps_status).
    rewrite (existsb_false_filter _ _ Hnone). reflexivity.
  - intros Hcol Hnone. unfold process_alumni_list. rewrite Hs. cbn [fst].
    rewrite alumni_filter_keeps by exact Hcol.
    cbn [bind try_except apply_column rows].
    rewrite filter_map_comm.
    rewrite (List.filter_ext _ (alumni_keeps colleges years allowed_statuses
                                  gender_option nationality_option degree_option));
      [rewrite (existsb_false_filter _ _ Hnone); reflexivity|].
    intros r. unfold alumni_keeps, gender_selects, nationality_selects.
    autorewrite with cells. reflexivity.
  - intros Hnone. unfold process_workplace_report, get_workplace_statistics.
    rewrite Hs.
    destruct (workplace_mask (data s) colleges years degree_option gender_option
                nationality_option) as [mask printed].
    cbn [fst] in Hnone. rewrite (existsb_false_filter _ _ Hnone).
    cbn [try_except ret]. eexists. split; reflexivity.
Qed.

Lemma no_matching_data_responses_witness :
  process_qaa_report sample_sessions "full" [ "College of Pharmacy" ] sample_years
    "all" true true "all" (Some "saudi") "detailed"
  = Error no_matching_data /\
  (process_alumni_list sample_sessions "full" [ "College of Pharmacy" ] sample_years
     [ "Employed" ] "all" (Some "saudi") "all").1
  = Error no_matching_data.
Proof.
  destruct (no_matching_data_responses sample_sessions "full"
              {| data := sample_roster; file_name := "alumni.xlsx" |}
              [ "College of Pharmacy" ] sample_years [ "Employed" ] "all" "all"
              (Some "saudi") "detailed" true true)
    as (Hqaa & Halumni & _).
  - vm_compute. reflexivity.
  - vm_compute. reflexivity.
  - vm_compute. reflexivity.
  - vm_compute. reflexivity.
  - split.
    + apply Hqaa; [left|]; vm_compute; reflexivity.
    + apply Halumni; [left|]; vm_compute; reflexivity.
Defined.

(** C4 (as stated) fails for the workplace report: no record of the sample
    roster is of the College of Pharmacy, and the answer is a report. *)
Lemma workplace_report_of_no_record :
  existsb (workplace_mask sample_roster [ "College of Pharmacy" ] sample_years
             "all" "all" None).1 (rows sample_roster) = false /\
  process_workplace_report sample_sessions "full" [ "College of Pharmacy" ]
    sample_years "all" "all" None
  = Success
      {| summary := {| total_alumni := 0; valid_entries := 0; empty_entries := 0;
                       high_positions_count := 0 |};
         number_of_colleges := 1;
         years_covered := 1;
         high_position_percentage := (0, 1) |} /\
  process_workplace_report sample_sessions "full" [ "College of Pharmacy" ]
    sample_years "all" "all" None
  <> Error no_matching_data.
Proof.
  split; [vm_compute; reflexivity|].
  split; [vm_compute; reflexivity|].
  vm_compute. discriminate.
Qed.

(** ** Banner integration *)

Lemma Student_IDs_stripped df :
  Student_IDs (apply_column "Student ID" Py.strip df) = stripped_ids df.
Proof.
  unfold Student_IDs, stripped_ids, apply_column. cbn [rows].
  rewrite map_map. apply map_ext. intros r. apply cell_insert_eq.
Qed.

(** The rows whose identifier is in the difference are the rows whose
    identifier is not in the alumni roster. *)
Lemma new_rows_count (l : list (gmap string string)) (alumni_ids : list string) :
  length (List.filter
            (fun r => bool_decide
               (cell "Student ID" r
                ∈ (list_to_set (map (cell "Student ID") l) : gset string)
                  ∖ list_to_set alumni_ids)) l)
  = length (List.filter (fun id => negb (Py.mem id alumni_ids))
              (map (cell "Student ID") l)).
Proof.
  rewrite filter_map_comm, length_map. f_equal.
  apply List.filter_ext_in. intros r Hr.
  destruct (Py.mem (cell "Student ID" r) alumni_ids) eqn:Hmem; cbn [negb].
  - apply bool_decide_eq_false. rewrite elem_of_difference, !elem_of_list_to_set.
    intros [_ Hnot]. apply Hnot, list_elem_of_In, mem_In, Hmem.
  - apply bool_decide_eq_true. rewrite elem_of_difference, !elem_of_list_to_set.
    split.
    + apply list_elem_of_In, in_map, Hr.
    + intros Hin%list_elem_of_In.
      assert (Py.mem (cell "Student ID" r) alumni_ids = true); [|congruence].
      unfold Py.mem. apply existsb_exists. eexists. split; [exact Hin|].
      apply String.eqb_refl.
Qed.

(** Without repeated identifiers the rows in the difference are as many as
    its elements. *)
Lemma distinct_new_ids_count (banner_ids alumni_ids : list string) :
  NoDup banner_ids ->
  length (List.filter (fun id => negb (Py.mem id alumni_ids)) banner_ids)
  = size ((list_to_set banner_ids : gset string) ∖ list_to_set alumni_ids).
Proof.
  intros Hnodup.
  rewrite <- (size_list_to_set (C := gset string))
    by (apply NoDup_ListNoDup, List.NoDup_filter, NoDup_ListNoDup, Hnodup).
  f_equal. apply set_eq. intros id.
  rewrite elem_of_difference, !elem_of_list_to_set, !list_elem_of_In, filter_In,
    negb_true_iff.
  split; intros [Hin Hnot]; (split; [exact Hin|]).
  - intros Ha. assert (Py.mem id alumni_ids = true); [|congruence].
    unfold Py.mem. apply existsb_exists. eexists. split; [exact Ha|].
    apply String.eqb_refl.
  - destruct (Py.mem id alumni_ids) eqn:Hmem; [|reflexivity].
    exfalso. apply Hnot, mem_In, Hmem.
Qed.

(** C6 (as amended): the number of new records is the number of Banner
    rows whose stripped identifier is not in the alumni roster; it is the
    cardinality of the difference of the two sets of identifiers when no
    identifier is repeated in the Banner frame. *)
Theorem banner_new_records (session_data : gmap string session)
    (banner_session_id alumni_session_id current_date : string) (b a : session) :
  session_data !! banner_session_id = Some b ->
  session_data !! alumni_session_id = Some a ->
  has_column "Student ID" (data b) = true ->
  has_column "Student ID" (data a) = true ->
  has_column "Student Name" (data b) = true ->
  exists result,
    (process_banner_integration session_data banner_session_id alumni_session_id
       current_date).1 = Success result /\
    new_records result
    = length (List.filter (fun id => negb (Py.mem id (stripped_ids (data a))))
                (stripped_ids (data b))) /\
    (NoDup (stripped_ids (data b)) ->
     new_records result
     = size ((list_to_set (stripped_ids (data b)) : gset string)
               ∖ list_to_set (stripped_ids (data a)))).
Proof.
  intros Hb Ha Hidb Hida Hname.
  unfold process_banner_integration. rewrite Hb, Ha, Hidb, Hida. cbn [negb fst].
  unfold banner_diff. rewrite !Student_IDs_stripped.
  assert (Hcount :
    length (List.filter
              (fun r => bool_decide
                 (cell "Student ID" r
                  ∈ (list_to_set (stripped_ids (data b)) : gset string)
                    ∖ list_to_set (stripped_ids (data a))))
              (rows (apply_column "Student ID" Py.strip (data b))))
    = length (List.filter (fun id => negb (Py.mem id (stripped_ids (data a))))
                (stripped_ids (data b)))).
  { rewrite <- (Student_IDs_stripped (data b)). apply new_rows_count. }
  destruct (bool_decide _) eqn:Hempty.
  - apply bool_decide_eq_true in Hempty.
    cbn [try_except ret]. eexists. split; [reflexivity|]. cbn [new_records].
    assert (Hzero :
      length (List.filter (fun id => negb (Py.mem id (stripped_ids (data a))))
                (stripped_ids (data b))) = 0%nat).
    { rewrite <- Hcount. rewrite Hempty.
      rewrite filter_none; [reflexivity|].
      intros r _. apply bool_decide_eq_false. apply not_elem_of_empty. }
    split; [now rewrite Hzero|].
    intros _. rewrite Hempty. now rewrite size_empty.
  - change (has_column "Student Name" (apply_column "Student ID" Py.strip (data b)))
      with (has_column "Student Name" (data b)).
    rewrite Hname. cbn [bind try_except ret]. eexists. split; [reflexivity|].
    cbn [new_records]. rewrite length_map, Hcount.
    split; [reflexivity|]. apply distinct_new_ids_count.
Qed.

Lemma banner_new_records_witness :
  exists result,
    (process_banner_integration banner_sessions "banner1" "full" "2026-01-01").1
    = Success result /\
    new_records result = 1%nat.
Proof.
  destruct (banner_new_records banner_sessions "banner1" "full" "2026-01-01"
              {| data := sample_banner_distinct; file_name := "banner1.xlsx" |}
              {| data := sample_roster; file_name := "alumni.xlsx" |})
    as (result & Hresult & _ & Hsize).
  - vm_compute. reflexivity.
  - vm_compute. reflexivity.
  - vm_compute. reflexivity.
  - vm_compute. reflexivity.
  - vm_compute. reflexivity.
  - exists result. split; [exact Hresult|].
    rewrite Hsize.
    + vm_compute. reflexivity.
    + apply (bool_decide_unpack _). vm_compute. exact I.
Defined.

(** C6 (as stated) fails when an identifier is repeated: the graduate
    [2001] is one element of the difference and gives two new records. *)
Lemma banner_new_records_with_duplicates :
  size ((list_to_set (stripped_ids sample_banner) : gset string)
          ∖ list_to_set (stripped_ids sample_roster)) = 1%nat /\
  exists result,
    (process_banner_integration banner_sessions "banner" "full" "2026-01-01").1
    = Success result /\
    new_records result = 2%nat /\
    new_students result = [ ("2001", "Hana"); ("2001", "Hana") ].
Proof.
  split; [vm_compute; reflexivity|].
  eexists. split; [vm_compute; reflexivity|].
  split; reflexivity.
Qed.

(** ** Sums of cells *)

Lemma fold_num_add_Int (l : list Z) (a : Z) :
  fold_left num_add (map Int l) (Int a) = Int (a + Zsum l).
Proof.
  revert a. induction l as [|x l IH]; intros a; cbn [map fold_left Zsum].
  - f_equal. lia.
  - cbn [num_add]. rewrite IH. f_equal. lia.
Qed.

Lemma num_sum_Int (l : list Z) : num_sum (map Int l) = Int (Zsum l).
Proof. unfold num_sum. now rewrite fold_num_add_Int. Qed.

Lemma Zsum_app l1 l2 : Zsum (l1 ++ l2) = Zsum l1 + Zsum l2.
Proof.
  induction l1 as [|x l1 IH]; cbn [app Zsum]; [reflexivity|].
  rewrite IH. lia.
Qed.

Lemma Zsum_map_add {A} (f g : A -> Z) l :
  Zsum (map (fun x => f x + g x) l) = Zsum (map f l) + Zsum (map g l).
Proof.
  induction l as [|x l IH]; cbn [map Zsum]; [reflexivity|].
  rewrite IH. lia.
Qed.

Lemma Zsum_map_zero {A} (f : A -> Z) l :
  (forall x, In x l -> f x = 0) -> Zsum (map f l) = 0.
Proof.
  induction l as [|x l IH]; intros H; cbn [map Zsum]; [reflexivity|].
  rewrite (H x (or_introl eq_refl)), IH; [reflexivity|].
  intros y Hy. apply H. now right.
Qed.

(** ** The index and the columns of a grouped frame *)

Lemma sorted_unique_NoDup l : NoDup (sorted_unique l).
Proof.
  unfold sorted_unique.
  rewrite (merge_sort_Permutation String.le (remove_dups l)).
  apply NoDup_remove_dups.
Qed.

Lemma sorted_unique_In x l : In x (sorted_unique l) <-> In x l.
Proof.
  unfold sorted_unique. rewrite <- !list_elem_of_In.
  rewrite (merge_sort_Permutation String.le (remove_dups l)).
  apply elem_of_remove_dups.
Qed.

Lemma mem_true_In x l : Py.mem x l = true <-> In x l.
Proof.
  split; [apply mem_In|]. intros H. unfold Py.mem. apply existsb_exists.
  exists x. split; [exact H|apply String.eqb_refl].
Qed.

Lemma mem_false_not_In x l : Py.mem x l = false <-> ~ In x l.
Proof.
  rewrite <- mem_true_In. destruct (Py.mem x l); intuition congruence.
Qed.

(** ** Counting the pairs of a group *)

Lemma group_size_cons key status r recs :
  group_size key status (r :: recs)
  = (if pair_eqb (key, status) r then 1 else 0) + group_size key status recs.
Proof.
  unfold group_size. cbn [List.filter].
  destruct (pair_eqb (key, status) r); cbn [length]; lia.
Qed.

Lemma group_size_nonneg key status recs : 0 <= group_size key status recs.
Proof. unfold group_size. lia. Qed.

Lemma group_size_absent key status recs :
  ~ In status (map snd recs) -> group_size key status recs = 0.
Proof.
  intros H. unfold group_size. rewrite filter_none; [reflexivity|].
  intros [k s] Hr. unfold pair_eqb. cbn [fst snd].
  destruct (String.eqb_spec status s) as [->|_]; [|apply andb_false_r].
  exfalso. apply H. apply in_map_iff. exists (k, s). auto.
Qed.

Lemma indicator_sum key (statuses : list string) r :
  NoDup statuses ->
  Zsum (map (fun status => if pair_eqb (key, status) r then 1 else 0) statuses)
  = if in_group key statuses r then 1 else 0.
Proof.
  unfold in_group, pair_eqb. cbn [fst snd].
  destruct (String.eqb key (fst r)); cbn [andb].
  2:{ intros _. apply Zsum_map_zero. reflexivity. }
  induction statuses as [|s statuses IH]; intros Hnodup; [reflexivity|].
  apply NoDup_cons in Hnodup as [Hnotin Hnodup].
  cbn [map Zsum fold_right Py.mem existsb].
  rewrite (String.eqb_sym (snd r) s).
  destruct (String.eqb_spec s (snd r)) as [->|Hne]; cbn [orb].
  - rewrite Zsum_map_zero; [reflexivity|].
    intros s' Hs'. destruct (String.eqb_spec s' (snd r)) as [->|_]; [|reflexivity].
    exfalso. apply Hnotin, list_elem_of_In, Hs'.
  - rewrite IH by exact Hnodup. reflexivity.
Qed.

Lemma Zsum_group_size key (statuses : list string) recs :
  NoDup statuses ->
  Zsum (map (fun status => group_size key status recs) statuses)
  = Z.of_nat (length (List.filter (in_group key statuses) recs)).
Proof.
  intros Hnodup. induction recs as [|r recs IH].
  - cbn [List.filter length]. apply Zsum_map_zero. reflexivity.
  - rewrite (map_ext _ _ (fun status => group_size_cons key status r recs)).
    rewrite Zsum_map_add, IH, indicator_sum by exact Hnodup.
    cbn [List.filter]. destruct (in_group key statuses r); cbn [length]; lia.
Qed.

Lemma filter_length_le {A} (f g : A -> bool) l :
  (forall x, In x l -> f x = true -> g x = true) ->
  (length (List.filter f l) <= length (List.filter g l))%nat.
Proof.
  induction l as [|x l IH]; intros H; [reflexivity|]. cbn [List.filter].
  assert (IH' := IH (fun y Hy => H y (or_intror Hy))).
  destruct (f x) eqn:Hf.
  - rewrite (H x (or_introl eq_refl) Hf). cbn [length]. lia.
  - destruct (g x); cbn [length]; lia.
Qed.

(** The statuses of the three buckets are distinct, so a pair is counted
    in one of them at most. *)
Lemma buckets_le_row_total recs key :
  employed_count recs key + group_size key "Unemployed" recs
    + group_size key "Studying" recs
  <= row_total recs key.
Proof.
  unfold employed_count, row_total.
  assert (Hsplit :
    Zsum (map (fun status => group_size key status recs) employed_statuses)
      + group_size key "Unemployed" recs + group_size key "Studying" recs
    = Zsum (map (fun status => group_size key status recs)
              (employed_statuses ++ [ "Unemployed"; "Studying" ]))).
  { rewrite map_app, Zsum_app. cbn [map Zsum]. lia. }
  rewrite Hsplit, !Zsum_group_size.
  - apply inj_le. apply filter_length_le. intros [k s] Hr. unfold in_group.
    cbn [fst snd]. intros [-> _]%andb_prop. cbn [andb].
    apply mem_true_In, sorted_unique_In, in_map_iff. exists (k, s). auto.
  - apply sorted_unique_NoDup.
  - apply (bool_decide_unpack _). vm_compute. exact I.
Qed.

(** ** Reading and writing the cells of a row *)

Lemma set_header_cons c cols name :
  set_header (c :: cols) name
  = if String.eqb c name then c :: cols else c :: set_header cols name.
Proof.
  unfold set_header, Py.mem. cbn [existsb]. rewrite (String.eqb_sym name c).
  destruct (String.eqb c name); cbn [orb]; [reflexivity|].
  now destruct (existsb _ cols).
Qed.

Lemma set_header_In cols name : In name (set_header cols name).
Proof.
  unfold set_header. destruct (Py.mem name cols) eqn:H.
  - now apply mem_true_In.
  - apply in_or_app. right. now left.
Qed.

Lemma length_set_num cols name v cells :
  length cells = length cols ->
  length (set_num cols name v cells) = length (set_header cols name).
Proof.
  revert cells. induction cols as [|c cols IH]; intros [|x cells] Hlen;
    try discriminate; [reflexivity|].
  rewrite set_header_cons. cbn [set_num].
  destruct (String.eqb c name); cbn [length] in *; [lia|].
  rewrite IH; [reflexivity|lia].
Qed.

Lemma get_set_num_eq cols name v cells :
  length cells = length cols ->
  get_num (set_header cols name) name (set_num cols name v cells) = v.
Proof.
  revert cells. induction cols as [|c cols IH]; intros [|x cells] Hlen;
    try discriminate.
  - cbn. now rewrite String.eqb_refl.
  - rewrite set_header_cons. cbn [set_num].
    destruct (String.eqb c name) eqn:Hc; cbn [get_num]; rewrite Hc; [reflexivity|].
    apply IH. cbn [length] in Hlen. lia.
Qed.

Lemma get_set_num_ne cols name other v cells :
  other <> name -> length cells = length cols ->
  get_num (set_header cols name) other (set_num cols name v cells)
  = get_num cols other cells.
Proof.
  intros Hne. revert cells. induction cols as [|c cols IH]; intros [|x cells] Hlen;
    try discriminate.
  - cbn. destruct (String.eqb_spec name other); [congruence|reflexivity].
  - rewrite set_header_cons. cbn [set_num].
    destruct (String.eqb_spec c name) as [->|Hc]; cbn [get_num].
    + destruct (String.eqb_spec name other); [congruence|reflexivity].
    + destruct (String.eqb c other); [reflexivity|].
      apply IH. cbn [length] in Hlen. lia.
Qed.

Lemma get_num_map cols name (f : string -> Z) :
  get_num cols name (map (fun s => Int (f s)) cols)
  = if Py.mem name cols then Int (f name) else Int 0.
Proof.
  induction cols as [|c cols IH]; [reflexivity|].
  cbn [map get_num]. unfold Py.mem. cbn [existsb].
  rewrite (String.eqb_sym name c).
  destruct (String.eqb_spec c name) as [->|_]; cbn [orb]; [reflexivity|].
  exact IH.
Qed.

Lemma get_num_app_l cols1 cols2 name cells1 cells2 :
  In name cols1 -> length cells1 = length cols1 ->
  get_num (cols1 ++ cols2) name (cells1 ++ cells2) = get_num cols1 name cells1.
Proof.
  revert cells1. induction cols1 as [|c cols1 IH]; intros [|x cells1] Hin Hlen;
    try discriminate; [destruct Hin|].
  cbn [app get_num].
  destruct (String.eqb_spec c name) as [->|Hc]; [reflexivity|].
  apply IH; [|cbn [length] in Hlen; lia].
  destruct Hin as [Hin|Hin]; [congruence|exact Hin].
Qed.

(** The cell of a status in the counts of a group, whether the status
    occurs in the frame or not. *)
Lemma counts_row_status recs key name :
  name <> "Total" ->
  get_num (set_header (status_columns recs) "Total") name (counts_row recs key)
  = Int (group_size key name recs).
Proof.
  intros Hne. unfold counts_row.
  rewrite get_set_num_ne by (try exact Hne; now rewrite length_map).
  rewrite get_num_map.
  destruct (Py.mem name (status_columns recs)) eqn:Hmem; [reflexivity|].
  rewrite group_size_absent; [reflexivity|].
  apply mem_false_not_In in Hmem. intros Hin. apply Hmem.
  now apply sorted_unique_In.
Qed.

Lemma counts_row_Total recs key :
  get_num (set_header (status_columns recs) "Total") "Total" (counts_row recs key)
  = Int (row_total recs key).
Proof. unfold counts_row. apply get_set_num_eq. now rewrite length_map. Qed.

Lemma length_counts_row recs key :
  length (counts_row recs key) = length (set_header (status_columns recs) "Total").
Proof. unfold counts_row. apply length_set_num. now rewrite length_map. Qed.

(** ** The rows of a cross-tab *)

Lemma combine_map_map {A B C} (f : A -> B) (g : A -> C) l :
  combine (map f l) (map g l) = map (fun x => (f x, g x)) l.
Proof. induction l as [|x l IH]; [reflexivity|]. cbn. now rewrite IH. Qed.

Lemma with_Total_unstack recs :
  with_Total (unstack recs)
  = {| header := set_header (status_columns recs) "Total";
       body := map (fun key => (key, counts_row recs key)) (group_keys recs) |}.
Proof.
  unfold with_Total, set_column, sum_axis1, unstack. cbn [header body].
  fold (status_columns recs). fold (group_keys recs). f_equal.
  rewrite map_map, combine_map_map, map_map. apply map_ext. intros key.
  cbn [fst snd]. unfold counts_row, row_total. do 2 f_equal.
  rewrite <- (map_map (fun status => group_size key status recs) Int).
  apply num_sum_Int.
Qed.

Lemma employed_cell (get : string -> num) (f : string -> Z) :
  (forall name, In name employed_statuses -> get name = Int (f name)) ->
  match map get employed_statuses with
  | [] => Int 0
  | x :: xs => fold_left num_add xs x
  end = Int (Zsum (map f employed_statuses)).
Proof.
  intros H. rewrite (map_ext_in _ (fun name => Int (f name)) _ H).
  rewrite <- (map_map f Int). generalize (map f employed_statuses). intros [|x l].
  - reflexivity.
  - cbn [map Zsum]. apply fold_num_add_Int.
Qed.

Lemma employment_stats_rows recs :
  body (employment_stats (with_Total (unstack recs)))
  = map (fun key => (key, stats_row recs key)) (group_keys recs).
Proof.
  rewrite with_Total_unstack. unfold employment_stats. cbn [header body].
  rewrite !map_map. cbn [snd fst].
  assert (Htotal :
    num_sum (map (fun key => get_num (set_header (status_columns recs) "Total")
                               "Total" (counts_row recs key)) (group_keys recs))
    = Int (grand_total recs)).
  { rewrite (map_ext _ _ (counts_row_Total recs)).
    rewrite <- (map_map (row_total recs) Int). apply num_sum_Int. }
  rewrite Htotal. apply map_ext. intros key. unfold stats_row. f_equal.
  rewrite (employed_cell _ (fun name => group_size key name recs)).
  2:{ intros name Hin. apply counts_row_status. intros ->.
      revert Hin. vm_compute. intuition discriminate. }
  fold (employed_count recs key).
  rewrite !counts_row_status by discriminate. reflexivity.
Qed.

(** The sheet is its data rows, in the order of the keys, and the row of
    the column sums. *)
Lemma cross_tab_rows recs :
  header (cross_tab recs)
  = (set_header (status_columns recs) "Total" ++ [ ""; " " ]) ++ stats_header /\
  data_rows (cross_tab recs) = map (data_row recs) (group_keys recs) /\
  body (cross_tab recs)
  = data_rows (cross_tab recs) ++ [ ("Overall Total", overall_row (cross_tab recs)) ] /\
  overall_row (cross_tab recs)
  = fold_left zip_add (map snd (data_rows (cross_tab recs)))
      (repeat (Int 0) (length (header (cross_tab recs)))).
Proof.
  assert (Hbody :
    body (concat_axis1
            (concat_axis1 (with_Total (unstack recs))
               (empty_columns (with_Total (unstack recs))))
            (employment_stats (with_Total (unstack recs))))
    = map (data_row recs) (group_keys recs)).
  { unfold concat_axis1 at 1. cbn [body]. rewrite employment_stats_rows.
    unfold concat_axis1, empty_columns. rewrite with_Total_unstack.
    cbn [body header]. rewrite !map_map, combine_map_map, map_map.
    cbn [fst snd]. rewrite combine_map_map, map_map. reflexivity. }
  assert (Hheader :
    header (cross_tab recs)
    = (set_header (status_columns recs) "Total" ++ [ ""; " " ]) ++ stats_header).
  { unfold cross_tab. cbn [header concat_axis1 empty_columns employment_stats].
    now rewrite with_Total_unstack. }
  assert (Hrows :
    body (cross_tab recs)
    = map (data_row recs) (group_keys recs)
      ++ [ ("Overall Total",
            fold_left zip_add (map snd (map (data_row recs) (group_keys recs)))
              (repeat (Int 0) (length (header (cross_tab recs))))) ]).
  { unfold cross_tab at 1. cbn [body]. rewrite Hbody. do 3 f_equal.
    unfold sum_axis0. now rewrite Hbody. }
  unfold data_rows, overall_row. rewrite Hrows.
  rewrite removelast_last, last_last. cbn [snd].
  repeat split; assumption.
Qed.

(** ** Column sums *)

Lemma length_zip_add a b : length a = length b -> length (zip_add a b) = length a.
Proof.
  revert b. induction a as [|x a IH]; intros [|y b] H; try discriminate;
    [reflexivity|].
  cbn [zip_add length]. rewrite IH; [reflexivity|]. cbn [length] in H. lia.
Qed.

Lemma nth_zip_add a b j :
  length a = length b ->
  nth j (zip_add a b) NaN = num_add (nth j a NaN) (nth j b NaN).
Proof.
  revert b j. induction a as [|x a IH]; intros [|y b] j H; try discriminate.
  - now destruct j.
  - destruct j as [|j]; [reflexivity|]. cbn [zip_add nth]. apply IH.
    cbn [length] in H. lia.
Qed.

Lemma get_num_zip_add cols name a b :
  In name cols -> length a = length cols -> length b = length cols ->
  get_num cols name (zip_add a b)
  = num_add (get_num cols name a) (get_num cols name b).
Proof.
  revert a b. induction cols as [|c cols IH]; intros [|x a] [|y b] Hin Ha Hb;
    try discriminate; [destruct Hin|].
  cbn [zip_add get_num].
  destruct (String.eqb_spec c name) as [->|Hc]; [reflexivity|].
  apply IH; cbn [length] in *; try lia.
  destruct Hin as [Hin|Hin]; [congruence|exact Hin].
Qed.

Lemma length_fold_zip_add rws acc :
  Forall (fun r => length r = length acc) rws ->
  length (fold_left zip_add rws acc) = length acc.
Proof.
  revert acc. induction rws as [|r rws IH]; intros acc H; [reflexivity|].
  apply Forall_cons in H as [Hr H]. cbn [fold_left].
  rewrite IH; rewrite length_zip_add by congruence; [reflexivity|exact H].
Qed.

Lemma nth_fold_zip_add rws acc j :
  Forall (fun r => length r = length acc) rws ->
  nth j (fold_left zip_add rws acc) NaN
  = fold_left num_add (map (fun r => nth j r NaN) rws) (nth j acc NaN).
Proof.
  revert acc. induction rws as [|r rws IH]; intros acc H; [reflexivity|].
  apply Forall_cons in H as [Hr H]. cbn [fold_left map].
  rewrite IH by (rewrite length_zip_add by congruence; exact H).
  now rewrite nth_zip_add by congruence.
Qed.

Lemma get_num_fold_zip_add cols name rws acc :
  In name cols -> length acc = length cols ->
  Forall (fun r => length r = length cols) rws ->
  get_num cols name (fold_left zip_add rws acc)
  = fold_left num_add (map (get_num cols name) rws) (get_num cols name acc).
Proof.
  intros Hin. revert acc. induction rws as [|r rws IH]; intros acc Hacc H;
    [reflexivity|].
  apply Forall_cons in H as [Hr H]. cbn [fold_left map].
  rewrite IH; [|rewrite length_zip_add; congruence|exact H].
  now rewrite get_num_zip_add.
Qed.

Lemma get_num_zeros cols name cells :
  Forall (fun x => x = Int 0) cells -> get_num cols name cells = Int 0.
Proof.
  revert cells. induction cols as [|c cols IH]; intros [|x cells] H;
    try reflexivity.
  apply Forall_cons in H as [-> H]. cbn [get_num].
  destruct (String.eqb c name); [reflexivity|]. now apply IH.
Qed.

Lemma zip_add_app a1 a2 b1 b2 :
  length a1 = length b1 ->
  zip_add (a1 ++ a2) (b1 ++ b2) = zip_add a1 b1 ++ zip_add a2 b2.
Proof.
  revert b1. induction a1 as [|x a1 IH]; intros [|y b1] H; try discriminate;
    [reflexivity|].
  cbn [app zip_add]. f_equal. apply IH. cbn [length] in H. lia.
Qed.

Lemma zip_add_rev a b :
  length a = length b -> rev (zip_add a b) = zip_add (rev a) (rev b).
Proof.
  revert b. induction a as [|x a IH]; intros [|y b] H; try discriminate;
    [reflexivity|].
  cbn [zip_add rev]. cbn [length] in H.
  rewrite zip_add_app by (rewrite !length_rev; lia).
  rewrite IH by lia. reflexivity.
Qed.

Lemma rev_fold_zip_add rws acc :
  Forall (fun r => length r = length acc) rws ->
  rev (fold_left zip_add rws acc) = fold_left zip_add (map (fun r => rev r) rws) (rev acc).
Proof.
  revert acc. induction rws as [|r rws IH]; intros acc H; [reflexivity|].
  apply Forall_cons in H as [Hr H]. cbn [fold_left map].
  rewrite IH by (rewrite length_zip_add by congruence; exact H).
  now rewrite zip_add_rev by congruence.
Qed.

(** The row of the sums, cell by cell: the sum of the cells above it. *)
Lemma column_sums (rws : list (string * list num)) (n : nat) :
  Forall (fun r => length (snd r) = n) rws ->
  fold_left zip_add (map snd rws) (repeat (Int 0) n)
  = map (fun j => num_sum (column j rws)) (seq 0 n).
Proof.
  intros H.
  assert (H' : Forall (fun r => length r = length (repeat (Int 0) n)) (map snd rws)).
  { rewrite repeat_length. apply Forall_map. exact H. }
  apply (nth_ext _ _ NaN NaN).
  - rewrite length_fold_zip_add by exact H'.
    now rewrite repeat_length, length_map, length_seq.
  - intros j Hj. rewrite length_fold_zip_add, repeat_length in Hj by exact H'.
    rewrite nth_fold_zip_add by exact H'.
    rewrite (nth_indep (map (fun j => num_sum (column j rws)) (seq 0 n)) NaN
               (num_sum (column 0 rws)))
      by now rewrite length_map, length_seq.
    rewrite (map_nth (fun j => num_sum (column j rws)) (seq 0 n) 0%nat j).
    rewrite seq_nth by exact Hj. cbn [Nat.add].
    rewrite nth_repeat_lt by exact Hj.
    unfold num_sum, column. now rewrite map_map.
Qed.

(** ** Counting the pairs of a frame *)

Lemma key_indicator_sum (keys : list string) (r : string * string) :
  NoDup keys ->
  Zsum (map (fun key => if String.eqb key (fst r) then 1 else 0) keys)
  = if Py.mem (fst r) keys then 1 else 0.
Proof.
  induction keys as [|k keys IH]; intros Hnodup; [reflexivity|].
  apply NoDup_cons in Hnodup as [Hnotin Hnodup].
  cbn [map Zsum]. unfold Py.mem. cbn [existsb]. rewrite (String.eqb_sym (fst r) k).
  destruct (String.eqb_spec k (fst r)) as [->|Hne]; cbn [orb].
  - rewrite Zsum_map_zero; [reflexivity|].
    intros k' Hk'. destruct (String.eqb_spec k' (fst r)) as [->|_]; [|reflexivity].
    exfalso. apply Hnotin, list_elem_of_In, Hk'.
  - rewrite IH by exact Hnodup. reflexivity.
Qed.

Lemma row_total_count recs key :
  row_total recs key
  = Z.of_nat (length (List.filter (fun r => String.eqb key (fst r)) recs)).
Proof.
  unfold row_total. rewrite Zsum_group_size by apply sorted_unique_NoDup.
  do 2 f_equal. apply List.filter_ext_in. intros [k s] Hr. unfold in_group.
  cbn [fst snd].
  assert (Py.mem s (status_columns recs) = true) as ->; [|apply andb_true_r].
  apply mem_true_In, sorted_unique_In, in_map_iff. exists (k, s). auto.
Qed.

(** The grand total of a sheet is the number of its pairs. *)
Lemma grand_total_count recs : grand_total recs = Z.of_nat (length recs).
Proof.
  unfold grand_total. rewrite (map_ext _ _ (row_total_count recs)).
  assert (Hkeys : forall l : list (string * string),
            (forall r, In r l -> In (fst r) (group_keys recs)) ->
            Zsum (map (fun key =>
                         Z.of_nat (length (List.filter
                                             (fun r => String.eqb key (fst r)) l)))
                    (group_keys recs))
            = Z.of_nat (length l)).
  { induction l as [|r l IH]; intros Hin.
    - apply Zsum_map_zero. reflexivity.
    - rewrite (map_ext _ (fun key =>
                 (if String.eqb key (fst r) then 1 else 0)
                 + Z.of_nat (length (List.filter
                                       (fun r => String.eqb key (fst r)) l)))).
      2:{ intros key. cbn [List.filter].
          destruct (String.eqb key (fst r)); cbn [length]; lia. }
      rewrite Zsum_map_add, IH by (intros r' Hr'; apply Hin; now right).
      rewrite key_indicator_sum by apply sorted_unique_NoDup.
      assert (Py.mem (fst r) (group_keys recs) = true) as ->.
      { apply mem_true_In, Hin. now left. }
      cbn [length]. lia. }
  apply Hkeys. intros r Hr. apply sorted_unique_In, in_map, Hr.
Qed.

(** ** The derived cells of a row *)

Lemma length_data_row recs key :
  length (snd (data_row recs key)) = length (header (cross_tab recs)).
Proof.
  destruct (cross_tab_rows recs) as (-> & _). unfold data_row. cbn [snd].
  rewrite !length_app, length_counts_row. reflexivity.
Qed.

Lemma first_named_Total recs key :
  first_named (cross_tab recs) "Total" (snd (data_row recs key))
  = Int (row_total recs key).
Proof.
  unfold first_named. destruct (cross_tab_rows recs) as (-> & _).
  unfold data_row. cbn [snd].
  rewrite get_num_app_l.
  - rewrite get_num_app_l; [apply counts_row_Total|apply set_header_In|].
    apply length_counts_row.
  - apply in_or_app. left. apply set_header_In.
  - rewrite !length_app, length_counts_row. reflexivity.
Qed.

Lemma last_named_stats recs key :
  map (fun name => last_named (cross_tab recs) name (snd (data_row recs key)))
    stats_header
  = stats_row recs key.
Proof.
  unfold last_named. destruct (cross_tab_rows recs) as (-> & _).
  unfold data_row, stats_row. cbn [snd]. rewrite !rev_app_distr.
  generalize (rev (set_header (status_columns recs) "Total")).
  generalize (rev (counts_row recs key)).
  generalize (percentage (Int (employed_count recs key)) (Int (grand_total recs))).
  generalize (percentage (Int (group_size key "Unemployed" recs))
                (Int (grand_total recs))).
  generalize (percentage (Int (group_size key "Studying" recs))
                (Int (grand_total recs))).
  generalize (Int (employed_count recs key)).
  generalize (Int (group_size key "Unemployed" recs)).
  generalize (Int (group_size key "Studying" recs)).
  intros. reflexivity.
Qed.

(** ** The cross-tab of the QAA report *)

(** C3: in every data row of a sheet the three buckets are within the
    total.  [Employed] is the sum of the counts of the nine employed
    statuses, [Unemployed] and [Studying] are the counts of those two
    statuses, and [Total] is the sum of the counts of all the status
    columns of the row. *)
Theorem buckets_within_total (recs : list (string * string)) (key : string)
    (cells : list num) :
  In (key, cells) (data_rows (cross_tab recs)) ->
  first_named (cross_tab recs) "Total" cells = Int (row_total recs key) /\
  last_named (cross_tab recs) "Employed" cells = Int (employed_count recs key) /\
  last_named (cross_tab recs) "Unemployed" cells
  = Int (group_size key "Unemployed" recs) /\
  last_named (cross_tab recs) "Studying" cells
  = Int (group_size key "Studying" recs) /\
  employed_count recs key + group_size key "Unemployed" recs
    + group_size key "Studying" recs
  <= row_total recs key.
Proof.
  intros Hrow. destruct (cross_tab_rows recs) as (_ & Hdata & _).
  rewrite Hdata in Hrow. apply in_map_iff in Hrow as (key' & Heq & _).
  assert (key' = key) as -> by (now injection Heq).
  assert (cells = snd (data_row recs key)) as -> by (now rewrite Heq).
  pose proof (last_named_stats recs key) as Hstats.
  unfold stats_header, stats_row in Hstats. cbn [map] in Hstats.
  injection Hstats as HE HU HS _ _ _.
  split; [apply first_named_Total|].
  split; [exact HE|]. split; [exact HU|]. split; [exact HS|].
  apply buckets_le_row_total.
Qed.

Lemma buckets_within_total_witness :
  first_named (cross_tab two_graduates) "Total" [ Int 1; Int 1; Int 2; NaN; NaN;
    Int 1; Int 1; Int 0; Pct 50; Pct 50; Pct 0 ]
  = Int (row_total two_graduates "Finance") /\
  employed_count two_graduates "Finance"
    + group_size "Finance" "Unemployed" two_graduates
    + group_size "Finance" "Studying" two_graduates
  <= row_total two_graduates "Finance".
Proof.
  destruct (buckets_within_total two_graduates "Finance"
              [ Int 1; Int 1; Int 2; NaN; NaN; Int 1; Int 1; Int 0;
                Pct 50; Pct 50; Pct 0 ])
    as (Htotal & _ & _ & _ & Hle).
  - vm_compute. left. reflexivity.
  - split; [exact Htotal|exact Hle].
Defined.

(** The count cells of a row are integers. *)
Lemma set_num_counts cols name (z : Z) (zs : list Z) :
  exists zs', set_num cols name (Int z) (map Int zs) = map Int zs'.
Proof.
  revert zs. induction cols as [|c cols IH]; intros zs.
  - exists (zs ++ [ z ]). cbn [set_num]. now rewrite map_app.
  - destruct zs as [|x zs]; cbn [set_num map].
    + now exists [ z ].
    + destruct (String.eqb c name).
      * now exists (z :: zs).
      * destruct (IH zs) as (zs' & ->). now exists (x :: zs').
Qed.

Lemma counts_row_counts recs key :
  exists zs, counts_row recs key = map Int zs.
Proof.
  unfold counts_row.
  rewrite <- (map_map (fun status => group_size key status recs) Int).
  apply set_num_counts.
Qed.

Lemma count_cell recs key j :
  In j (count_positions (cross_tab recs)) ->
  exists z, nth j (snd (data_row recs key)) NaN = Int z.
Proof.
  unfold count_positions. destruct (cross_tab_rows recs) as (-> & _). cbv zeta.
  rewrite !length_app. cbn [length stats_header].
  replace (length (set_header (status_columns recs) "Total") + 2 + 6 - 8)%nat
    with (length (counts_row recs key))
    by (rewrite length_counts_row; lia).
  unfold data_row. cbn [snd].
  destruct (counts_row_counts recs key) as (zs & Hzs).
  intros [Hj|Hj]%in_app_iff; apply in_seq in Hj.
  - rewrite <- app_assoc, app_nth1 by lia. rewrite Hzs in *.
    rewrite length_map in Hj.
    exists (nth j zs 0). rewrite (nth_indep _ NaN (Int 0)) by (rewrite length_map; lia).
    apply (map_nth Int).
  - rewrite app_nth2 by (rewrite length_app; cbn [length]; lia).
    rewrite length_app. cbn [length]. unfold stats_row.
    set (n := length (counts_row recs key)) in *.
    assert (Hcases : (j - (n + 2) = 0 \/ j - (n + 2) = 1 \/ j - (n + 2) = 2)%nat) by lia.
    destruct Hcases as [-> | [-> | ->]]; cbn [nth]; eexists; reflexivity.
Qed.

Lemma map_counts {A} (f : A -> num) (l : list A) :
  (forall x, In x l -> exists z, f x = Int z) ->
  exists zs, map f l = map Int zs.
Proof.
  induction l as [|x l IH]; intros H; [now exists []|].
  destruct (H x (or_introl eq_refl)) as (z & Hz).
  destruct IH as (zs & Hzs); [intros y Hy; apply H; now right|].
  exists (z :: zs). cbn [map]. now rewrite Hz, Hzs.
Qed.

Lemma count_positions_lt (rep : Report) j :
  In j (count_positions rep) -> (8 <= length (header rep))%nat ->
  (j < length (header rep))%nat.
Proof.
  unfold count_positions. cbv zeta.
  intros [Hj|Hj]%in_app_iff Hlen; apply in_seq in Hj; lia.
Qed.

(** C2 (as amended): the last row of a sheet is [Overall Total], with one
    cell for each column; under each column of counts (the status columns,
    [Total] and the three buckets) the cells of the rows are integers and
    the cell of [Overall Total] is their sum; its [Total] is the number of
    the records of the sheet and its buckets are the sums of the buckets
    of the rows; in each row a percentage is the float
    [(bucket / grand total * 100).round(2)].  Nothing is stated of the
    percentage cells of [Overall Total], which are not 100 in general. *)
Theorem overall_total_is_column_sum (recs : list (string * string)) :
  let rep := cross_tab recs in
  body rep = data_rows rep ++ [ ("Overall Total", overall_row rep) ] /\
  length (overall_row rep) = length (header rep) /\
  Forall (fun j =>
            exists counts,
              column j (data_rows rep) = map Int counts /\
              nth j (overall_row rep) NaN = Int (Zsum counts))
    (count_positions rep) /\
  first_named rep "Total" (overall_row rep) = Int (Z.of_nat (length recs)) /\
  map (fun name => last_named rep name (overall_row rep))
    [ "Employed"; "Unemployed"; "Studying" ]
  = [ Int (Zsum (map (employed_count recs) (group_keys recs)));
      Int (Zsum (map (fun key => group_size key "Unemployed" recs) (group_keys recs)));
      Int (Zsum (map (fun key => group_size key "Studying" recs) (group_keys recs))) ] /\
  Forall (fun row =>
            map (fun name => last_named rep name (snd row))
              [ "Employed Percentage"; "Unemployed Percentage"; "Studying Percentage" ]
            = map (fun bucket => percentage bucket (Int (Z.of_nat (length recs))))
                [ Int (employed_count recs (fst row));
                  Int (group_size (fst row) "Unemployed" recs);
                  Int (group_size (fst row) "Studying" recs) ])
    (data_rows rep).
Proof.
  cbn zeta. destruct (cross_tab_rows recs) as (Hheader & Hdata & Hbody & Hoverall).
  assert (Hlen : Forall (fun r => length (snd r) = length (header (cross_tab recs)))
                   (data_rows (cross_tab recs))).
  { rewrite Hdata. apply Forall_map, List.Forall_forall. intros key _.
    apply length_data_row. }
  assert (Hsums :
    overall_row (cross_tab recs)
    = map (fun j => num_sum (column j (data_rows (cross_tab recs))))
        (seq 0 (length (header (cross_tab recs))))).
  { rewrite Hoverall. apply column_sums. exact Hlen. }
  split; [exact Hbody|]. split; [|split; [|split; [|split]]].
  - now rewrite Hsums, length_map, length_seq.
  - apply List.Forall_forall. intros j Hj.
    destruct (map_counts (fun key => nth j (snd (data_row recs key)) NaN)
                (group_keys recs)) as (counts & Hcounts).
    { intros key _. now apply count_cell. }
    exists counts.
    assert (Hcolumn : column j (data_rows (cross_tab recs)) = map Int counts).
    { unfold column. now rewrite Hdata, map_map. }
    split; [exact Hcolumn|].
    assert (Hlt : (j < length (header (cross_tab recs)))%nat).
    { apply count_positions_lt; [exact Hj|]. rewrite Hheader, !length_app.
      cbn [length stats_header]. lia. }
    rewrite Hsums.
    rewrite (nth_indep _ NaN (num_sum (column 0 (data_rows (cross_tab recs)))))
      by now rewrite length_map, length_seq.
    rewrite (map_nth (fun j => num_sum (column j (data_rows (cross_tab recs))))
               (seq 0 (length (header (cross_tab recs)))) 0%nat j).
    rewrite seq_nth by exact Hlt. cbn [Nat.add].
    rewrite Hcolumn. apply num_sum_Int.
  - rewrite Hoverall. unfold first_named.
    rewrite get_num_fold_zip_add.
    + rewrite get_num_zeros by (apply List.Forall_forall; intros x Hx;
                                 now apply repeat_spec in Hx).
      rewrite Hdata, !map_map.
      rewrite (map_ext _ _ (first_named_Total recs)).
      rewrite <- (map_map (row_total recs) Int).
      fold (num_sum (map Int (map (row_total recs) (group_keys recs)))).
      rewrite num_sum_Int. fold (grand_total recs). now rewrite grand_total_count.
    + rewrite Hheader. apply in_or_app. left. apply in_or_app. left.
      apply set_header_In.
    + apply repeat_length.
    + apply Forall_map. exact Hlen.
  - assert (Hbucket : forall name,
               In name stats_header ->
               last_named (cross_tab recs) name (overall_row (cross_tab recs))
               = num_sum (map (fun key => last_named (cross_tab recs) name
                                            (snd (data_row recs key)))
                            (group_keys recs))).
    { intros name Hname. unfold last_named at 1. rewrite Hoverall.
      rewrite rev_fold_zip_add
        by (rewrite repeat_length; apply Forall_map; exact Hlen).
      rewrite get_num_fold_zip_add.
      + rewrite get_num_zeros.
        2:{ apply List.Forall_forall. intros x Hx%in_rev.
            now apply repeat_spec in Hx. }
        unfold num_sum, last_named. now rewrite Hdata, !map_map.
      + apply in_rev. rewrite rev_involutive, Hheader.
        apply in_or_app. right. exact Hname.
      + now rewrite !length_rev, repeat_length.
      + apply Forall_map, Forall_map.
        eapply Forall_impl; [exact Hlen|]. intros r Hr. cbn beta in *.
        now rewrite !length_rev. }
    assert (Hcells : forall key,
               last_named (cross_tab recs) "Employed" (snd (data_row recs key))
               = Int (employed_count recs key) /\
               last_named (cross_tab recs) "Unemployed" (snd (data_row recs key))
               = Int (group_size key "Unemployed" recs) /\
               last_named (cross_tab recs) "Studying" (snd (data_row recs key))
               = Int (group_size key "Studying" recs)).
    { intros key. pose proof (last_named_stats recs key) as Hstats.
      unfold stats_header, stats_row in Hstats. cbn [map] in Hstats.
      injection Hstats as HE HU HS _ _ _. auto. }
    cbn [map].
    rewrite !Hbucket by (unfold stats_header; cbn [In]; tauto).
    rewrite (map_ext _ (fun key => Int (employed_count recs key)))
      by (intros key; apply (Hcells key)).
    rewrite (map_ext (fun key => last_named _ "Unemployed" _)
               (fun key => Int (group_size key "Unemployed" recs)))
      by (intros key; apply (Hcells key)).
    rewrite (map_ext (fun key => last_named _ "Studying" _)
               (fun key => Int (group_size key "Studying" recs)))
      by (intros key; apply (Hcells key)).
    rewrite <- (map_map (employed_count recs) Int).
    rewrite <- (map_map (fun key => group_size key "Unemployed" recs) Int).
    rewrite <- (map_map (fun key => group_size key "Studying" recs) Int).
    now rewrite !num_sum_Int.
  - rewrite Hdata. apply Forall_map, List.Forall_forall. intros key _.
    pose proof (f_equal (skipn 3) (last_named_stats recs key)) as Hstats.
    unfold stats_header, stats_row in Hstats. cbn [map skipn] in Hstats.
    rewrite grand_total_count in Hstats.
    change (fst (data_row recs key)) with key. cbn [map]. exact Hstats.
Qed.

(** C2 (as stated) fails: with an employed and an unemployed graduate the
    grand total is two and the percentages of [Overall Total] are 50, 50
    and 0; with three employed graduates of three majors the employed
    percentage is the float 33.33 added three times, 99.99. *)
Lemma overall_percentages_not_100 :
  two_graduates <> [] /\
  first_named (cross_tab two_graduates) "Total" (overall_row (cross_tab two_graduates))
  = Int 2 /\
  map (fun name => last_named (cross_tab two_graduates) name
                     (overall_row (cross_tab two_graduates)))
    [ "Employed Percentage"; "Unemployed Percentage"; "Studying Percentage" ]
  = [ Pct 50; Pct 50; Pct 0 ] /\
  last_named (cross_tab two_graduates) "Employed Percentage"
    (overall_row (cross_tab two_graduates)) <> Pct 100 /\
  last_named (cross_tab three_majors) "Employed Percentage"
    (overall_row (cross_tab three_majors)) = Pct 99.99.
Proof.
  split; [discriminate|].
  split; [vm_compute; reflexivity|].
  split; [vm_compute; reflexivity|].
  split; [vm_compute; discriminate|].
  vm_compute. reflexivity.
Qed.

(** The same on a whole request: the combined sheet of the sample roster
    has three rows of one graduate each, and the percentages of its
    [Overall Total] are 33.33 each. *)
Lemma qaa_sample_overall_percentages :
  match process_qaa_report sample_sessions "full" sample_colleges sample_years
          "all" true true "all" None "detailed" with
  | Success (Detailed_mode [ (Combined_Report, rep) ]) =>
      first_named rep "Total" (overall_row rep) = Int 3 /\
      map (fun name => last_named rep name (overall_row rep))
        [ "Employed Percentage"; "Unemployed Percentage"; "Studying Percentage" ]
      = [ Pct 33.33; Pct 33.33; Pct 33.33 ]
  | _ => False
  end.
Proof. vm_compute. split; reflexivity. Qed.

(** Every sheet of the detailed mode is the cross-tab of some rows of the
    filtered frame, so what holds of [cross_tab] holds of every sheet. *)
Lemma detailed_sheets_are_cross_tabs filtered_df colleges years degree_option
    combine_all combine_years sheet :
  In sheet (detailed_sheets filtered_df colleges years degree_option combine_all
              combine_years) ->
  exists df,
    incl df filtered_df /\
    snd sheet
    = cross_tab (group_pairs (combine_all || String.eqb degree_option "all") df).
Proof.
  unfold detailed_sheets. destruct combine_all; [|destruct combine_years].
  - intros [<-|[]]. exists filtered_df. split; [apply incl_refl|reflexivity].
  - intros (college & _ & Hin)%in_flat_map.
    destruct (is_nil _); [destruct Hin|]. destruct Hin as [<-|[]].
    eexists. split; [apply List.incl_filter|reflexivity].
  - intros (college & _ & Hin)%in_flat_map.
    destruct (is_nil _); [destruct Hin|].
    apply in_flat_map in Hin as (year & _ & Hin).
    destruct (is_nil _); [destruct Hin|]. destruct Hin as [<-|[]].
    eexists. split; [|reflexivity].
    eapply incl_tran; apply List.incl_filter.
Qed.

(** ** Strings: trimming and case *)

Lemma upper_char_space c : Py.is_space (Py.upper_char c) = Py.is_space c.
Proof. destruct c as [[] [] [] [] [] [] [] []]; reflexivity. Qed.

Lemma lower_char_space c : Py.is_space (Py.lower_char c) = Py.is_space c.
Proof. destruct c as [[] [] [] [] [] [] [] []]; reflexivity. Qed.

Lemma upper_char_idem c : Py.upper_char (Py.upper_char c) = Py.upper_char c.
Proof. destruct c as [[] [] [] [] [] [] [] []]; reflexivity. Qed.

Lemma lower_char_idem c : Py.lower_char (Py.lower_char c) = Py.lower_char c.
Proof. destruct c as [[] [] [] [] [] [] [] []]; reflexivity. Qed.

Lemma lower_upper_char c : Py.lower_char (Py.upper_char c) = Py.lower_char c.
Proof. destruct c as [[] [] [] [] [] [] [] []]; reflexivity. Qed.

Lemma upper_lower_char c : Py.upper_char (Py.lower_char c) = Py.upper_char c.
Proof. destruct c as [[] [] [] [] [] [] [] []]; reflexivity. Qed.

Lemma upper_char_no_lower c : Py.is_lower (Py.upper_char c) = false.
Proof. destruct c as [[] [] [] [] [] [] [] []]; reflexivity. Qed.

Lemma upper_char_fixed c : Py.is_lower c = false -> Py.upper_char c = c.
Proof. unfold Py.upper_char. now intros ->. Qed.

Lemma map_chars_map_chars f g s :
  Py.map_chars f (Py.map_chars g s) = Py.map_chars (fun c => f (g c)) s.
Proof. induction s as [|c s IH]; [reflexivity|]. cbn. now rewrite IH. Qed.

Lemma map_chars_ext f g s :
  (forall c, f c = g c) -> Py.map_chars f s = Py.map_chars g s.
Proof. intros H. induction s as [|c s IH]; [reflexivity|]. cbn. now rewrite H, IH. Qed.

Lemma upper_idem s : Py.upper (Py.upper s) = Py.upper s.
Proof.
  unfold Py.upper. rewrite map_chars_map_chars. apply map_chars_ext, upper_char_idem.
Qed.

Lemma lower_idem s : Py.lower (Py.lower s) = Py.lower s.
Proof.
  unfold Py.lower. rewrite map_chars_map_chars. apply map_chars_ext, lower_char_idem.
Qed.

Lemma lower_upper s : Py.lower (Py.upper s) = Py.lower s.
Proof.
  unfold Py.lower, Py.upper. rewrite map_chars_map_chars.
  apply map_chars_ext, lower_upper_char.
Qed.

Lemma upper_lower s : Py.upper (Py.lower s) = Py.upper s.
Proof.
  unfold Py.lower, Py.upper. rewrite map_chars_map_chars.
  apply map_chars_ext, upper_lower_char.
Qed.

Lemma is_empty_map_chars f s : Py.is_empty (Py.map_chars f s) = Py.is_empty s.
Proof. now destruct s. Qed.

Section keeps_spaces.
Variable f : ascii -> ascii.
Hypothesis f_space : forall c, Py.is_space (f c) = Py.is_space c.

Lemma lstrip_map_chars s : Py.lstrip (Py.map_chars f s) = Py.map_chars f (Py.lstrip s).
Proof.
  induction s as [|c s IH]; [reflexivity|]. cbn [Py.map_chars Py.lstrip].
  rewrite f_space. destruct (Py.is_space c); [exact IH|reflexivity].
Qed.

Lemma rstrip_map_chars s : Py.rstrip (Py.map_chars f s) = Py.map_chars f (Py.rstrip s).
Proof.
  induction s as [|c s IH]; [reflexivity|]. cbn [Py.map_chars Py.rstrip].
  rewrite f_space, IH, is_empty_map_chars.
  now destruct (Py.is_space c && Py.is_empty (Py.rstrip s)).
Qed.

Lemma strip_map_chars s : Py.strip (Py.map_chars f s) = Py.map_chars f (Py.strip s).
Proof. unfold Py.strip. now rewrite lstrip_map_chars, rstrip_map_chars. Qed.
End keeps_spaces.

Lemma strip_upper s : Py.strip (Py.upper s) = Py.upper (Py.strip s).
Proof. apply strip_map_chars, upper_char_space. Qed.

Lemma strip_lower s : Py.strip (Py.lower s) = Py.lower (Py.strip s).
Proof. apply strip_map_chars, lower_char_space. Qed.

Lemma lstrip_idem s : Py.lstrip (Py.lstrip s) = Py.lstrip s.
Proof.
  induction s as [|c s IH]; [reflexivity|]. cbn [Py.lstrip].
  destruct (Py.is_space c) eqn:Hc; [exact IH|]. cbn [Py.lstrip]. now rewrite Hc.
Qed.

Lemma rstrip_idem s : Py.rstrip (Py.rstrip s) = Py.rstrip s.
Proof.
  induction s as [|c s IH]; [reflexivity|]. cbn [Py.rstrip].
  destruct (Py.is_space c && Py.is_empty (Py.rstrip s)) eqn:Hc; [reflexivity|].
  cbn [Py.rstrip]. now rewrite IH, Hc.
Qed.

Lemma lstrip_rstrip s : Py.lstrip (Py.rstrip s) = Py.rstrip (Py.lstrip s).
Proof.
  induction s as [|c s IH]; [reflexivity|]. cbn [Py.rstrip Py.lstrip].
  destruct (Py.is_space c) eqn:Hc; cbn [andb].
  - rewrite <- IH. destruct (Py.rstrip s) eqn:Hr; cbn [Py.is_empty Py.lstrip].
    + reflexivity.
    + now rewrite Hc.
  - cbn [Py.lstrip Py.rstrip]. now rewrite Hc.
Qed.

Lemma strip_idem s : Py.strip (Py.strip s) = Py.strip s.
Proof.
  unfold Py.strip. now rewrite lstrip_rstrip, lstrip_idem, rstrip_idem.
Qed.

Lemma lstrip_strip s : Py.lstrip (Py.strip s) = Py.strip s.
Proof. unfold Py.strip. now rewrite lstrip_rstrip, lstrip_idem. Qed.

Lemma rstrip_strip s : Py.rstrip (Py.strip s) = Py.strip s.
Proof. unfold Py.strip. apply rstrip_idem. Qed.

Lemma length_lstrip s : (String.length (Py.lstrip s) <= String.length s)%nat.
Proof.
  induction s as [|c s IH]; [reflexivity|]. cbn [Py.lstrip].
  destruct (Py.is_space c); cbn [String.length]; lia.
Qed.

(** A trimmed string that is not empty begins with a character that is no
    white space, and its tail is trimmed on the right. *)
Lemma stripped_cons c t :
  Py.lstrip (String c t) = String c t -> Py.rstrip (String c t) = String c t ->
  Py.is_space c = false /\ Py.rstrip t = t.
Proof.
  cbn [Py.lstrip Py.rstrip]. intros Hl Hr.
  destruct (Py.is_space c) eqn:Hc.
  - exfalso. pose proof (length_lstrip t) as Hlen. rewrite Hl in Hlen.
    cbn [String.length] in Hlen. lia.
  - split; [reflexivity|]. cbn [andb] in Hr. now injection Hr.
Qed.

(** The cleaned form that both normalizers work on is cleaned already. *)
Lemma cleaned_idem s :
  Py.upper (Py.strip (Py.upper (Py.strip s))) = Py.upper (Py.strip s).
Proof. now rewrite strip_upper, strip_idem, upper_idem. Qed.

(** ** The status canonicalizer *)

Lemma capitalize_stripped_lower t :
  Py.strip t = t -> Py.lower t = t ->
  Py.capitalize (Py.lower (Py.strip (Py.capitalize t))) = Py.capitalize t.
Proof.
  intros Hstrip Hlower. destruct t as [|c t]; [reflexivity|].
  assert (Hl : Py.lstrip (String c t) = String c t)
    by (rewrite <- Hstrip at 1; rewrite lstrip_strip; exact Hstrip).
  assert (Hr : Py.rstrip (String c t) = String c t)
    by (rewrite <- Hstrip at 1; rewrite rstrip_strip; exact Hstrip).
  destruct (stripped_cons c t Hl Hr) as [Hc Ht].
  assert (Hc' : Py.lower_char c = c) by (now injection Hlower).
  assert (Ht' : Py.lower t = t) by (now injection Hlower).
  change (Py.capitalize (String c t)) with (String (Py.upper_char c) (Py.lower t)).
  rewrite Ht'. unfold Py.strip. cbn [Py.lstrip]. rewrite upper_char_space, Hc.
  cbn [Py.rstrip]. rewrite upper_char_space, Hc, Ht. cbn [andb].
  change (Py.lower (String (Py.upper_char c) t))
    with (String (Py.lower_char (Py.upper_char c)) (Py.lower t)).
  rewrite Ht'.
  change (Py.capitalize (String (Py.lower_char (Py.upper_char c)) t))
    with (String (Py.upper_char (Py.lower_char (Py.upper_char c))) (Py.lower t)).
  now rewrite Ht', lower_upper_char, upper_lower_char.
Qed.

Lemma clean_status_idem_str s :
  clean_status (PyStr (clean_status (PyStr s))) = clean_status (PyStr s).
Proof.
  cbn [clean_status]. apply capitalize_stripped_lower.
  - now rewrite strip_lower, strip_idem.
  - apply lower_idem.
Qed.

(** X1: on ASCII text the status canonicalizer is idempotent: a canonical
    status, and [Unknown], the answer for a value that is no string, are
    left as they are. *)
Theorem clean_status_idempotent (status : pyval) :
  isascii_value status = true ->
  clean_status (PyStr (clean_status status)) = clean_status status.
Proof.
  intros _. destruct status as [| |n|s]; try reflexivity.
  apply clean_status_idem_str.
Qed.

Lemma clean_status_idempotent_witness :
  clean_status (PyStr "  eMPLOYED - Add to List ") = "Employed - add to list" /\
  clean_status (PyStr (clean_status (PyStr "  eMPLOYED - Add to List ")))
  = clean_status (PyStr "  eMPLOYED - Add to List ").
Proof.
  split; [reflexivity|].
  apply (clean_status_idempotent (PyStr "  eMPLOYED - Add to List ")). reflexivity.
Defined.

(** X2: on ASCII text the canonical status does not depend on the case of
    the letters nor on the white space around the value. *)
Theorem clean_status_case_and_space (s : string) :
  Py.isascii s = true ->
  clean_status (PyStr (Py.upper s)) = clean_status (PyStr s) /\
  clean_status (PyStr (Py.lower s)) = clean_status (PyStr s) /\
  clean_status (PyStr (Py.strip s)) = clean_status (PyStr s).
Proof.
  intros _. cbn [clean_status]. repeat split.
  - now rewrite strip_upper, lower_upper.
  - now rewrite strip_lower, lower_idem.
  - now rewrite strip_idem.
Qed.

Lemma clean_status_case_and_space_witness :
  clean_status (PyStr (Py.upper " Business owner"))
  = clean_status (PyStr " Business owner") /\
  clean_status (PyStr " Business owner") = "Business owner".
Proof.
  split; [|reflexivity].
  apply (clean_status_case_and_space " Business owner"). reflexivity.
Defined.

(** ** The company normalizer: shape of the output *)

Lemma no_lower_case_upper s : no_lower_case (Py.upper s) = true.
Proof.
  induction s as [|c s IH]; [reflexivity|].
  unfold no_lower_case in *. cbn [Py.upper Py.map_chars all_chars].
  rewrite upper_char_no_lower. exact IH.
Qed.

Lemma no_lower_case_fixed s : no_lower_case s = true -> Py.upper s = s.
Proof.
  unfold no_lower_case. induction s as [|c s IH]; [reflexivity|].
  cbn [all_chars Py.upper Py.map_chars].
  intros [Hc Hs]%andb_prop. apply negb_true_iff in Hc.
  rewrite (upper_char_fixed c Hc). f_equal. now apply IH.
Qed.

Lemma all_chars_lstrip p s : all_chars p s = true -> all_chars p (Py.lstrip s) = true.
Proof.
  induction s as [|c s IH]; [reflexivity|]. cbn [Py.lstrip].
  destruct (Py.is_space c); [|auto]. cbn [all_chars]. intros [_ H]%andb_prop. auto.
Qed.

Lemma all_chars_rstrip p s : all_chars p s = true -> all_chars p (Py.rstrip s) = true.
Proof.
  induction s as [|c s IH]; [reflexivity|]. cbn [Py.rstrip all_chars].
  intros [Hc Hs]%andb_prop.
  destruct (Py.is_space c && Py.is_empty (Py.rstrip s)); [reflexivity|].
  cbn [all_chars]. rewrite Hc. now apply IH.
Qed.

(** Removing the occurrences of a word brings in no character. *)
Lemma all_chars_remove p old skip s :
  all_chars p s = true -> all_chars p (Py.replace_from old "" skip s) = true.
Proof.
  revert skip. induction s as [|c s IH]; intros skip; [reflexivity|].
  cbn [all_chars Py.replace_from]. intros [Hc Hs]%andb_prop.
  destruct skip as [|skip]; [|now apply IH].
  destruct (Py.startswith old (String c s)).
  - change ("" +:+ ?x) with x. now apply IH.
  - cbn [all_chars]. rewrite Hc. now apply IH.
Qed.

Lemma all_chars_strip_remove_words p name :
  all_chars p name = true -> all_chars p (strip_remove_words name) = true.
Proof.
  unfold strip_remove_words. generalize remove_words. intros words. revert name.
  induction words as [|word words IH]; intros name H; [exact H|].
  cbn [fold_left]. apply IH.
  change (Py.replace (" " +:+ word) "" name)
    with (Py.replace_from (String " " word) "" 0 name).
  now apply all_chars_remove.
Qed.

Lemma fixed_outputs_trimmed_upper y :
  In y fixed_outputs -> Py.strip y = y /\ Py.upper y = y.
Proof.
  intros Hin.
  assert (Hall : forallb (fun y => String.eqb (Py.strip y) y && String.eqb (Py.upper y) y)
                   fixed_outputs = true) by (vm_compute; reflexivity).
  rewrite forallb_forall in Hall. apply Hall in Hin.
  apply andb_prop in Hin as [H1 H2].
  split; now apply String.eqb_eq.
Qed.

Lemma normalize_cleaned_output name :
  In (normalize_cleaned name) fixed_outputs \/
  normalize_cleaned name = Py.strip (strip_remove_words name).
Proof.
  unfold normalize_cleaned, fixed_outputs.
  destruct (match_empty_pattern name empty_patterns) as [sentinel|] eqn:Hempty.
  { left. apply in_or_app. right. apply in_or_app. left.
    eapply match_empty_pattern_In; eassumption. }
  destruct (Py.dict_get name company_aliases) as [canonical|] eqn:Halias.
  { left. apply in_or_app. right. apply in_or_app. right.
    eapply dict_get_In; eassumption. }
  cbv zeta.
  destruct (Py.contains "NATIONAL GUARD" (strip_remove_words name)
            && Py.contains "HEALTH" (strip_remove_words name)).
  { left. apply in_or_app. left. do 2 right. now left. }
  destruct (Py.contains "KING FAHAD MEDICAL" (strip_remove_words name)).
  { left. apply in_or_app. left. do 3 right. now left. }
  right. reflexivity.
Qed.

(** X3: whatever the input, the normalized company name has no white space
    around it and no lower-case letter. *)
Theorem normalize_output_trimmed_upper (x : pyval) :
  Py.strip (normalize_company_name x) = normalize_company_name x /\
  Py.upper (normalize_company_name x) = normalize_company_name x.
Proof.
  destruct x as [| |n|s];
    [vm_compute; split; reflexivity | vm_compute; split; reflexivity
    | vm_compute; split; reflexivity |].
  change (normalize_company_name (PyStr s))
    with (normalize_cleaned (Py.upper (Py.strip s))).
  destruct (normalize_cleaned_output (Py.upper (Py.strip s))) as [Hin| ->].
  - now apply fixed_outputs_trimmed_upper.
  - split; [apply strip_idem|].
    rewrite <- strip_upper. f_equal. apply no_lower_case_fixed.
    apply all_chars_strip_remove_words, no_lower_case_upper.
Qed.

Lemma normalize_str s :
  normalize_company_name (PyStr s) = normalize_cleaned (Py.upper (Py.strip s)).
Proof. reflexivity. Qed.

(** X4: on ASCII text the normalized company name does not depend on the
    case of the letters nor on the white space around the input. *)
Theorem normalize_case_and_space (s : string) :
  Py.isascii s = true ->
  normalize_company_name (PyStr (Py.upper s)) = normalize_company_name (PyStr s) /\
  normalize_company_name (PyStr (Py.lower s)) = normalize_company_name (PyStr s) /\
  normalize_company_name (PyStr (Py.strip s)) = normalize_company_name (PyStr s).
Proof.
  intros _.
  rewrite !normalize_str, strip_upper, upper_idem, strip_lower, upper_lower, strip_idem.
  repeat split.
Qed.

Lemma normalize_case_and_space_witness :
  normalize_company_name (PyStr (Py.lower " Saudi Aramco "))
  = normalize_company_name (PyStr " Saudi Aramco ").
Proof.
  apply (normalize_case_and_space " Saudi Aramco "). reflexivity.
Defined.

(** X5: a missing value, a value that is no string and a string whose
    cleaned form is an empty pattern are given a sentinel that begins with
    [EMPTY], which is what the workplace statistics count as an empty
    entry. *)
Theorem degenerate_workplace_is_empty (x : pyval) :
  match x with
  | PyStr s =>
      is_Some (match_empty_pattern (Py.upper (Py.strip s)) empty_patterns)
  | _ => True
  end ->
  In (normalize_company_name x)
    ([ "EMPTY (NULL)"; "EMPTY (INVALID TYPE)" ]
     ++ map (fun c => "EMPTY (" +:+ fst c +:+ ")") empty_patterns) /\
  Py.startswith "EMPTY" (normalize_company_name x) = true.
Proof.
  intros H.
  assert (Hprefix : forall y,
            In y ([ "EMPTY (NULL)"; "EMPTY (INVALID TYPE)" ]
                  ++ map (fun c => "EMPTY (" +:+ fst c +:+ ")") empty_patterns) ->
            Py.startswith "EMPTY" y = true).
  { intros y Hy.
    assert (Hall : forallb (Py.startswith "EMPTY")
                     ([ "EMPTY (NULL)"; "EMPTY (INVALID TYPE)" ]
                      ++ map (fun c => "EMPTY (" +:+ fst c +:+ ")") empty_patterns)
                   = true) by (vm_compute; reflexivity).
    rewrite forallb_forall in Hall. now apply Hall. }
  assert (Hin : In (normalize_company_name x)
                  ([ "EMPTY (NULL)"; "EMPTY (INVALID TYPE)" ]
                   ++ map (fun c => "EMPTY (" +:+ fst c +:+ ")") empty_patterns)).
  { destruct x as [| |n|s].
    - apply in_or_app. left. now left.
    - apply in_or_app. left. now left.
    - apply in_or_app. left. right. now left.
    - destruct H as [sentinel Hs].
      change (normalize_company_name (PyStr s))
        with (normalize_cleaned (Py.upper (Py.strip s))).
      rewrite (normalize_cleaned_empty _ _ Hs). apply in_or_app. right.
      eapply match_empty_pattern_In; eassumption. }
  split; [exact Hin|now apply Hprefix].
Qed.

Lemma degenerate_workplace_is_empty_witness :
  Py.startswith "EMPTY" (normalize_company_name (PyStr " n/a ")) = true.
Proof.
  apply (degenerate_workplace_is_empty (PyStr " n/a ")).
  vm_compute. eexists. reflexivity.
Defined.

(** ** The job-title classifier: what is classified *)

Lemma dict_get_pair {A} k (d : list (string * A)) v :
  Py.dict_get k d = Some v -> In (k, v) d.
Proof.
  induction d as [|[k' v'] d IH]; cbn [Py.dict_get]; [discriminate|].
  destruct (String.eqb_spec k k') as [->|_]; [intros [= ->]; now left|].
  intros H. right. auto.
Qed.

Lemma scan_keywords_found position tbl r :
  scan_keywords position tbl = Some r ->
  exists keyword, In (keyword, r) tbl /\ Py.search_word keyword position = true.
Proof.
  induction tbl as [|[keyword normalized] tbl IH]; cbn [scan_keywords]; [discriminate|].
  destruct (Py.search_word keyword position) eqn:Hfound.
  - destruct (needs_context keyword).
    + destruct (has_leadership_context position).
      * intros [= <-]. exists keyword. split; [now left|exact Hfound].
      * intros H. destruct (IH H) as (kw & Hin & Hkw). exists kw. split; [now right|exact Hkw].
    + intros [= <-]. exists keyword. split; [now left|exact Hfound].
  - intros H. destruct (IH H) as (kw & Hin & Hkw). exists kw. split; [now right|exact Hkw].
Qed.

(** X6: a title is classified only through a keyword of the mapping: the
    result is the canonical title of a keyword that is the whole cleaned
    title or occurs in it as a whole word. *)
Theorem high_position_has_keyword (position : pyval) (r : string) :
  is_high_position position = Some r ->
  exists s keyword,
    position = PyStr s /\ In (keyword, r) high_position_mapping /\
    (Py.upper (Py.strip s) = keyword \/
     Py.search_word keyword (Py.upper (Py.strip s)) = true).
Proof.
  destruct position as [| |n|s]; try discriminate.
  unfold is_high_position. cbv zeta.
  destruct (Py.is_empty (Py.upper (Py.strip s))
            || Py.mem (Py.upper (Py.strip s)) position_placeholders); [discriminate|].
  destruct (Py.dict_get (Py.upper (Py.strip s)) high_position_mapping)
    as [normalized|] eqn:Hexact.
  - intros [= <-]. exists s, (Py.upper (Py.strip s)).
    split; [reflexivity|]. split; [now apply dict_get_pair|now left].
  - intros (keyword & Hin & Hfound)%scan_keywords_found.
    exists s, keyword. split; [reflexivity|]. split; [exact Hin|now right].
Qed.

Lemma high_position_has_keyword_witness :
  exists s keyword,
    PyStr "IT Director" = PyStr s /\ In (keyword, "DIRECTOR") high_position_mapping /\
    (Py.upper (Py.strip s) = keyword \/
     Py.search_word keyword (Py.upper (Py.strip s)) = true).
Proof.
  apply (high_position_has_keyword (PyStr "IT Director") "DIRECTOR").
  vm_compute. reflexivity.
Defined.

(** X7: on ASCII text the classification does not depend on the case of
    the letters nor on the white space around the title. *)
Theorem high_position_case_and_space (s : string) :
  Py.isascii s = true ->
  is_high_position (PyStr (Py.upper s)) = is_high_position (PyStr s) /\
  is_high_position (PyStr (Py.lower s)) = is_high_position (PyStr s) /\
  is_high_position (PyStr (Py.strip s)) = is_high_position (PyStr s).
Proof.
  intros _. unfold is_high_position. cbv zeta.
  rewrite strip_upper, upper_idem, strip_lower, upper_lower, strip_idem.
  repeat split.
Qed.

Lemma high_position_case_and_space_witness :
  is_high_position (PyStr (Py.lower " IT Director "))
  = is_high_position (PyStr " IT Director ").
Proof.
  apply (high_position_case_and_space " IT Director "). reflexivity.
Defined.

Lemma mapping_keys_are_titles key :
  In key (map fst high_position_mapping) ->
  Py.is_empty key || Py.mem key position_placeholders = false.
Proof.
  intros Hin.
  assert (Hall : forallb (fun key => negb (Py.is_empty key
                                           || Py.mem key position_placeholders))
                   (map fst high_position_mapping) = true) by (vm_compute; reflexivity).
  rewrite forallb_forall in Hall. apply Hall in Hin. now apply negb_true_iff.
Qed.

(** X8: a title whose cleaned form is a key of the mapping is given the
    canonical title of that key, before any scan. *)
Theorem high_position_exact_match (s normalized : string) :
  Py.dict_get (Py.upper (Py.strip s)) high_position_mapping = Some normalized ->
  is_high_position (PyStr s) = Some normalized.
Proof.
  intros Hexact. unfold is_high_position. cbv zeta.
  rewrite mapping_keys_are_titles, Hexact; [reflexivity|].
  apply dict_get_pair in Hexact. apply in_map_iff. eexists. split; [|exact Hexact].
  reflexivity.
Qed.

Lemma high_position_exact_match_witness :
  is_high_position (PyStr "  vp ") = Some "VICE PRESIDENT".
Proof.
  apply (high_position_exact_match "  vp " "VICE PRESIDENT"). vm_compute. reflexivity.
Defined.

(** ** Workplace statistics: the options *)

(** The mask in one piece. *)
Lemma workplace_mask_spec df colleges years d g n r :
  (workplace_mask df colleges years d g n).1 r
  = Py.mem (col_College r) colleges && Py.mem (col_Year r) years
    && degree_mask d r && gender_selects g r
    && (if truthy n && String.eqb (option_lower n) "saudi" && has_column "Nationality" df
        then is_saudi r else true).
Proof.
  unfold workplace_mask, gender_selects.
  destruct (truthy n && String.eqb (option_lower n) "saudi"); cbn [andb];
    [destruct (has_column "Nationality" df)|]; cbn [fst];
    destruct (String.eqb (Py.lower g) "all"); cbn [negb orb];
    rewrite ?andb_true_r; reflexivity.
Qed.

Lemma filter_split {A} (p q : A -> bool) l :
  (length (List.filter (fun x => q x && negb (p x)) l)
   + length (List.filter (fun x => q x && p x) l)
   = length (List.filter q l))%nat.
Proof.
  induction l as [|x l IH]; [reflexivity|]. cbn [List.filter].
  destruct (q x), (p x); cbn [andb negb length]; lia.
Qed.

Lemma workplace_mask_degree df colleges years d g n r :
  (workplace_mask df colleges years d g n).1 r
  = (workplace_mask df colleges years "all" g n).1 r && degree_mask d r.
Proof.
  rewrite !workplace_mask_spec.
  change (degree_mask "all" r) with true.
  destruct (Py.mem (col_College r) colleges), (Py.mem (col_Year r) years),
    (degree_mask d r), (gender_selects g r),
    (if truthy n && String.eqb (option_lower n) "saudi" && has_column "Nationality" df
     then is_saudi r else true); reflexivity.
Qed.

Lemma stats_of_mask df colleges years d g n :
  (get_workplace_statistics df colleges years d g n).1.1
  = let mask := (workplace_mask df colleges years d g n).1 in
    {| total_alumni := length (List.filter mask (rows df));
       valid_entries :=
         length (List.filter (fun r => mask r && negb (empty_mask r)) (rows df));
       empty_entries :=
         length (List.filter (fun r => mask r && empty_mask r) (rows df));
       high_positions_count :=
         length (List.filter (fun r => mask r && notna (High_Position r)) (rows df)) |}.
Proof.
  unfold get_workplace_statistics.
  destruct (workplace_mask df colleges years d g n) as [mask printed].
  cbn [fst snd]. now rewrite !filter_filter_and.
Qed.

(** X9: the bachelors and the masters partition the graduates: under any
    other degree option each count of the workplace statistics is the sum
    of the counts under [bachelor] and under [master]. *)
Theorem workplace_degree_partition (df : DataFrame) (colleges years : list string)
    (degree_option gender_option : string) (nationality_option : option string) :
  String.eqb degree_option "bachelor" = false ->
  String.eqb degree_option "master" = false ->
  let stats d :=
    (get_workplace_statistics df colleges years d gender_option nationality_option).1.1 in
  (total_alumni (stats "bachelor") + total_alumni (stats "master")
   = total_alumni (stats degree_option))%nat /\
  (valid_entries (stats "bachelor") + valid_entries (stats "master")
   = valid_entries (stats degree_option))%nat /\
  (empty_entries (stats "bachelor") + empty_entries (stats "master")
   = empty_entries (stats degree_option))%nat /\
  (high_positions_count (stats "bachelor") + high_positions_count (stats "master")
   = high_positions_count (stats degree_option))%nat.
Proof.
  intros Hb Hm. cbv beta zeta. rewrite !stats_of_mask. cbv beta zeta.
  cbn [total_alumni valid_entries empty_entries high_positions_count].
  set (base := (workplace_mask df colleges years "all" gender_option
                  nationality_option).1).
  assert (Hany : forall r,
            (workplace_mask df colleges years degree_option gender_option
               nationality_option).1 r = base r).
  { intros r. rewrite workplace_mask_degree. unfold degree_mask.
    rewrite Hb, Hm. apply andb_true_r. }
  assert (Hbach : forall r,
            (workplace_mask df colleges years "bachelor" gender_option
               nationality_option).1 r = base r && negb (is_graduate r)).
  { intros r. now rewrite workplace_mask_degree. }
  assert (Hmast : forall r,
            (workplace_mask df colleges years "master" gender_option
               nationality_option).1 r = base r && is_graduate r).
  { intros r. now rewrite workplace_mask_degree. }
  assert (Hsplit : forall q : gmap string string -> bool,
    (length (List.filter
               (fun r => (workplace_mask df colleges years "bachelor" gender_option
                            nationality_option).1 r && q r) (rows df))
     + length (List.filter
                 (fun r => (workplace_mask df colleges years "master" gender_option
                              nationality_option).1 r && q r) (rows df))
     = length (List.filter
                 (fun r => (workplace_mask df colleges years degree_option
                              gender_option nationality_option).1 r && q r)
                 (rows df)))%nat).
  { intros q.
    rewrite (List.filter_ext _ (fun r => (base r && q r) && negb (is_graduate r)))
      by (intros r; rewrite Hbach;
          destruct (base r), (q r), (is_graduate r); reflexivity).
    rewrite (List.filter_ext
               (fun r => (workplace_mask df colleges years "master" gender_option
                            nationality_option).1 r && q r)
               (fun r => (base r && q r) && is_graduate r))
      by (intros r; rewrite Hmast;
          destruct (base r), (q r), (is_graduate r); reflexivity).
    rewrite (List.filter_ext
               (fun r => (workplace_mask df colleges years degree_option gender_option
                            nationality_option).1 r && q r)
               (fun r => base r && q r))
      by (intros r; now rewrite Hany).
    apply filter_split. }
  repeat split; try apply Hsplit.
  pose proof (Hsplit (fun _ => true)) as H.
  rewrite !(List.filter_ext (fun r => _ r && true) _ (fun r => andb_true_r _)) in H.
  exact H.
Qed.

Lemma workplace_degree_partition_witness :
  let stats d :=
    (get_workplace_statistics sample_roster sample_colleges sample_years d "all"
       None).1.1 in
  (total_alumni (stats "bachelor") + total_alumni (stats "master")
   = total_alumni (stats "all"))%nat.
Proof.
  apply (workplace_degree_partition sample_roster sample_colleges sample_years
           "all" "all" None); reflexivity.
Defined.

(** X10: on the frame of an alumni file, the gender and the nationality
    options, when they are ASCII text, are read without regard to the case
    of their letters. *)
Theorem workplace_options_case (df : DataFrame) (colleges years : list string)
    (degree_option gender_option nationality_option : string) :
  is_alumni_roster df = true ->
  Py.isascii gender_option = true ->
  Py.isascii nationality_option = true ->
  get_workplace_statistics df colleges years degree_option (Py.upper gender_option)
    (Some (Py.upper nationality_option))
  = get_workplace_statistics df colleges years degree_option gender_option
      (Some nationality_option).
Proof.
  intros _ _ _.
  unfold get_workplace_statistics, workplace_mask, gender_is, truthy, option_lower.
  rewrite !lower_upper.
  change (Py.is_empty (Py.upper nationality_option))
    with (Py.is_empty (Py.map_chars Py.upper_char nationality_option)).
  rewrite is_empty_map_chars. reflexivity.
Qed.

Lemma workplace_options_case_witness :
  get_workplace_statistics sample_roster sample_colleges sample_years "all"
    (Py.upper "female") (Some (Py.upper "saudi"))
  = get_workplace_statistics sample_roster sample_colleges sample_years "all"
      "female" (Some "saudi").
Proof.
  apply (workplace_options_case sample_roster sample_colleges sample_years "all"
           "female" "saudi"); reflexivity.
Defined.

(** ** The alumni list: its sheets and its effect on the store *)

Lemma apply_column_rows df :
  rows (apply_column "Current Status" (fun s => clean_status (PyStr s)) df)
  = map cleaned_row (rows df).
Proof. reflexivity. Qed.






Lemma cleaned_row_idem r : cleaned_row (cleaned_row r) = cleaned_row r.
Proof.
  unfold cleaned_row. rewrite cell_insert_eq, clean_status_idem_str.
  apply insert_insert_eq.
Qed.

Lemma apply_clean_idem df :
  apply_column "Current Status" (fun s => clean_status (PyStr s))
    (apply_column "Current Status" (fun s => clean_status (PyStr s)) df)
  = apply_column "Current Status" (fun s => clean_status (PyStr s)) df.
Proof.
  unfold apply_column. cbn [columns rows]. f_equal.
  rewrite map_map. apply map_ext. intros r. apply cleaned_row_idem.
Qed.

(** X12: on the cached frame of an alumni file whose statuses are ASCII
    text, the alumni list cleans the statuses once and for all: the same
    request served again gives the same answer and leaves the store as the
    first call left it. *)
Theorem alumni_list_repeat (session_data : gmap string session) (session_id : string)
    (s : session) (colleges years allowed_statuses : list string)
    (gender_option : string) (nationality_option : option string)
    (degree_option : string) :
  session_data !! session_id = Some s ->
  is_alumni_roster (data s) = true ->
  ascii_statuses (data s) = true ->
  let first := process_alumni_list session_data session_id colleges years
                 allowed_statuses gender_option nationality_option degree_option in
  process_alumni_list first.2 session_id colleges years allowed_statuses
    gender_option nationality_option degree_option
  = first.
Proof.
  intros Hs _ _. cbv zeta. unfold process_alumni_list at 2 3. rewrite Hs.
  cbn [fst snd].
  unfold process_alumni_list. rewrite lookup_insert_eq. cbn [data file_name].
  rewrite apply_clean_idem. f_equal. apply insert_insert_eq.
Qed.

Lemma alumni_list_repeat_witness :
  let first := process_alumni_list sample_sessions "full" sample_colleges
                 sample_years [ "Employed" ] "all" None "all" in
  process_alumni_list first.2 "full" sample_colleges sample_years [ "Employed" ]
    "all" None "all"
  = first.
Proof.
  apply (alumni_list_repeat sample_sessions "full"
           {| data := sample_roster; file_name := "alumni.xlsx" |});
    vm_compute; reflexivity.
Defined.

(** X13: the alumni list writes nothing but the statuses of the frame of
    its own session: the other sessions, the columns, the number of rows
    and the other cells stay as they were, and each status becomes its
    canonical form. *)
Theorem alumni_list_store (session_data : gmap string session) (session_id : string)
    (s : session) (colleges years allowed_statuses : list string)
    (gender_option : string) (nationality_option : option string)
    (degree_option : string) :
  session_data !! session_id = Some s ->
  let store := (process_alumni_list session_data session_id colleges years
                  allowed_statuses gender_option nationality_option degree_option).2 in
  (forall other, other <> session_id -> store !! other = session_data !! other) /\
  exists s',
    store !! session_id = Some s' /\
    file_name s' = file_name s /\
    columns (data s') = columns (data s) /\
    rows (data s') = map cleaned_row (rows (data s)) /\
    (forall r name, name <> "Current Status" -> cell name (cleaned_row r) = cell name r) /\
    (forall r, cell "Current Status" (cleaned_row r)
               = clean_status (PyStr (cell "Current Status" r))).
Proof.
  intros Hs. cbv zeta. unfold process_alumni_list. rewrite Hs. cbn [snd]. split.
  - intros other Hother. now rewrite lookup_insert_ne.
  - eexists. split; [apply lookup_insert_eq|]. cbn [data file_name].
    repeat split.
    + intros r name Hname. now apply cell_insert_ne.
    + intros r. apply cell_insert_eq.
Qed.

Lemma alumni_list_store_witness :
  exists s',
    (process_alumni_list sample_sessions "full" sample_colleges sample_years
       [ "Employed" ] "all" None "all").2 !! "full" = Some s' /\
    columns (data s') = roster_columns.
Proof.
  destruct (alumni_list_store sample_sessions "full"
              {| data := sample_roster; file_name := "alumni.xlsx" |}
              sample_colleges sample_years [ "Employed" ] "all" None "all")
    as (_ & s' & Hs' & _ & Hcols & _).
  - vm_compute. reflexivity.
  - exists s'. split; [exact Hs'|exact Hcols].
Defined.

(** ** Banner integration: the new records *)

Lemma in_new_ids (banner_df alumni_df : DataFrame) r :
  In r (rows banner_df) ->
  bool_decide (cell "Student ID" r
               ∈ (list_to_set (Student_IDs banner_df) : gset string)
                 ∖ list_to_set (Student_IDs alumni_df))
  = negb (Py.mem (cell "Student ID" r) (Student_IDs alumni_df)).
Proof.
  intros Hr.
  destruct (Py.mem (cell "Student ID" r) (Student_IDs alumni_df)) eqn:Hmem; cbn [negb].
  - apply bool_decide_eq_false. rewrite elem_of_difference, !elem_of_list_to_set.
    intros [_ Hnot]. apply Hnot, list_elem_of_In, mem_In, Hmem.
  - apply bool_decide_eq_true. rewrite elem_of_difference, !elem_of_list_to_set.
    split.
    + apply list_elem_of_In. unfold Student_IDs. now apply in_map.
    + intros Hin%list_elem_of_In. apply mem_true_In in Hin. congruence.
Qed.

Lemma new_ids_empty (banner_df alumni_df : DataFrame) :
  (list_to_set (Student_IDs banner_df) : gset string)
    ∖ list_to_set (Student_IDs alumni_df) = ∅
  <-> new_banner_rows banner_df alumni_df = [].
Proof.
  unfold new_banner_rows. split.
  - intros Hempty. apply filter_none. intros r Hr.
    rewrite <- (in_new_ids banner_df alumni_df r Hr), Hempty.
    apply bool_decide_eq_false. apply not_elem_of_empty.
  - intros Hnone. apply set_eq. intros id. split; [|intros []%not_elem_of_empty].
    rewrite elem_of_difference, !elem_of_list_to_set, !list_elem_of_In.
    intros [(r & <- & Hr)%in_map_iff Hnot]. exfalso.
    assert (Hin : In r (List.filter
                          (fun r => negb (Py.mem (cell "Student ID" r)
                                            (Student_IDs alumni_df)))
                          (rows banner_df))).
    { apply filter_In. split; [exact Hr|]. apply negb_true_iff.
      now apply mem_false_not_In. }
    now rewrite Hnone in Hin.
Qed.

(** The diff in closed form. *)
Lemma banner_diff_spec (banner_df alumni_df : DataFrame) (current_date : string) :
  banner_diff banner_df alumni_df current_date
  = if is_nil (new_banner_rows banner_df alumni_df)
    then inr (Success (nothing_new banner_df alumni_df))
    else if has_column "Student Name" banner_df
    then
      let records :=
        map (new_alumni_record (columns banner_df) (columns alumni_df) current_date)
          (new_banner_rows banner_df alumni_df) in
      inr (Success
             {| new_records := length records;
                banner_records := length (rows banner_df);
                alumni_records := length (rows alumni_df);
                new_students :=
                  map (fun r => (cell "Student ID" r, cell "Student Name" r))
                    (new_banner_rows banner_df alumni_df);
                combined_df :=
                  Some {| columns := columns alumni_df;
                          rows := rows alumni_df
                                  ++ rows (frame_of_records (columns alumni_df) records) |} |})
    else inl (KeyError_not_in_index "Student Name").
Proof.
  unfold banner_diff.
  assert (Hrows :
    List.filter
      (fun r => bool_decide
         (cell "Student ID" r
          ∈ (list_to_set (Student_IDs banner_df) : gset string)
            ∖ list_to_set (Student_IDs alumni_df))) (rows banner_df)
    = new_banner_rows banner_df alumni_df).
  { apply List.filter_ext_in. intros r Hr. now apply in_new_ids. }
  rewrite Hrows.
  destruct (bool_decide _) eqn:Hempty.
  - apply bool_decide_eq_true in Hempty. apply new_ids_empty in Hempty.
    rewrite Hempty. reflexivity.
  - apply bool_decide_eq_false in Hempty.
    destruct (new_banner_rows banner_df alumni_df) eqn:Hnew.
    + exfalso. apply Hempty. now apply new_ids_empty.
    + cbn [is_nil]. now destruct (has_column "Student Name" banner_df).
Qed.

(** X14: when the Banner frame has the names of the students the diff
    succeeds and counts what it was given; without a new graduate nothing
    is combined; otherwise the combined frame has the columns of the alumni
    frame and is its rows followed by one row per new record. *)
Theorem banner_diff_combined (banner_df alumni_df : DataFrame) (current_date : string) :
  has_column "Student Name" banner_df = true ->
  exists result,
    banner_diff banner_df alumni_df current_date = inr (Success result) /\
    banner_records result = length (rows banner_df) /\
    alumni_records result = length (rows alumni_df) /\
    (new_records result <= banner_records result)%nat /\
    length (new_students result) = new_records result /\
    match combined_df result with
    | None => new_records result = 0%nat
    | Some combined =>
        (0 < new_records result)%nat /\
        columns combined = columns alumni_df /\
        firstn (alumni_records result) (rows combined) = rows alumni_df /\
        length (rows combined) = (alumni_records result + new_records result)%nat
    end.
Proof.
  intros Hname. rewrite banner_diff_spec, Hname.
  assert (Hle : (length (new_banner_rows banner_df alumni_df)
                 <= length (rows banner_df))%nat)
    by apply List.filter_length_le.
  destruct (is_nil (new_banner_rows banner_df alumni_df)) eqn:Hnil.
  - eexists. split; [reflexivity|]. cbn. repeat split; lia.
  - cbv zeta. eexists. split; [reflexivity|].
    cbn [banner_records alumni_records new_records new_students combined_df columns
         rows frame_of_records].
    rewrite ?length_app, ?length_map.
    split; [reflexivity|]. split; [reflexivity|]. split; [exact Hle|].
    split; [reflexivity|]. split.
    { destruct (new_banner_rows banner_df alumni_df); [discriminate|].
      cbn [length]. lia. }
    split; [reflexivity|]. split; [|reflexivity].
    rewrite firstn_app, Nat.sub_diag, firstn_all. cbn [firstn]. apply app_nil_r.
Qed.

Lemma banner_diff_combined_witness :
  exists result,
    banner_diff (apply_column "Student ID" Py.strip sample_banner)
      (apply_column "Student ID" Py.strip sample_roster) "2026-01-01"
    = inr (Success result) /\
    banner_records result = 3%nat.
Proof.
  destruct (banner_diff_combined (apply_column "Student ID" Py.strip sample_banner)
              (apply_column "Student ID" Py.strip sample_roster) "2026-01-01")
    as (result & Hresult & Hbanner & _).
  - vm_compute. reflexivity.
  - exists result. split; [exact Hresult|]. rewrite Hbanner. vm_compute. reflexivity.
Defined.

(** ** Banner integration: what a new record holds *)

Lemma find_all_false {A} (f : A -> bool) l :
  (forall x, In x l -> f x = false) -> List.find f l = None.
Proof.
  induction l as [|x l IH]; intros H; [reflexivity|]. cbn [List.find].
  rewrite (H x (or_introl eq_refl)). apply IH. intros y Hy. apply H. now right.
Qed.

Lemma find_same {A} (f g : A -> bool) l :
  (forall x, f x = g x) -> List.find f l = List.find g l.
Proof.
  intros H. induction l as [|x l IH]; [reflexivity|]. cbn [List.find].
  now rewrite H, IH.
Qed.

Lemma mapping_fold_lookup (mapping : list (string * string))
    (enabled : string * string -> bool) (value : string * string -> string)
    (rec : gmap string string) (k : string) :
  NoDup (map snd mapping) ->
  fold_left (fun (rec : gmap string string) (m : string * string) =>
               if enabled m then <[snd m := value m]> rec else rec) mapping rec !! k
  = match List.find (fun m => String.eqb (snd m) k && enabled m) mapping with
    | Some m => Some (value m)
    | None => rec !! k
    end.
Proof.
  revert rec. induction mapping as [|m mapping IH]; intros rec Hnodup; [reflexivity|].
  cbn [map] in Hnodup. apply NoDup_cons in Hnodup as [Hfresh Hnodup].
  cbn [fold_left List.find]. rewrite IH by exact Hnodup.
  destruct (String.eqb_spec (snd m) k) as [Hk|Hk]; cbn [andb].
  - assert (Hnone : List.find (fun m' => String.eqb (snd m') k && enabled m') mapping
                    = None).
    { apply find_all_false. intros m' Hm'.
      destruct (String.eqb_spec (snd m') k) as [Hk'|_]; [|reflexivity].
      exfalso. apply Hfresh. rewrite Hk, <- Hk'. apply list_elem_of_In.
      now apply in_map. }
    rewrite Hnone. destruct (enabled m); [|reflexivity].
    rewrite Hk. apply lookup_insert_eq.
  - destruct (List.find _ mapping); [reflexivity|].
    destruct (enabled m); [|reflexivity]. now apply lookup_insert_ne.
Qed.

Lemma defaults_fold_lookup (defaults : list (string * string))
    (rec : gmap string string) (k : string) :
  NoDup (map fst defaults) ->
  fold_left (fun (rec : gmap string string) (d : string * string) =>
               <[fst d := snd d]> rec) defaults rec !! k
  = match Py.dict_get k defaults with
    | Some v => Some v
    | None => rec !! k
    end.
Proof.
  revert rec. induction defaults as [|[k' v'] defaults IH]; intros rec Hnodup;
    [reflexivity|].
  cbn [map fst] in Hnodup. apply NoDup_cons in Hnodup as [Hfresh Hnodup].
  cbn [fold_left Py.dict_get fst snd]. rewrite IH by exact Hnodup.
  destruct (String.eqb_spec k k') as [->|Hk].
  - destruct (Py.dict_get k' defaults) as [v|] eqn:Hget.
    + exfalso. apply Hfresh, list_elem_of_In.
      apply dict_get_pair in Hget. apply in_map_iff. now exists (k', v).
    + apply lookup_insert_eq.
  - destruct (Py.dict_get k defaults); [reflexivity|].
    apply lookup_insert_ne. intros E. apply Hk. symmetry. exact E.
Qed.

Lemma blank_record_lookup (cols : list string) (k : string) :
  (list_to_map (map (fun col => (col, "")) cols) : gmap string string) !! k
  = if Py.mem k cols then Some "" else None.
Proof.
  induction cols as [|c cols IH]; [reflexivity|].
  cbn [map list_to_map foldr]. unfold Py.mem. cbn [existsb].
  destruct (String.eqb_spec k c) as [->|Hk]; cbn [orb].
  - apply lookup_insert_eq.
  - rewrite lookup_insert_ne by (intros E; apply Hk; symmetry; exact E). exact IH.
Qed.

Lemma frame_of_records_cell (cols : list string) (rec : gmap string string) (k : string) :
  cell k (list_to_map (map (fun col => (col, cell col rec)) cols))
  = if Py.mem k cols then cell k rec else "".
Proof.
  unfold cell at 1. induction cols as [|c cols IH]; [reflexivity|].
  cbn [map list_to_map foldr]. unfold Py.mem. cbn [existsb].
  destruct (String.eqb_spec k c) as [->|Hk]; cbn [orb].
  - now rewrite lookup_insert_eq.
  - rewrite lookup_insert_ne by (intros E; apply Hk; symmetry; exact E). exact IH.
Qed.

Lemma new_alumni_record_lookup (banner_columns alumni_columns : list string)
    (current_date : string) (row : gmap string string) (k : string) :
  Py.mem k alumni_columns = true ->
  cell k (new_alumni_record banner_columns alumni_columns current_date row)
  = match Py.dict_get k (new_graduate_defaults current_date) with
    | Some v => v
    | None =>
        match List.find (fun m => String.eqb (snd m) k
                                  && Py.mem (fst m) banner_columns) field_mapping with
        | Some m => cell (fst m) row
        | None => ""
        end
    end.
Proof.
  intros Hk. unfold new_alumni_record, cell at 1.
  rewrite defaults_fold_lookup
    by (apply (bool_decide_unpack _); vm_compute; exact I).
  destruct (Py.dict_get k (new_graduate_defaults current_date)); [reflexivity|].
  rewrite (mapping_fold_lookup field_mapping
             (fun m => Py.mem (fst m) banner_columns && Py.mem (snd m) alumni_columns)
             (fun m => cell (fst m) row))
    by (apply (bool_decide_unpack _); vm_compute; exact I).
  rewrite blank_record_lookup, Hk.
  assert (Hfind :
    List.find (fun m => String.eqb (snd m) k
                        && (Py.mem (fst m) banner_columns && Py.mem (snd m) alumni_columns))
      field_mapping
    = List.find (fun m => String.eqb (snd m) k && Py.mem (fst m) banner_columns)
        field_mapping).
  { apply find_same. intros m.
    destruct (String.eqb_spec (snd m) k) as [->|_]; [|reflexivity].
    rewrite Hk. now rewrite andb_true_r. }
  rewrite Hfind.
  match goal with
  | |- context [List.find ?f field_mapping] => destruct (List.find f field_mapping)
  end; reflexivity.
Qed.

(** X15: a new record holds, under each alumni column, the default of the
    ten fields set for a new graduate, else the Banner cell that the field
    mapping names when the Banner frame has that field, and the empty
    string elsewhere. *)
Theorem new_record_cells (banner_columns alumni_columns : list string)
    (current_date : string) (row : gmap string string) (k : string) :
  Py.mem k alumni_columns = true ->
  cell k (new_alumni_record banner_columns alumni_columns current_date row)
  = match Py.dict_get k (new_graduate_defaults current_date) with
    | Some v => v
    | None =>
        match List.find (fun m => String.eqb (snd m) k
                                  && Py.mem (fst m) banner_columns) field_mapping with
        | Some m => cell (fst m) row
        | None => ""
        end
    end.
Proof. apply new_alumni_record_lookup. Qed.

Lemma new_record_cells_witness :
  cell "Current Status"
    (new_alumni_record banner_columns roster_columns "2026-01-01"
       (banner_row "2001" "Hana" "College of Business" "2014-2015 FALL" "Finance"
          "Female"))
  = "New graduate".
Proof.
  rewrite (new_record_cells banner_columns roster_columns "2026-01-01" _
             "Current Status"); reflexivity.
Defined.

(** ** Banner integration: running it again *)

Lemma new_record_Student_ID (banner_columns alumni_columns : list string)
    (current_date : string) (row : gmap string string) :
  Py.mem "Student ID" banner_columns = true ->
  Py.mem "Student ID" alumni_columns = true ->
  cell "Student ID"
    (list_to_map
       (map (fun col =>
               (col, cell col (new_alumni_record banner_columns alumni_columns
                                 current_date row))) alumni_columns))
  = cell "Student ID" row.
Proof.
  intros Hb Ha. rewrite frame_of_records_cell, Ha.
  rewrite new_alumni_record_lookup by exact Ha.
  change (Py.dict_get "Student ID" (new_graduate_defaults current_date)) with (@None string).
  cbn [List.find field_mapping fst snd]. 
  change (String.eqb "Year/Semester of Graduation" "Student ID") with false.
  change (String.eqb "Student ID" "Student ID") with true.
  cbn [andb]. rewrite Hb. reflexivity.
Qed.

Lemma mem_app x l1 l2 : Py.mem x (l1 ++ l2) = Py.mem x l1 || Py.mem x l2.
Proof. unfold Py.mem. apply existsb_app. Qed.

(** X16: when both frames have the identifier column and the Banner frame
    the names, the frame that the diff combines holds every Banner
    identifier: the same Banner frame diffed against it has no new graduate
    left. *)
Theorem banner_rediff_nothing_new (banner_df alumni_df : DataFrame)
    (current_date later_date : string) :
  has_column "Student ID" banner_df = true ->
  has_column "Student ID" alumni_df = true ->
  has_column "Student Name" banner_df = true ->
  exists result,
    banner_diff banner_df alumni_df current_date = inr (Success result) /\
    forall combined,
      combined_df result = Some combined ->
      banner_diff banner_df combined later_date
      = inr (Success
               {| new_records := 0;
                  banner_records := length (rows banner_df);
                  alumni_records := (alumni_records result + new_records result)%nat;
                  new_students := [];
                  combined_df := None |}).
Proof.
  intros Hb Ha Hname. rewrite banner_diff_spec, Hname.
  destruct (is_nil (new_banner_rows banner_df alumni_df));
    [eexists; split; [reflexivity|]; intros combined; discriminate|].
  cbv zeta. eexists. split; [reflexivity|].
  cbn [combined_df new_records alumni_records]. intros combined [= <-].
  rewrite banner_diff_spec.
  assert (Hnone : new_banner_rows banner_df
                    {| columns := columns alumni_df;
                       rows := rows alumni_df
                               ++ rows (frame_of_records (columns alumni_df)
                                          (map (new_alumni_record (columns banner_df)
                                                  (columns alumni_df) current_date)
                                             (new_banner_rows banner_df alumni_df))) |}
                  = []).
  { unfold new_banner_rows at 1. apply filter_none. intros r Hr.
    apply negb_false_iff. unfold Student_IDs at 1. cbn [rows frame_of_records].
    rewrite map_app. fold (Student_IDs alumni_df). rewrite mem_app.
    destruct (Py.mem (cell "Student ID" r) (Student_IDs alumni_df)) eqn:Hold;
      [reflexivity|]. cbn [orb].
    apply mem_true_In. rewrite !map_map. apply in_map_iff. exists r. split.
    - now apply new_record_Student_ID.
    - unfold new_banner_rows. apply filter_In. split; [exact Hr|]. now rewrite Hold. }
  cbn [rows frame_of_records] in Hnone |- *. rewrite Hnone. cbn [is_nil].
  unfold nothing_new. cbn [rows].
  now rewrite length_app, !length_map.
Qed.

Lemma banner_rediff_nothing_new_witness :
  exists result,
    banner_diff (apply_column "Student ID" Py.strip sample_banner)
      (apply_column "Student ID" Py.strip sample_roster) "2026-01-01"
    = inr (Success result) /\
    forall combined,
      combined_df result = Some combined ->
      exists again,
        banner_diff (apply_column "Student ID" Py.strip sample_banner) combined
          "2026-02-01" = inr (Success again) /\
        new_records again = 0%nat.
Proof.
  destruct (banner_rediff_nothing_new
              (apply_column "Student ID" Py.strip sample_banner)
              (apply_column "Student ID" Py.strip sample_roster)
              "2026-01-01" "2026-02-01")
    as (result & Hresult & Hagain).
  - vm_compute. reflexivity.
  - vm_compute. reflexivity.
  - vm_compute. reflexivity.
  - exists result. split; [exact Hresult|]. intros combined Hcombined.
    eexists. split; [exact (Hagain combined Hcombined)|reflexivity].
Defined.

Lemma strip_column_idem name df :
  apply_column name Py.strip (apply_column name Py.strip df)
  = apply_column name Py.strip df.
Proof.
  unfold apply_column. cbn [columns rows]. f_equal.
  rewrite map_map. apply map_ext. intros r.
  rewrite cell_insert_eq, strip_idem. apply insert_insert_eq.
Qed.

Lemma data_set_data df s : data (set_data df s) = df.
Proof. reflexivity. Qed.

Lemma set_data_set_data df df' s : set_data df (set_data df' s) = set_data df s.
Proof. reflexivity. Qed.

Lemma has_column_apply_column name name' f df :
  has_column name (apply_column name' f df) = has_column name df.
Proof. reflexivity. Qed.

Lemma insert_twice {A} (m : gmap string A) (i j : string) (x y : A) :
  <[i:=x]> (<[j:=y]> (<[i:=x]> (<[j:=y]> m))) = <[i:=x]> (<[j:=y]> m).
Proof.
  apply map_eq. intros k.
  destruct (decide (k = i)) as [->|Hi]; [now rewrite !lookup_insert_eq|].
  destruct (decide (k = j)) as [->|Hj].
  - rewrite !(lookup_insert_ne _ i j) by (intros E; symmetry in E; contradiction).
    rewrite !lookup_insert_eq. reflexivity.
  - now rewrite !lookup_insert_ne by (intros E; symmetry in E; contradiction).
Qed.

(** X17: the Banner integration strips the identifiers of the two cached
    frames once and for all and keeps nothing else: the same request served
    again on the same day gives the same answer, new graduates included,
    and leaves the store as the first call left it. *)
Theorem banner_integration_repeat (session_data : gmap string session)
    (banner_session_id alumni_session_id current_date : string) :
  let first := process_banner_integration session_data banner_session_id
                 alumni_session_id current_date in
  process_banner_integration first.2 banner_session_id alumni_session_id current_date
  = first.
Proof.
  cbv zeta. unfold process_banner_integration at 2 3.
  destruct (session_data !! banner_session_id) as [b|] eqn:Hb; cbn [fst snd];
    [|unfold process_banner_integration; now rewrite Hb].
  destruct (session_data !! alumni_session_id) as [a|] eqn:Ha; cbn [fst snd];
    [|unfold process_banner_integration; now rewrite Hb, Ha].
  destruct (has_column "Student ID" (data b)) eqn:Hcb; cbn [negb fst snd];
    [|unfold process_banner_integration; now rewrite Hb, Ha, Hcb].
  destruct (has_column "Student ID" (data a)) eqn:Hca; cbn [negb fst snd];
    [|unfold process_banner_integration; now rewrite Hb, Ha, Hcb, Hca].
  unfold process_banner_integration. rewrite lookup_insert_eq.
  destruct (decide (alumni_session_id = banner_session_id)) as [Heq|Hne].
  - rewrite Heq in *. rewrite lookup_insert_eq. assert (a = b) as -> by congruence.
    rewrite !data_set_data, !has_column_apply_column, Hcb. cbn [negb].
    rewrite strip_column_idem, !set_data_set_data. f_equal. apply insert_twice.
  - rewrite lookup_insert_ne by exact Hne. rewrite lookup_insert_eq.
    rewrite !data_set_data, !has_column_apply_column, Hcb, Hca. cbn [negb].
    rewrite !strip_column_idem, !set_data_set_data. f_equal. apply insert_twice.
Qed.

(** ** The previews and the reports *)

(** The nationality step shared by the alumni list and the previews. *)
Lemma nationality_step (df : DataFrame) (n : option string)
    (l : list (gmap string string)) :
  (if truthy n && negb (String.eqb (option_lower n) "all")
   then
     if String.eqb (option_lower n) "saudi"
     then u <~ require_column "Nationality" df ;; ret (List.filter is_saudi l)
     else if String.eqb (option_lower n) "non-saudi"
     then u <~ require_column "Nationality" df ;;
          ret (List.filter (fun r => negb (is_saudi r)) l)
     else ret l
   else ret l)
  = if reads_Nationality n && negb (has_column "Nationality" df)
    then inl (KeyError "Nationality")
    else inr (List.filter (nationality_selects n) l).
Proof.
  unfold require_column, nationality_selects.
  destruct (nationality_cases n)
    as [(Hs & Hn & Ha & Hr)|[(Hs & Hn & Ha & Hs' & Hr)|(Hs & Hn & Ha & Hr)]];
    rewrite Hr, Hs; try rewrite Hn; cbn [andb].
  - destruct (andb_prop _ _ Hs) as [_ Hs2]. rewrite Ha, Hs2.
    now destruct (has_column "Nationality" df).
  - destruct (andb_prop _ _ Hn) as [_ Hn2]. rewrite Ha, Hs', Hn2.
    now destruct (has_column "Nationality" df).
  - assert (Hall : List.filter (fun _ : gmap string string => true) l = l)
      by now apply filter_all.
    rewrite Hall.
    destruct (truthy n && negb (String.eqb (option_lower n) "all")) eqn:Hguard;
      [|reflexivity].
    apply andb_prop in Hguard as [Ht _].
    destruct Ha as [Ha|[Ha1 Ha2]]; [congruence|]. now rewrite Ha1, Ha2.
Qed.

Lemma preview_chain colleges years d g n (l : list (gmap string string)) :
  List.filter (degree_mask d)
    (List.filter (nationality_selects n)
       (List.filter (gender_selects g)
          (List.filter (fun r => Py.mem (col_College r) colleges
                                 && Py.mem (col_Year r) years) l)))
  = List.filter (preview_keeps colleges years d g n) l.
Proof.
  rewrite !filter_filter_and. apply List.filter_ext. intros r. unfold preview_keeps.
  destruct (Py.mem (col_College r) colleges && Py.mem (col_Year r) years);
    cbn [andb]; [|reflexivity].
  destruct (degree_mask d r), (gender_selects g r), (nationality_selects n r);
    reflexivity.
Qed.

(** The QAA preview in closed form. *)
Lemma qaa_preview_spec session_data session_id colleges years d g n mode_option :
  qaa_preview session_data session_id colleges years d g n mode_option
  = match session_data !! session_id with
    | None => inr (Error session_not_found)
    | Some s =>
        if reads_Nationality n && negb (has_column "Nationality" (data s))
        then inl (KeyError "Nationality")
        else
          let kept := List.filter (preview_keeps colleges years d g n) (rows (data s)) in
          inr (Success
                 {| QaaPreview.total_records := length kept;
                    QaaPreview.college_counts := value_counts (map col_College kept);
                    QaaPreview.gender_counts :=
                      if String.eqb mode_option "simple"
                      then Some (value_counts (map (cell "Gender") kept))
                      else None;
                    QaaPreview.mode :=
                      if String.eqb mode_option "simple" then "simple" else "detailed" |})
    end.
Proof.
  unfold qaa_preview. destruct (session_data !! session_id) as [s|]; [|reflexivity].
  cbv zeta. rewrite nationality_step.
  destruct (reads_Nationality n && negb (has_column "Nationality" (data s)));
    [reflexivity|].
  cbn [bind]. rewrite degree_filter, gender_filter, preview_chain.
  now destruct (String.eqb mode_option "simple").
Qed.

(** The preview of the alumni list in closed form. *)
Lemma alumni_list_preview_spec session_data session_id colleges years d g n
    status_options :
  alumni_list_preview session_data session_id colleges years d g n status_options
  = match session_data !! session_id with
    | None => inr (Error session_not_found)
    | Some s =>
        if reads_Nationality n && negb (has_column "Nationality" (data s))
        then inl (KeyError "Nationality")
        else
          let kept :=
            List.filter (fun r => preview_keeps colleges years d g n r
                                  && Py.mem (col_CurrentStatus r) status_options)
              (rows (data s)) in
          inr (Success
                 {| AlumniPreview.total_alumni := length kept;
                    AlumniPreview.college_counts := value_counts (map col_College kept);
                    AlumniPreview.gender_counts :=
                      value_counts (map (cell "Gender") kept) |})
    end.
Proof.
  unfold alumni_list_preview.
  destruct (session_data !! session_id) as [s|]; [|reflexivity].
  cbv zeta. rewrite nationality_step.
  destruct (reads_Nationality n && negb (has_column "Nationality" (data s)));
    [reflexivity|].
  cbn [bind]. rewrite degree_filter, gender_filter.
  assert (Hkept :
    List.filter (fun r => Py.mem (col_CurrentStatus r) status_options)
      (List.filter (nationality_selects n)
         (List.filter (gender_selects g)
            (List.filter (degree_mask d)
               (List.filter (fun r => Py.mem (col_College r) colleges
                                      && Py.mem (col_Year r) years) (rows (data s))))))
    = List.filter (fun r => preview_keeps colleges years d g n r
                            && Py.mem (col_CurrentStatus r) status_options)
        (rows (data s))).
  { rewrite !filter_filter_and. apply List.filter_ext. intros r. unfold preview_keeps.
    now rewrite !andb_assoc. }
  now rewrite Hkept.
Qed.

Lemma mem_clean_options status_options (status : string) :
  Py.mem (clean_status (PyStr status)) status_options = true ->
  Py.mem (clean_status (PyStr status))
    (map (fun o => clean_status (PyStr o)) status_options) = true.
Proof.
  intros Hin%mem_true_In. apply mem_true_In. apply in_map_iff.
  exists (clean_status (PyStr status)). split; [apply clean_status_idem_str|exact Hin].
Qed.

(** X18: on the cached frame of an alumni file whose statuses are ASCII
    text, for status options of ASCII text, the preview of the alumni list
    never counts more records than the list writes, since it matches the
    status options as they were sent and a status of the roster is always in
    canonical form; it counts exactly the records of the list when every
    option is in canonical form. *)
Theorem alumni_preview_within_list (session_data : gmap string session)
    (session_id : string) (s : session) (colleges years status_options : list string)
    (degree_option gender_option : string) (nationality_option : option string) :
  session_data !! session_id = Some s ->
  is_alumni_roster (data s) = true ->
  ascii_statuses (data s) = true ->
  forallb Py.isascii status_options = true ->
  has_column "Nationality" (data s) = true
    \/ reads_Nationality nationality_option = false ->
  let kept := alumni_kept (data s) colleges years status_options gender_option
                nationality_option degree_option in
  exists preview,
    alumni_list_preview session_data session_id colleges years degree_option
      gender_option nationality_option status_options = inr (Success preview) /\
    (AlumniPreview.total_alumni preview <= length kept)%nat /\
    ((forall o, In o status_options -> clean_status (PyStr o) = o) ->
     AlumniPreview.total_alumni preview = length kept).
Proof.
  intros Hs _ _ _ Hcol kept. rewrite alumni_list_preview_spec, Hs.
  assert (Hread : reads_Nationality nationality_option
                  && negb (has_column "Nationality" (data s)) = false).
  { destruct Hcol as [-> | ->]; [apply andb_false_r|reflexivity]. }
  rewrite Hread. cbv zeta. eexists. split; [reflexivity|].
  cbn [AlumniPreview.total_alumni]. unfold kept, alumni_kept. rewrite length_map.
  split.
  - apply filter_length_le. intros r _ Hr. unfold alumni_keeps.
    apply andb_prop in Hr as [Hkeeps Hstatus]. unfold preview_keeps in Hkeeps.
    rewrite Hkeeps. cbn [andb]. now apply mem_clean_options.
  - intros Hclean. f_equal. apply List.filter_ext. intros r.
    unfold alumni_keeps, preview_keeps, col_CurrentStatus. do 2 f_equal.
    symmetry. rewrite <- (map_id status_options) at 2. now apply map_ext_in.
Qed.

Lemma alumni_preview_within_list_witness :
  exists preview,
    alumni_list_preview sample_sessions "full" sample_colleges sample_years
      "all" "all" None [ "Employed"; "studying" ] = inr (Success preview) /\
    (AlumniPreview.total_alumni preview
     <= length (alumni_kept sample_roster sample_colleges sample_years
                  [ "Employed"; "studying" ] "all" None "all"))%nat.
Proof.
  destruct (alumni_preview_within_list sample_sessions "full"
              {| data := sample_roster; file_name := "alumni.xlsx" |}
              sample_colleges sample_years [ "Employed"; "studying" ] "all" "all" None)
    as (preview & Hpreview & Hle & _).
  - vm_compute. reflexivity.
  - vm_compute. reflexivity.
  - vm_compute. reflexivity.
  - vm_compute. reflexivity.
  - left. vm_compute. reflexivity.
  - exists preview. split; [exact Hpreview|exact Hle].
Defined.

Lemma qaa_filter_kept df colleges years d g n mode :
  reads_Nationality n && negb (has_column "Nationality" df) = false
    \/ String.eqb mode "simple" = true ->
  exists filtered_df_all,
    qaa_filter df colleges years d g n mode
    = inr (filtered_df_all, qaa_kept df colleges years d g n mode) /\
    (String.eqb mode "simple" = true ->
     filtered_df_all = qaa_kept df colleges years d g n mode).
Proof.
  intros Hcol.
  assert (Hkept :
    List.filter (qaa_keeps colleges years d g n mode)
      (rows (apply_column "Current Status" (fun s => clean_status (PyStr s)) df))
    = qaa_kept df colleges years d g n mode).
  { rewrite apply_column_rows, filter_map_comm. unfold qaa_kept. f_equal.
    apply List.filter_ext. intros r. apply qaa_keeps_status. }
  destruct (String.eqb mode "simple") eqn:Hmode.
  - eexists. split; [|reflexivity]. unfold qaa_filter. rewrite Hmode.
    unfold ret. do 2 f_equal; rewrite <- Hkept, filter_filter_and;
      apply List.filter_ext; intros r; unfold qaa_keeps; rewrite Hmode;
      cbn [orb]; now rewrite andb_true_r.
  - destruct (qaa_filter_keeps df colleges years d g n mode) as (all & Hall).
    + destruct Hcol as [Hcol|Hcol]; [|discriminate].
      apply andb_false_iff in Hcol as [Hcol|Hcol]; [now right; left|].
      left. now apply negb_false_iff.
    + exists all. rewrite <- Hkept. split; [exact Hall|discriminate].
Qed.

Lemma qaa_keeps_detailed colleges years d g n mode r :
  String.eqb mode "simple" = false ->
  qaa_keeps colleges years d g n mode r = preview_keeps colleges years d g n r.
Proof.
  intros Hmode. unfold qaa_keeps, preview_keeps. rewrite Hmode. cbn [orb].
  now rewrite !andb_assoc.
Qed.

(** X19: on the cached frame of an alumni file, in detailed mode the QAA
    preview counts exactly the records that the report aggregates, so the
    report answers that no data matches exactly when the preview shows no
    record. *)
Theorem qaa_preview_counts_the_report (session_data : gmap string session)
    (session_id : string) (s : session) (colleges years : list string)
    (degree_option gender_option : string) (nationality_option : option string)
    (mode_option : string) (combine_all combine_years : bool) :
  session_data !! session_id = Some s ->
  is_alumni_roster (data s) = true ->
  has_column "Nationality" (data s) = true
    \/ reads_Nationality nationality_option = false ->
  String.eqb mode_option "simple" = false ->
  exists preview,
    qaa_preview session_data session_id colleges years degree_option gender_option
      nationality_option mode_option = inr (Success preview) /\
    QaaPreview.total_records preview
    = length (qaa_kept (data s) colleges years degree_option gender_option
                nationality_option mode_option) /\
    (QaaPreview.total_records preview = 0%nat <->
     process_qaa_report session_data session_id colleges years degree_option
       combine_all combine_years gender_option nationality_option mode_option
     = Error no_matching_data).
Proof.
  intros Hs _ Hcol Hmode. rewrite qaa_preview_spec, Hs.
  assert (Hread : reads_Nationality nationality_option
                  && negb (has_column "Nationality" (data s)) = false).
  { destruct Hcol as [-> | ->]; [apply andb_false_r|reflexivity]. }
  rewrite Hread. cbv zeta. eexists. split; [reflexivity|].
  cbn [QaaPreview.total_records].
  assert (Hlen :
    length (List.filter (preview_keeps colleges years degree_option gender_option
                           nationality_option) (rows (data s)))
    = length (qaa_kept (data s) colleges years degree_option gender_option
                nationality_option mode_option)).
  { unfold qaa_kept. rewrite length_map. f_equal. apply List.filter_ext.
    intros r. symmetry. now apply qaa_keeps_detailed. }
  split; [exact Hlen|]. rewrite Hlen.
  unfold process_qaa_report. rewrite Hs.
  destruct (qaa_filter_kept (data s) colleges years degree_option gender_option
              nationality_option mode_option (or_introl Hread))
    as (all & Hfilter & _).
  rewrite Hfilter. cbn [bind]. rewrite Hmode.
  destruct (qaa_kept (data s) colleges years degree_option gender_option
              nationality_option mode_option); cbn [is_nil try_except ret length].
  - split; reflexivity.
  - split; discriminate.
Qed.

Lemma qaa_preview_counts_the_report_witness :
  exists preview,
    qaa_preview sample_sessions "full" sample_colleges sample_years "all" "all"
      None "detailed" = inr (Success preview) /\
    QaaPreview.total_records preview
    = length (qaa_kept sample_roster sample_colleges sample_years "all" "all"
                None "detailed").
Proof.
  destruct (qaa_preview_counts_the_report sample_sessions "full"
              {| data := sample_roster; file_name := "alumni.xlsx" |}
              sample_colleges sample_years "all" "all" None "detailed" true false)
    as (preview & Hpreview & Htotal & _).
  - vm_compute. reflexivity.
  - vm_compute. reflexivity.
  - left. vm_compute. reflexivity.
  - reflexivity.
  - exists preview. split; [exact Hpreview|exact Htotal].
Defined.

(** X20: on the cached frame of an alumni file whose statuses are ASCII
    text, in simple mode the report counts every record of the colleges and
    years and never reads the nationality; its preview still applies the
    degree, gender and nationality options, so it shows at most the records
    of the report, or fails on the nationality column that the report does
    not need. *)
Theorem qaa_simple_preview_filters_more (session_data : gmap string session)
    (session_id : string) (s : session) (colleges years : list string)
    (degree_option gender_option : string) (nationality_option : option string)
    (mode_option : string) (combine_all combine_years : bool) :
  session_data !! session_id = Some s ->
  is_alumni_roster (data s) = true ->
  ascii_statuses (data s) = true ->
  String.eqb mode_option "simple" = true ->
  let counted :=
    map cleaned_row
      (List.filter (fun r => Py.mem (col_College r) colleges
                             && Py.mem (col_Year r) years) (rows (data s))) in
  process_qaa_report session_data session_id colleges years degree_option
    combine_all combine_years gender_option nationality_option mode_option
  = (if is_nil counted then Error no_matching_data
     else Success (Simple_mode counted)) /\
  match qaa_preview session_data session_id colleges years degree_option
          gender_option nationality_option mode_option with
  | inr (Success preview) =>
      (QaaPreview.total_records preview <= length counted)%nat /\
      QaaPreview.gender_counts preview <> None
  | inr (Error _) => False
  | inl e =>
      e = KeyError "Nationality" /\ has_column "Nationality" (data s) = false /\
      reads_Nationality nationality_option = true
  end.
Proof.
  intros Hs _ _ Hmode counted.
  assert (Hcounted : qaa_kept (data s) colleges years degree_option gender_option
                       nationality_option mode_option = counted).
  { unfold qaa_kept, counted. f_equal. apply List.filter_ext. intros r.
    unfold qaa_keeps. rewrite Hmode. cbn [orb]. apply andb_true_r. }
  split.
  - unfold process_qaa_report. rewrite Hs.
    destruct (qaa_filter_kept (data s) colleges years degree_option gender_option
                nationality_option mode_option (or_intror Hmode))
      as (all & Hfilter & Hall).
    rewrite Hfilter, (Hall Hmode), Hcounted. cbn [bind]. rewrite Hmode.
    now destruct counted.
  - rewrite qaa_preview_spec, Hs.
    destruct (reads_Nationality nationality_option
              && negb (has_column "Nationality" (data s))) eqn:Hread.
    + apply andb_prop in Hread as [Hread Hcol]. apply negb_true_iff in Hcol.
      repeat split; assumption.
    + cbv zeta. cbn [QaaPreview.total_records QaaPreview.gender_counts].
      rewrite Hmode. split; [|discriminate].
      unfold counted. rewrite length_map. apply filter_length_le.
      intros r _ Hr. unfold preview_keeps in Hr.
      do 3 (apply andb_prop in Hr as [Hr _]). exact Hr.
Qed.

Lemma qaa_simple_preview_filters_more_witness :
  process_qaa_report sample_sessions "bare" sample_colleges sample_years "all"
    false false "all" (Some "saudi") "simple"
  = Success
      (Simple_mode
         (map cleaned_row
            (List.filter (fun r => Py.mem (col_College r) sample_colleges
                                   && Py.mem (col_Year r) sample_years)
               (rows sample_roster_without_Nationality)))).
Proof.
  destruct (qaa_simple_preview_filters_more sample_sessions "bare"
              {| data := sample_roster_without_Nationality;
                 file_name := "alumni_bare.xlsx" |}
              sample_colleges sample_years "all" "all" (Some "saudi") "simple"
              false false) as (Hreport & _).
  - vm_compute. reflexivity.
  - vm_compute. reflexivity.
  - vm_compute. reflexivity.
  - reflexivity.
  - rewrite Hreport.
    destruct (is_nil _) eqn:Hnil; [|reflexivity].
    exfalso. vm_compute in Hnil. discriminate.
Defined.

(** X21: the previews have no handler: when the roster has no nationality
    column and the option is [saudi] or [non-saudi], in any case of the
    letters, the [KeyError] leaves both routes. *)
Theorem previews_fail_without_Nationality (session_data : gmap string session)
    (session_id : string) (s : session) (colleges years status_options : list string)
    (degree_option gender_option : string) (nationality_option : option string)
    (mode_option : string) :
  session_data !! session_id = Some s ->
  has_column "Nationality" (data s) = false ->
  reads_Nationality nationality_option = true ->
  qaa_preview session_data session_id colleges years degree_option gender_option
    nationality_option mode_option = inl (KeyError "Nationality") /\
  alumni_list_preview session_data session_id colleges years degree_option
    gender_option nationality_option status_options = inl (KeyError "Nationality").
Proof.
  intros Hs Hcol Hread.
  rewrite qaa_preview_spec, alumni_list_preview_spec, Hs, Hcol, Hread.
  split; reflexivity.
Qed.

Lemma previews_fail_without_Nationality_witness :
  qaa_preview sample_sessions "bare" sample_colleges sample_years "all" "all"
    (Some "Non-Saudi") "detailed" = inl (KeyError "Nationality").
Proof.
  destruct (previews_fail_without_Nationality sample_sessions "bare"
              {| data := sample_roster_without_Nationality;
                 file_name := "alumni_bare.xlsx" |}
              sample_colleges sample_years [] "all" "all" (Some "Non-Saudi")
              "detailed") as (Hqaa & _).
  - vm_compute. reflexivity.
  - reflexivity.
  - reflexivity.
  - exact Hqaa.
Defined.

(** ** The counts of the previews *)

Lemma total_count_insert (counts : gmap string nat) (v : string) :
  total_count (<[v := S (default 0%nat (counts !! v))]> counts)
  = S (total_count counts).
Proof.
  unfold total_count.
  assert (Hcomm : forall z1 z2 y : nat, (z1 + (z2 + y) = z2 + (z1 + y))%nat)
    by (intros; lia).
  destruct (counts !! v) as [n|] eqn:Hv; cbn [default].
  - rewrite <- insert_delete_eq.
    rewrite map_fold_insert_L; [|intros; apply Hcomm|apply lookup_delete_eq].
    rewrite (map_fold_delete_L _ _ v n counts); [|intros; apply Hcomm|exact Hv].
    reflexivity.
  - rewrite map_fold_insert_L; [reflexivity|intros; apply Hcomm|exact Hv].
Qed.

Lemma total_count_value_counts (values : list string) :
  total_count (value_counts values) = length values.
Proof.
  induction values as [|v values IH]; [reflexivity|].
  cbn [value_counts fold_right length]. fold (value_counts values).
  now rewrite total_count_insert, IH.
Qed.

Lemma value_counts_lookup (values : list string) (v : string) (n : nat) :
  value_counts values !! v = Some n -> In v values /\ (0 < n)%nat.
Proof.
  revert n. induction values as [|v' values IH]; intros n; [discriminate|].
  cbn [value_counts fold_right]. fold (value_counts values).
  destruct (decide (v' = v)) as [->|Hne].
  - rewrite lookup_insert_eq. intros [= <-]. split; [now left|lia].
  - rewrite lookup_insert_ne by exact Hne. intros Hn.
    destruct (IH n Hn) as [Hin Hpos]. split; [now right|exact Hpos].
Qed.

(** X22: on the cached frame of an alumni file, in the preview of the alumni
    list the counts by college and the counts by gender both add up to the
    total shown, and a college is listed only if it was requested and has a
    record, with a positive count. *)
Theorem preview_counts_add_up (session_data : gmap string session)
    (session_id : string) (s : session) (colleges years status_options : list string)
    (degree_option gender_option : string) (nationality_option : option string) :
  session_data !! session_id = Some s ->
  is_alumni_roster (data s) = true ->
  has_column "Nationality" (data s) = true
    \/ reads_Nationality nationality_option = false ->
  exists preview,
    alumni_list_preview session_data session_id colleges years degree_option
      gender_option nationality_option status_options = inr (Success preview) /\
    total_count (AlumniPreview.college_counts preview)
    = AlumniPreview.total_alumni preview /\
    total_count (AlumniPreview.gender_counts preview)
    = AlumniPreview.total_alumni preview /\
    forall college n,
      AlumniPreview.college_counts preview !! college = Some n ->
      In college colleges /\ (0 < n <= AlumniPreview.total_alumni preview)%nat.
Proof.
  intros Hs _ Hcol. rewrite alumni_list_preview_spec, Hs.
  assert (Hread : reads_Nationality nationality_option
                  && negb (has_column "Nationality" (data s)) = false).
  { destruct Hcol as [-> | ->]; [apply andb_false_r|reflexivity]. }
  rewrite Hread. cbv zeta. eexists. split; [reflexivity|].
  cbn [AlumniPreview.total_alumni AlumniPreview.college_counts
       AlumniPreview.gender_counts].
  rewrite !total_count_value_counts, !length_map.
  split; [reflexivity|]. split; [reflexivity|].
  intros college n Hn.
  set (kept := List.filter _ (rows (data s))) in *.
  destruct (value_counts_lookup _ _ _ Hn) as [Hin Hpos]. split.
  - apply in_map_iff in Hin as (r & <- & Hr). apply filter_In in Hr as [_ Hr].
    unfold preview_keeps in Hr. do 5 (apply andb_prop in Hr as [Hr _]).
    now apply mem_In.
  - split; [exact Hpos|].
    rewrite <- (length_map col_College kept), <- total_count_value_counts.
    unfold total_count.
    rewrite (map_fold_delete_L _ _ college n (value_counts (map col_College kept)));
      [lia|intros; lia|exact Hn].
Qed.

Lemma preview_counts_add_up_witness :
  exists preview,
    alumni_list_preview sample_sessions "full" sample_colleges sample_years
      "all" "all" None [ "Employed"; "Studying" ] = inr (Success preview) /\
    total_count (AlumniPreview.college_counts preview)
    = AlumniPreview.total_alumni preview.
Proof.
  destruct (preview_counts_add_up sample_sessions "full"
              {| data := sample_roster; file_name := "alumni.xlsx" |}
              sample_colleges sample_years [ "Employed"; "Studying" ] "all" "all" None)
    as (preview & Hpreview & Hcolleges & _).
  - vm_compute. reflexivity.
  - vm_compute. reflexivity.
  - left. vm_compute. reflexivity.
  - exists preview. split; [exact Hpreview|exact Hcolleges].
Defined.

(** ** The simple mode: counting by key *)

Lemma unique_In x l : In x (unique l) <-> In x l.
Proof.
  induction l as [|y l IH]; [reflexivity|]. cbn [unique]. split.
  - intros [->|Hin]; [now left|]. apply filter_In in Hin as [Hin _].
    right. now apply IH.
  - intros [->|Hin]; [now left|].
    destruct (String.eqb_spec x y) as [->|Hne]; [now left|].
    right. apply filter_In. split; [now apply IH|].
    apply negb_true_iff. now apply String.eqb_neq.
Qed.

Lemma NoDup_filter_list {A} (f : A -> bool) l :
  List.NoDup l -> List.NoDup (List.filter f l).
Proof.
  induction 1 as [|x l Hx Hl IH]; [constructor|]. cbn [List.filter].
  destruct (f x); [|exact IH]. constructor; [|exact IH].
  intros Hin. apply Hx. now apply filter_In in Hin.
Qed.

Lemma unique_NoDup l : List.NoDup (unique l).
Proof.
  induction l as [|x l IH]; [constructor|]. cbn [unique]. constructor.
  - intros Hin. apply filter_In in Hin as [_ Hne].
    now rewrite String.eqb_refl in Hne.
  - now apply NoDup_filter_list.
Qed.

Lemma list_sum_cons x l : list_sum (x :: l) = (x + list_sum l)%nat.
Proof. reflexivity. Qed.

Lemma list_sum_map_add {A} (f g : A -> nat) l :
  list_sum (map (fun x => (f x + g x)%nat) l)
  = (list_sum (map f l) + list_sum (map g l))%nat.
Proof.
  induction l as [|x l IH]; [reflexivity|]. cbn [map].
  rewrite !list_sum_cons, IH. lia.
Qed.

Lemma list_sum_map_zero {A} (f : A -> nat) l :
  (forall x, In x l -> f x = 0%nat) -> list_sum (map f l) = 0%nat.
Proof.
  induction l as [|x l IH]; intros H; [reflexivity|]. cbn [map].
  rewrite list_sum_cons, (H x (or_introl eq_refl)), IH; [reflexivity|].
  intros y Hy. apply H. now right.
Qed.

Lemma key_indicator (keys : list string) (k : string) :
  List.NoDup keys ->
  list_sum (map (fun key => if String.eqb k key then 1%nat else 0%nat) keys)
  = if Py.mem k keys then 1%nat else 0%nat.
Proof.
  induction 1 as [|key keys Hkey Hkeys IH]; [reflexivity|].
  cbn [map]. rewrite list_sum_cons. unfold Py.mem. cbn [existsb].
  destruct (String.eqb_spec k key) as [->|Hne]; cbn [orb].
  - rewrite list_sum_map_zero; [reflexivity|]. intros key' Hin.
    destruct (String.eqb_spec key key') as [->|_]; [contradiction|reflexivity].
  - exact IH.
Qed.

(** Counting the rows of each key and adding up counts the rows whose key
    is listed. *)
Lemma sum_counts_by_key {A} (key : A -> string) (p : A -> bool) (keys : list string)
    (l : list A) :
  List.NoDup keys ->
  list_sum (map (fun k => length (List.filter p
                                    (List.filter (fun r => String.eqb (key r) k) l)))
              keys)
  = length (List.filter p (List.filter (fun r => Py.mem (key r) keys) l)).
Proof.
  intros Hkeys. induction l as [|r l IH].
  - cbn [List.filter length]. now apply list_sum_map_zero.
  - cbn [List.filter].
    rewrite (map_ext _
               (fun k => ((if String.eqb (key r) k then if p r then 1 else 0 else 0)
                          + length (List.filter p
                                      (List.filter (fun r => String.eqb (key r) k) l)))%nat)).
    2:{ intros k. destruct (String.eqb (key r) k); cbn [List.filter];
          [destruct (p r)|]; reflexivity. }
    rewrite list_sum_map_add, IH.
    destruct (p r) eqn:Hp.
    + rewrite (key_indicator keys (key r) Hkeys).
      destruct (Py.mem (key r) keys); cbn [List.filter]; [rewrite Hp|]; reflexivity.
    + rewrite list_sum_map_zero by (intros k _; now destruct (String.eqb (key r) k)).
      destruct (Py.mem (key r) keys); cbn [List.filter]; [rewrite Hp|]; reflexivity.
Qed.

Lemma filter_all_in {A} (f : A -> bool) l :
  (forall x, In x l -> f x = true) -> List.filter f l = l.
Proof.
  induction l as [|x l IH]; intros H; [reflexivity|]. cbn [List.filter].
  rewrite (H x (or_introl eq_refl)), IH; [reflexivity|].
  intros y Hy. apply H. now right.
Qed.

Lemma sum_counts_by_unique {A} (key : A -> string) (p : A -> bool) (l : list A) :
  list_sum (map (fun k => length (List.filter p
                                    (List.filter (fun r => String.eqb (key r) k) l)))
              (unique (map key l)))
  = length (List.filter p l).
Proof.
  rewrite sum_counts_by_key by apply unique_NoDup. do 2 f_equal.
  apply filter_all_in. intros r Hr. apply mem_true_In, unique_In. now apply in_map.
Qed.

(** ** The simple mode: the sheets *)

Lemma year_sheets_loop (filtered_df : list (gmap string string)) :
  year_sheets filtered_df
  = flat_map (fun academic_year =>
      if String.eqb academic_year "Unknown" then []
      else if is_nil (List.filter (fun r => String.eqb (Academic_Year r) academic_year)
                        filtered_df)
      then []
      else [ sheet_of_year filtered_df academic_year ])
      (sorted_unique (map Academic_Year filtered_df)).
Proof.
  unfold year_sheets. apply flat_map_ext. intros y.
  destruct (String.eqb y "Unknown"); [reflexivity|].
  unfold sheet_of_year.
  destruct (List.filter _ filtered_df) as [|r l]; reflexivity.
Qed.

Lemma college_totals_sums (p : gmap string string -> bool)
    (df : list (gmap string string)) :
  list_sum (map (fun college =>
                   length (List.filter p
                             (List.filter
                                (fun r => String.eqb (College_Normalized r) college) df)))
              (unique (map College_Normalized df)))
  = length (List.filter p df).
Proof. apply sum_counts_by_unique. Qed.

Lemma college_totals_sum (df : list (gmap string string)) :
  list_sum (map (fun college =>
                   length (List.filter
                             (fun r => String.eqb (College_Normalized r) college) df))
              (unique (map College_Normalized df)))
  = length df.
Proof.
  transitivity (length (List.filter (fun _ : gmap string string => true) df)).
  - rewrite <- (college_totals_sums (fun _ => true) df). f_equal.
    apply map_ext. intros college. f_equal. symmetry. now apply filter_all.
  - f_equal. now apply filter_all.
Qed.

Lemma TOTAL_sheet_of_year (filtered_df : list (gmap string string))
    (academic_year : string) :
  let year_df :=
    List.filter (fun r => String.eqb (Academic_Year r) academic_year) filtered_df in
  TOTAL (sheet_of_year filtered_df academic_year)
  = (length year_df, length (List.filter is_MALE year_df),
     length (List.filter is_FEMALE year_df)).
Proof.
  cbv zeta. unfold sheet_of_year. cbn [TOTAL]. rewrite !map_map.
  cbn [college_totals_of Total_Graduates Gentlemen Ladies].
  set (year_df := List.filter _ filtered_df).
  f_equal; [f_equal|].
  - apply college_totals_sum.
  - apply (college_totals_sums is_MALE).
  - apply (college_totals_sums is_FEMALE).
Qed.

Lemma disjoint_filters {A} (p q : A -> bool) l :
  (forall x, p x = true -> q x = false) ->
  (length (List.filter p l) + length (List.filter q l) <= length l)%nat.
Proof.
  intros H. induction l as [|x l IH]; [reflexivity|]. cbn [List.filter].
  destruct (p x) eqn:Hp; [rewrite (H x Hp)|destruct (q x)]; cbn [length]; lia.
Qed.

Lemma MALE_not_FEMALE r : is_MALE r = true -> is_FEMALE r = false.
Proof.
  unfold is_MALE, is_FEMALE. intros H%String.eqb_eq. now rewrite H.
Qed.

Lemma list_sum_flat_map {A B} (f : B -> nat) (g : A -> list B) l :
  list_sum (map f (flat_map g l))
  = list_sum (map (fun x => list_sum (map f (g x))) l).
Proof.
  induction l as [|x l IH]; [reflexivity|]. cbn [flat_map map].
  rewrite map_app, list_sum_app, list_sum_cons, IH. reflexivity.
Qed.

(** The totals of the sheets count the records with a year. *)
Lemma year_sheets_total (filtered_df : list (gmap string string)) :
  list_sum (map (fun sh => (TOTAL sh).1.1) (year_sheets filtered_df))
  = length (List.filter known_year filtered_df).
Proof.
  rewrite year_sheets_loop, list_sum_flat_map.
  rewrite (map_ext _
             (fun y => length (List.filter known_year
                                 (List.filter
                                    (fun r => String.eqb (Academic_Year r) y)
                                    filtered_df)))).
  - rewrite sum_counts_by_key
      by (apply NoDup_ListNoDup, sorted_unique_NoDup).
    do 2 f_equal. apply filter_all_in. intros r Hr.
    apply mem_true_In, sorted_unique_In. now apply in_map.
  - intros y. destruct (String.eqb_spec y "Unknown") as [->|Hy].
    + cbn [map list_sum]. symmetry. rewrite filter_none; [reflexivity|].
      intros r Hr. apply filter_In in Hr as [_ Hr]. unfold known_year.
      now rewrite Hr.
    + destruct (List.filter (fun r => String.eqb (Academic_Year r) y) filtered_df)
        as [|r l] eqn:Hyear; cbn [is_nil]; [reflexivity|].
      cbn [map]. rewrite list_sum_cons, TOTAL_sheet_of_year, Hyear.
      cbn [fst list_sum]. rewrite Nat.add_0_r. f_equal. symmetry.
      apply filter_all_in. intros r' Hr'. rewrite <- Hyear in Hr'.
      apply filter_In in Hr' as [_ Hr']. apply String.eqb_eq in Hr'.
      unfold known_year. rewrite Hr'. apply negb_true_iff.
      now apply String.eqb_neq.
Qed.

(** X23: a sheet of the simple report stands for one academic year that
    some record has; its row [TOTAL] counts the records of that year, the
    men and the women among them, whatever the case of the gender; the
    totals of the sheets add up to the number of records whose term shows a
    year. *)
Theorem year_sheets_totals (filtered_df : list (gmap string string)) :
  (forall sh,
     In sh (year_sheets filtered_df) ->
     exists academic_year,
       academic_year <> "Unknown" /\
       year_sheet_name sh = take_chars 31 (Py.replace "-" "_" academic_year) /\
       let year_df :=
         List.filter (fun r => String.eqb (Academic_Year r) academic_year)
           filtered_df in
       year_df <> [] /\
       TOTAL sh = (length year_df, length (List.filter is_MALE year_df),
                   length (List.filter is_FEMALE year_df)) /\
       (length (List.filter is_MALE year_df) + length (List.filter is_FEMALE year_df)
        <= length year_df)%nat) /\
  list_sum (map (fun sh => (TOTAL sh).1.1) (year_sheets filtered_df))
  = length (List.filter known_year filtered_df).
Proof.
  split; [rewrite year_sheets_loop|apply year_sheets_total].
  intros sh (y & _ & Hsh)%in_flat_map. exists y.
  destruct (String.eqb_spec y "Unknown") as [|Hy]; [destruct Hsh|].
  destruct (List.filter (fun r => String.eqb (Academic_Year r) y) filtered_df)
    as [|r l] eqn:Hyear; cbn [is_nil] in Hsh; [destruct Hsh|].
  destruct Hsh as [<-|[]]. split; [exact Hy|]. split; [reflexivity|].
  cbv zeta. rewrite TOTAL_sheet_of_year, Hyear.
  split; [discriminate|]. split; [reflexivity|].
  apply disjoint_filters, MALE_not_FEMALE.
Qed.

(** ** The simple mode: the summary of all years *)

Lemma for_each_ret {A B} (f : A -> M B) (g : A -> B) l :
  (forall x, f x = inr (g x)) -> for_each f l = inr (map g l).
Proof.
  intros H. induction l as [|x l IH]; [reflexivity|].
  cbn [for_each map]. now rewrite H, IH.
Qed.

Lemma for_each_raise {A B} (f : A -> M B) (e : exn) l :
  (forall x, f x = inl e) -> l <> [] -> for_each f l = inl e.
Proof.
  intros H Hl. destruct l as [|x l]; [congruence|]. cbn [for_each]. now rewrite H.
Qed.

Lemma unique_nil l : unique l = [] -> l = [].
Proof. destruct l; [reflexivity|discriminate]. Qed.

Lemma filter_complement {A} (p : A -> bool) l :
  (length (List.filter p l) <= length l)%nat.
Proof. apply List.filter_length_le. Qed.

(** X24: when the roster has the nationality column and some record is
    counted, the summary of all years is written; its rows stand for the
    colleges of the records, in each row the Saudi and the non-Saudi add up
    to the graduates and the men and the women to at most the graduates,
    and its row of totals counts every record once. *)
Theorem all_years_summary_totals (filtered_df : DataFrame) :
  has_column "Nationality" filtered_df = true ->
  rows filtered_df <> [] ->
  exists tab,
    create_all_years_summary_tab filtered_df = Some tab /\
    map (fun t => College (by_college t)) (all_years_rows tab)
    = unique (map College_Normalized (rows filtered_df)) /\
    (forall t,
       In t (all_years_rows tab) ->
       (Saudi t + Non_Saudi t = Total_Graduates (by_college t))%nat /\
       (Gentlemen (by_college t) + Ladies (by_college t)
        <= Total_Graduates (by_college t))%nat) /\
    Total_Graduates (Total_of_Graduates tab) = length (rows filtered_df) /\
    Gentlemen (Total_of_Graduates tab) = length (List.filter is_MALE (rows filtered_df)) /\
    Ladies (Total_of_Graduates tab) = length (List.filter is_FEMALE (rows filtered_df)) /\
    Total_Saudi tab = length (List.filter is_saudi (rows filtered_df)) /\
    (Total_Saudi tab + Total_Non_Saudi tab = length (rows filtered_df))%nat.
Proof.
  intros Hcol Hrows. unfold create_all_years_summary_tab.
  set (df := rows filtered_df) in *.
  set (row_of := fun college =>
         {| by_college := college_totals_of college df;
            Saudi := length (List.filter is_saudi
                               (List.filter
                                  (fun r => String.eqb (College_Normalized r) college) df));
            Non_Saudi :=
              Total_Graduates (college_totals_of college df)
              - length (List.filter is_saudi
                          (List.filter
                             (fun r => String.eqb (College_Normalized r) college) df)) |}).
  rewrite (for_each_ret _ row_of)
    by (intros college; unfold require_column; rewrite Hcol; reflexivity).
  destruct (map row_of (unique (map College_Normalized df))) as [|t0 ts] eqn:Hmap.
  { exfalso. apply Hrows. apply map_eq_nil in Hmap. apply unique_nil in Hmap.
    now apply map_eq_nil in Hmap. }
  cbn [is_nil]. rewrite <- Hmap. clear t0 ts Hmap.
  eexists. split; [reflexivity|].
  cbn [all_years_rows Total_of_Graduates Total_Saudi Total_Non_Saudi
       Total_Graduates Gentlemen Ladies].
  rewrite !map_map.
  assert (Hrow : forall college,
             (Saudi (row_of college) + Non_Saudi (row_of college)
              = Total_Graduates (by_college (row_of college)))%nat).
  { intros college. unfold row_of. cbn [Saudi Non_Saudi by_college].
    cbn [college_totals_of Total_Graduates].
    pose proof (filter_complement is_saudi
                  (List.filter (fun r => String.eqb (College_Normalized r) college) df)).
    lia. }
  assert (Htotal : list_sum (map (fun college =>
                               Total_Graduates (by_college (row_of college)))
                          (unique (map College_Normalized df)))
                   = length df) by apply college_totals_sum.
  assert (Hsaudi : list_sum (map (fun college => Saudi (row_of college))
                               (unique (map College_Normalized df)))
                   = length (List.filter is_saudi df))
    by apply (college_totals_sums is_saudi).
  split; [exact (List.map_id _)|]. split.
  { intros t (college & <- & _)%in_map_iff. split; [apply Hrow|].
    unfold row_of. cbn [by_college college_totals_of Total_Graduates Gentlemen Ladies].
    apply disjoint_filters, MALE_not_FEMALE. }
  split; [exact Htotal|].
  split; [apply (college_totals_sums is_MALE)|].
  split; [apply (college_totals_sums is_FEMALE)|].
  split; [exact Hsaudi|].
  rewrite <- Htotal, <- list_sum_map_add. f_equal. apply map_ext. apply Hrow.
Qed.

Lemma all_years_summary_totals_witness :
  exists tab,
    create_all_years_summary_tab sample_roster = Some tab /\
    Total_Graduates (Total_of_Graduates tab) = length (rows sample_roster).
Proof.
  destruct (all_years_summary_totals sample_roster)
    as (tab & Htab & _ & _ & Htotal & _).
  - vm_compute. reflexivity.
  - intros H. apply (f_equal (@length _)) in H. vm_compute in H. discriminate.
  - exists tab. split; [exact Htab|exact Htotal].
Defined.

(** X25: when the roster has no nationality column the simple report is
    still written, with its sheets by year, but the summary of all years is
    dropped without a word in the answer. *)
Theorem simple_report_without_Nationality (filtered_df : DataFrame) :
  has_column "Nationality" filtered_df = false ->
  process_simple_mode_report filtered_df
  = Success {| sheets_by_year := year_sheets (rows filtered_df);
               All_years_summary := None |}.
Proof.
  intros Hcol. unfold process_simple_mode_report, create_all_years_summary_tab.
  cbn [try_except ret].
  destruct (unique (map College_Normalized (rows filtered_df))) as [|c cs] eqn:Hu;
    [reflexivity|].
  rewrite (for_each_raise _ (KeyError "Nationality"));
    [reflexivity| |discriminate].
  intros college. unfold require_column. now rewrite Hcol.
Qed.

Lemma simple_report_without_Nationality_witness :
  process_simple_mode_report sample_roster_without_Nationality
  = Success {| sheets_by_year := year_sheets (rows sample_roster_without_Nationality);
               All_years_summary := None |}.
Proof. apply simple_report_without_Nationality. reflexivity. Defined.

(** ** The simple mode: the academic year of a term *)

Lemma digits_app (n : nat) (a s : string) :
  all_chars Py.is_digit a = true -> String.length a = n ->
  digits n (a +:+ s) = Some (a, s).
Proof.
  revert a. induction n as [|n IH]; intros [|c a] Ha Hlen; try discriminate.
  - reflexivity.
  - cbn [all_chars] in Ha. apply andb_prop in Ha as [Hc Ha].
    cbn [String.length] in Hlen. injection Hlen as Hlen.
    change (String c a +:+ s) with (String c (a +:+ s)).
    cbn [digits]. now rewrite Hc, (IH a Ha Hlen).
Qed.

Lemma digits_head (n : nat) (s a rest : string) :
  digits (S n) s = Some (a, rest) ->
  exists c a', a = String c a' /\ Py.is_digit c = true.
Proof.
  destruct s as [|c s]; [discriminate|]. cbn [digits].
  destruct (Py.is_digit c) eqn:Hc; [|discriminate].
  destruct (digits n s) as [[d r]|]; [|discriminate].
  intros [= <- <-]. eauto.
Qed.

Lemma year_dash_four (n : nat) (s a b : string) :
  year_dash n s = Some (a, b) ->
  four_digits s = Some a /\ exists c a', a = String c a' /\ Py.is_digit c = true.
Proof.
  unfold year_dash, four_digits.
  destruct (digits 4 s) as [[a0 rest]|] eqn:Hd; [|discriminate].
  destruct rest as [|c rest]; [discriminate|].
  destruct (Ascii.eqb_spec c "-") as [->|Hc].
  - destruct (digits n rest) as [[b0 r]|]; [|discriminate].
    intros [= <- <-]. split; [reflexivity|]. eapply digits_head, Hd.
  - intros H. exfalso. revert H.
    destruct c as [[] [] [] [] [] [] [] []]; try discriminate.
    now contradiction Hc.
Qed.

Lemma re_search_some {A B} (f : string -> option A) (g : string -> option B) s m :
  (forall s m, f s = Some m -> g s <> None) ->
  re_search f s = Some m -> re_search g s <> None.
Proof.
  intros H. induction s as [|c s IH]; cbn [re_search].
  - destruct (f "") eqn:Hf; [|discriminate]. intros _.
    destruct (g "") eqn:Hg; [discriminate|]. now apply H in Hf.
  - destruct (f (String c s)) eqn:Hf.
    + intros _. destruct (g (String c s)) eqn:Hg; [discriminate|].
      now apply H in Hf.
    + intros Hs. destruct (g (String c s)); [discriminate|]. now apply IH.
Qed.

Lemma re_search_holds {A} (f : string -> option A) (P : A -> Prop) s m :
  (forall s m, f s = Some m -> P m) -> re_search f s = Some m -> P m.
Proof.
  intros H. induction s as [|c s IH]; cbn [re_search].
  - destruct (f "") eqn:Hf; [|discriminate]. intros [= <-]. eapply H, Hf.
  - destruct (f (String c s)) eqn:Hf; [intros [= <-]; eapply H, Hf|exact IH].
Qed.

Lemma re_search_four_digits s :
  re_search four_digits s = None <-> has_four_digits s = false.
Proof.
  induction s as [|c s IH]; [split; reflexivity|].
  cbn [re_search has_four_digits]. unfold four_digits at 1.
  destruct (digits 4 (String c s)) as [[a rest]|]; [split; discriminate|exact IH].
Qed.

Lemma str_int_head (n : Z) :
  exists c rest, str_int n = String c rest /\ c <> "U"%char.
Proof.
  assert (Huint : forall d, exists c rest,
             DecimalString.NilZero.string_of_uint d = String c rest /\ c <> "U"%char).
  { intros d. destruct d; cbn; eexists; eexists; (split; [reflexivity|discriminate]). }
  unfold str_int. destruct (Z.to_int n) as [d|d]; cbn [DecimalString.NilZero.string_of_int].
  - apply Huint.
  - eexists; eexists. split; [reflexivity|discriminate].
Qed.

Lemma digit_not_U c : Py.is_digit c = true -> c <> "U"%char.
Proof. intros H ->. discriminate. Qed.

(** The academic year of a term is [Unknown] exactly when the term has no
    run of four digits. *)
Lemma academic_year_unknown_iff (graduation_term : string) :
  extract_academic_year graduation_term = "Unknown"
  <-> has_four_digits graduation_term = false.
Proof.
  rewrite <- re_search_four_digits. unfold extract_academic_year.
  assert (Hdash : forall n s m, year_dash n s = Some m -> four_digits s <> None).
  { intros n s [a b] H. apply year_dash_four in H as [H _]. now rewrite H. }
  assert (Hhead : forall n m,
             re_search (year_dash n) graduation_term = Some m ->
             exists c a', m.1 = String c a' /\ c <> "U"%char).
  { intros n m.
    apply (re_search_holds (year_dash n)
             (fun m => exists c a', m.1 = String c a' /\ c <> "U"%char)).
    intros s [a b] H.
    apply year_dash_four in H as (_ & c & a' & -> & Hc).
    exists c, a'. split; [reflexivity|now apply digit_not_U]. }
  destruct (re_search (year_dash 4) graduation_term) as [[a b]|] eqn:H4.
  { destruct (Hhead 4%nat (a, b) H4) as (c & a' & Ha & Hc). cbn [fst] in Ha. subst a.
    split.
    - intros [= E _]. contradiction.
    - intros Hnone.
      destruct (re_search_some (year_dash 4) four_digits graduation_term _
                  (Hdash 4%nat) H4 Hnone). }
  destruct (re_search (year_dash 2) graduation_term) as [[a b]|] eqn:H2.
  { destruct (Hhead 2%nat (a, b) H2) as (c & a' & Ha & Hc). cbn [fst] in Ha. subst a.
    split.
    - intros [= E _]. contradiction.
    - intros Hnone.
      destruct (re_search_some (year_dash 2) four_digits graduation_term _
                  (Hdash 2%nat) H2 Hnone). }
  destruct (re_search four_digits graduation_term) as [a|]; [|split; reflexivity].
  split; [|discriminate]. cbv zeta.
  destruct (str_int_head (int a - 1)) as (c & rest & -> & Hc).
  intros [= E _]. contradiction.
Qed.

(** X26: when the terms of the records are ASCII text, the academic year
    of a record is [Unknown] exactly when its term has no run of four
    digits; a record whose term has such a run is on the sheet of its
    academic year, and the totals of the sheets add up to the number of
    these records: only the records without a year are left out of the
    sheets. *)
Theorem academic_year_unknown (filtered_df : list (gmap string string)) :
  forallb (fun r => Py.isascii (col_Year r)) filtered_df = true ->
  (forall r, In r filtered_df ->
             (Academic_Year r = "Unknown" <-> has_four_digits (col_Year r) = false)) /\
  (forall r, In r filtered_df -> has_four_digits (col_Year r) = true ->
             In (sheet_of_year filtered_df (Academic_Year r))
               (year_sheets filtered_df)) /\
  list_sum (map (fun sh => (TOTAL sh).1.1) (year_sheets filtered_df))
  = length (List.filter (fun r => has_four_digits (col_Year r)) filtered_df).
Proof.
  intros _.
  assert (Hknown : forall r, known_year r = has_four_digits (col_Year r)).
  { intros r. unfold known_year.
    destruct (has_four_digits (col_Year r)) eqn:Hfour.
    - apply negb_true_iff, String.eqb_neq. intros Hunknown.
      apply academic_year_unknown_iff in Hunknown. congruence.
    - apply negb_false_iff, String.eqb_eq. now apply academic_year_unknown_iff. }
  split; [|split].
  - intros r _. apply academic_year_unknown_iff.
  - intros r Hr Hfour. rewrite year_sheets_loop. apply in_flat_map.
    exists (Academic_Year r). split.
    + apply sorted_unique_In. now apply in_map.
    + rewrite <- Hknown in Hfour. unfold known_year in Hfour.
      apply negb_true_iff in Hfour. rewrite Hfour.
      destruct (List.filter (fun r' => String.eqb (Academic_Year r') (Academic_Year r))
                  filtered_df) as [|r0 l] eqn:Hyear; cbn [is_nil].
      * assert (Hin : In r (List.filter
                             (fun r' => String.eqb (Academic_Year r') (Academic_Year r))
                             filtered_df)).
        { apply filter_In. split; [exact Hr|apply String.eqb_refl]. }
        rewrite Hyear in Hin. destruct Hin.
      * now left.
  - rewrite year_sheets_total. f_equal. apply List.filter_ext. exact Hknown.
Qed.

Lemma academic_year_unknown_witness :
  length (rows sample_roster_missing_year) = 2%nat /\
  list_sum (map (fun sh => (TOTAL sh).1.1)
              (year_sheets (rows sample_roster_missing_year))) = 1%nat.
Proof.
  split; [reflexivity|].
  destruct (academic_year_unknown (rows sample_roster_missing_year))
    as (_ & _ & Htotal).
  - vm_compute. reflexivity.
  - rewrite Htotal. vm_compute. reflexivity.
Defined.

(** X27: a term that begins with two years of four digits joined by a dash
    has these two years as its academic year, whatever follows: the terms
    of one academic year share a sheet. *)
Theorem academic_year_of_term (a b rest : string) :
  all_chars Py.is_digit a = true -> String.length a = 4%nat ->
  all_chars Py.is_digit b = true -> String.length b = 4%nat ->
  extract_academic_year (a +:+ "-" +:+ b +:+ rest) = a +:+ "-" +:+ b.
Proof.
  intros Ha Hla Hb Hlb. unfold extract_academic_year.
  assert (Hhere : year_dash 4 (a +:+ "-" +:+ b +:+ rest) = Some (a, b)).
  { unfold year_dash. rewrite (digits_app 4%nat a _ Ha Hla).
    change ("-" +:+ b +:+ rest) with (String "-" (b +:+ rest)). cbv beta iota.
    now rewrite (digits_app 4%nat b _ Hb Hlb). }
  assert (Hsearch : re_search (year_dash 4) (a +:+ "-" +:+ b +:+ rest) = Some (a, b)).
  { destruct (a +:+ "-" +:+ b +:+ rest); cbn [re_search]; now rewrite Hhere. }
  now rewrite Hsearch.
Qed.

Lemma academic_year_of_term_witness :
  extract_academic_year "2013-2014 FALL" = "2013-2014".
Proof.
  apply (academic_year_of_term "2013" "2014" " FALL"); reflexivity.
Defined.

(** ** The breakdown by gender and nationality *)

Lemma employment_status_cases (status : string) :
  get_employment_status status = "Employed"
  \/ get_employment_status status = "Unemployed"
  \/ get_employment_status status = "Studying"
  \/ get_employment_status status = "Other".
Proof.
  unfold get_employment_status.
  destruct (Py.mem status employed_statuses); [now left|].
  destruct (String.eqb status "Unemployed"); [now right; left|].
  destruct (String.eqb status "Studying"); [now right; right; left|].
  now right; right; right.
Qed.

Lemma counted_status (r : gmap string string) :
  Py.mem (Employment_Status r) [ "Employed"; "Unemployed"; "Studying" ]
  = negb (String.eqb (Employment_Status r) "Other").
Proof.
  unfold Employment_Status.
  destruct (employment_status_cases (cell "Current Status" r))
    as [-> | [-> | [-> | ->]]]; reflexivity.
Qed.

Lemma three_classes (l : list (gmap string string)) :
  (forall r, In r l -> String.eqb (Employment_Status r) "Other" = false) ->
  (length (List.filter (fun r => String.eqb (Employment_Status r) "Employed") l)
   + length (List.filter (fun r => String.eqb (Employment_Status r) "Unemployed") l)
   + length (List.filter (fun r => String.eqb (Employment_Status r) "Studying") l)
   = length l)%nat.
Proof.
  induction l as [|r l IH]; intros H; [reflexivity|]. cbn [List.filter].
  assert (IH' := IH (fun r' Hr' => H r' (or_intror Hr'))).
  assert (Hr := H r (or_introl eq_refl)). unfold Employment_Status in *.
  destruct (employment_status_cases (cell "Current Status" r))
    as [E | [E | [E | E]]]; rewrite E in *; cbn [String.eqb Ascii.eqb Bool.eqb] in *;
    cbn [length]; try discriminate; lia.
Qed.

Lemma breakdown_emp_df (df : list (gmap string string)) (college : string) :
  List.filter (fun r => Py.mem (Employment_Status r)
                          [ "Employed"; "Unemployed"; "Studying" ])
    (List.filter (fun r => String.eqb (Py.strip (cell "College" r)) college) df)
  = List.filter (counted_in_breakdown college) df.
Proof.
  rewrite filter_filter_and. apply List.filter_ext. intros r.
  unfold counted_in_breakdown. now rewrite counted_status.
Qed.

(** The rows of one college in closed form. *)
Lemma breakdown_of_college_rows (df : list (gmap string string)) (college : string) :
  let emp_df := List.filter (counted_in_breakdown college) df in
  breakdown_of_college df college
  = flat_map (fun gender =>
      flat_map (fun category =>
        let group :=
          List.filter (fun r => String.eqb (cell "Gender" r) gender
                                && String.eqb (Nationality_Category r) category)
            emp_df in
        if is_nil group then []
        else
          let size status :=
            length (List.filter (fun r => String.eqb (Employment_Status r) status)
                      group) in
          let total := (size "Employed" + size "Unemployed" + size "Studying")%nat in
          let pct n := percentage (Int (Z.of_nat n)) (Int (Z.of_nat total)) in
          [ {| Breakdown.College := college;
               Breakdown.Gender := gender;
               Breakdown.Nationality_Category := category;
               Breakdown.Employed := size "Employed";
               Breakdown.Unemployed := size "Unemployed";
               Breakdown.Studying := size "Studying";
               Breakdown.Total := total;
               Breakdown.Employed_pct := pct (size "Employed");
               Breakdown.Unemployed_pct := pct (size "Unemployed");
               Breakdown.Studying_pct := pct (size "Studying") |} ])
        (sorted_unique (map Nationality_Category emp_df)))
      (sorted_unique (map (cell "Gender") emp_df)).
Proof.
  cbv zeta. unfold breakdown_of_college. rewrite breakdown_emp_df.
  destruct (List.filter (fun r => String.eqb (Py.strip (cell "College" r)) college) df)
    as [|r0 l0] eqn:Hcollege; cbn [is_nil].
  - assert (Hnone : List.filter (counted_in_breakdown college) df = []).
    { rewrite <- breakdown_emp_df, Hcollege. reflexivity. }
    rewrite Hnone. reflexivity.
  - destruct (List.filter (counted_in_breakdown college) df) as [|r1 l1];
      reflexivity.
Qed.

Lemma group_total (group : list (gmap string string)) (college : string)
    (df : list (gmap string string)) (p : gmap string string -> bool) :
  group = List.filter p (List.filter (counted_in_breakdown college) df) ->
  (length (List.filter (fun r => String.eqb (Employment_Status r) "Employed") group)
   + length (List.filter (fun r => String.eqb (Employment_Status r) "Unemployed") group)
   + length (List.filter (fun r => String.eqb (Employment_Status r) "Studying") group)
   = length group)%nat.
Proof.
  intros ->. apply three_classes. intros r Hr.
  apply filter_In in Hr as [Hr _]. apply filter_In in Hr as [_ Hr].
  unfold counted_in_breakdown in Hr. apply andb_prop in Hr as [_ Hr].
  now apply negb_true_iff.
Qed.

(** X28: the breakdown sheet is made of the rows of the listed colleges;
    a row stands for a gender and a nationality category that some counted
    record of the college has, so its total is positive and no percentage
    divides by zero; the total is the employed, the unemployed and the
    studying together, and the totals of a college add up to its records
    whose status falls in one of these three classes. *)
Theorem breakdown_totals (filtered_df : DataFrame) (colleges : list string) :
  has_column "Gender" filtered_df = true ->
  has_column "Nationality" filtered_df = true ->
  has_column "Current Status" filtered_df = true ->
  let sheet := flat_map (breakdown_of_college (rows filtered_df)) colleges in
  (create_gender_nationality_breakdown filtered_df colleges).1
  = (if is_nil sheet then None else Some sheet) /\
  (forall row,
     In row sheet ->
     In (Breakdown.College row) colleges /\
     (0 < Breakdown.Total row)%nat /\
     (Breakdown.Total row
      = Breakdown.Employed row + Breakdown.Unemployed row + Breakdown.Studying row)%nat) /\
  (forall college,
     list_sum (map Breakdown.Total (breakdown_of_college (rows filtered_df) college))
     = length (List.filter (counted_in_breakdown college) (rows filtered_df))).
Proof.
  intros Hg Hn Hs sheet. split; [|split].
  - unfold create_gender_nationality_breakdown. rewrite Hg, Hn, Hs. cbn [negb].
    assert (Hconcat : forall (ls : list (list Breakdown.row)),
               concat (List.filter (fun grouped => negb (is_nil grouped)) ls)
               = concat ls).
    { induction ls as [|[|x l] ls IH]; [reflexivity|exact IH|].
      cbn [List.filter is_nil negb concat]. now rewrite IH. }
    assert (Hnil : forall (ls : list (list Breakdown.row)),
               is_nil (List.filter (fun grouped => negb (is_nil grouped)) ls)
               = is_nil (concat ls)).
    { induction ls as [|[|x l] ls IH]; [reflexivity|exact IH|reflexivity]. }
    rewrite Hnil, Hconcat. unfold sheet. rewrite flat_map_concat_map.
    now destruct (is_nil _).
  - intros row (college & Hcollege & Hrow)%in_flat_map.
    rewrite breakdown_of_college_rows in Hrow. cbv zeta in Hrow.
    apply in_flat_map in Hrow as (gender & _ & Hrow).
    apply in_flat_map in Hrow as (category & _ & Hrow).
    destruct (List.filter _ (List.filter (counted_in_breakdown college)
                               (rows filtered_df))) as [|r group] eqn:Hgroup;
      cbn [is_nil] in Hrow; [destruct Hrow|].
    destruct Hrow as [<-|[]].
    cbn [Breakdown.College Breakdown.Total Breakdown.Employed Breakdown.Unemployed
         Breakdown.Studying].
    split; [exact Hcollege|]. split; [|reflexivity].
    rewrite (group_total _ college (rows filtered_df) _ (eq_sym Hgroup)).
    cbn [length]. lia.
  - intros college. rewrite breakdown_of_college_rows. cbv zeta.
    set (emp_df := List.filter (counted_in_breakdown college) (rows filtered_df)).
    rewrite list_sum_flat_map.
    rewrite (map_ext _
               (fun gender =>
                  length (List.filter
                            (fun _ => true)
                            (List.filter (fun r => String.eqb (cell "Gender" r) gender)
                               emp_df)))).
    { rewrite sum_counts_by_key by (apply NoDup_ListNoDup, sorted_unique_NoDup).
      rewrite (filter_all (fun _ => true)) by reflexivity.
      f_equal. apply filter_all_in. intros r Hr.
      apply mem_true_In, sorted_unique_In. now apply in_map. }
    intros gender. rewrite list_sum_flat_map.
    rewrite (map_ext _
               (fun category =>
                  length (List.filter
                            (fun r => String.eqb (cell "Gender" r) gender)
                            (List.filter
                               (fun r => String.eqb (Nationality_Category r) category)
                               emp_df)))).
    { rewrite sum_counts_by_key by (apply NoDup_ListNoDup, sorted_unique_NoDup).
      rewrite (filter_all (fun _ => true)) by reflexivity.
      rewrite (filter_all_in (fun r => Py.mem (Nationality_Category r) _) emp_df).
      - reflexivity.
      - intros r Hr. apply mem_true_In, sorted_unique_In. now apply in_map. }
    intros category.
    assert (Hgroup :
      List.filter (fun r => String.eqb (cell "Gender" r) gender
                            && String.eqb (Nationality_Category r) category) emp_df
      = List.filter (fun r => String.eqb (cell "Gender" r) gender)
          (List.filter (fun r => String.eqb (Nationality_Category r) category) emp_df)).
    { rewrite filter_filter_and. apply List.filter_ext. intros r. apply andb_comm. }
    rewrite <- Hgroup.
    destruct (List.filter _ emp_df) as [|r group] eqn:Hfilter; cbn [is_nil];
      [reflexivity|].
    cbn [map Breakdown.Total]. rewrite list_sum_cons. cbn [list_sum].
    rewrite (group_total _ college (rows filtered_df) _ (eq_sym Hfilter)).
    apply Nat.add_0_r.
Qed.

Lemma breakdown_totals_witness :
  list_sum (map Breakdown.Total
              (breakdown_of_college (rows sample_roster) "College of Business"))
  = length (List.filter (counted_in_breakdown "College of Business")
              (rows sample_roster)).
Proof.
  destruct (breakdown_totals sample_roster sample_colleges) as (_ & _ & Hsum).
  - vm_compute. reflexivity.
  - vm_compute. reflexivity.
  - vm_compute. reflexivity.
  - exact (Hsum "College of Business").
Defined.

(** ** Loading a roster *)

Lemma has_column_fold_strip (cols : list string) (df : DataFrame) (name : string) :
  has_column name (fold_left (fun df col => apply_column col Py.strip df) cols df)
  = has_column name df.
Proof.
  revert df. induction cols as [|c cols IH]; intros df; [reflexivity|].
  cbn [fold_left]. now rewrite IH.
Qed.

Lemma fold_strip_optional (cols : list string) (df : DataFrame) :
  fold_left (fun df col => if has_column col df then apply_column col Py.strip df else df)
    cols df
  = fold_left (fun df col => apply_column col Py.strip df)
      (List.filter (fun col => has_column col df) cols) df.
Proof.
  revert df. induction cols as [|c cols IH]; intros df; [reflexivity|].
  cbn [fold_left List.filter]. destruct (has_column c df) eqn:Hc.
  - cbn [fold_left]. rewrite IH. f_equal.
  - apply IH.
Qed.

Lemma rows_fold_strip (cols : list string) (df : DataFrame) :
  rows (fold_left (fun df col => apply_column col Py.strip df) cols df)
  = map (strip_cells cols) (rows df).
Proof.
  revert df. induction cols as [|c cols IH]; intros df.
  - cbn [fold_left]. symmetry. apply List.map_id.
  - cbn [fold_left]. rewrite IH. unfold apply_column at 1. cbn [rows].
    rewrite map_map. reflexivity.
Qed.

Lemma cell_insert (name name' v : string) (r : gmap string string) :
  cell name (<[name' := v]> r) = if String.eqb name name' then v else cell name r.
Proof.
  destruct (String.eqb_spec name name') as [->|Hne].
  - apply cell_insert_eq.
  - apply cell_insert_ne. exact Hne.
Qed.

Lemma strip_cells_cell (cols : list string) (r : gmap string string) (name : string) :
  cell name (strip_cells cols r)
  = if Py.mem name cols then Py.strip (cell name r) else cell name r.
Proof.
  revert r. induction cols as [|c cols IH]; intros r; [reflexivity|].
  unfold strip_cells. cbn [fold_left]. fold (strip_cells cols (<[c := Py.strip (cell c r)]> r)).
  rewrite IH, cell_insert. unfold Py.mem. cbn [existsb].
  destruct (String.eqb_spec name c) as [->|Hne]; cbn [orb]; [|reflexivity].
  fold (Py.mem c cols). destruct (Py.mem c cols); [apply strip_idem|reflexivity].
Qed.

Lemma strip_cells_lookup_None (cols : list string) (r : gmap string string)
    (name : string) :
  cell name r = "" -> cell name (strip_cells cols r) = "".
Proof.
  intros H. rewrite strip_cells_cell, H. now destruct (Py.mem name cols).
Qed.

Lemma has_column_assign (name name' : string) f (df : DataFrame) :
  has_column name (assign name' f df) = has_column name df || String.eqb name name'.
Proof.
  unfold has_column, assign. cbn [columns].
  destruct (Py.mem name' (columns df)) eqn:Hmem.
  - destruct (String.eqb_spec name name') as [->|_]; [|now rewrite orb_false_r].
    now rewrite Hmem.
  - rewrite mem_app. unfold Py.mem at 2. cbn [existsb]. now rewrite orb_false_r.
Qed.

Lemma length_rows_assign name f df : length (rows (assign name f df)) = length (rows df).
Proof. unfold assign. cbn [rows]. apply length_map. Qed.

Lemma alumni_roster_columns (df : DataFrame) :
  is_alumni_roster df = true ->
  has_column "Graduation Term" df && has_column "Student Name" df = false /\
  forall col, In col alumni_required_columns -> has_column col df = true.
Proof.
  unfold is_alumni_roster. intros [Hbanner Hreq]%andb_prop. split.
  - now apply negb_true_iff.
  - intros col Hcol. rewrite forallb_forall in Hreq. now apply Hreq.
Qed.

Lemma alumni_file_columns (df : DataFrame) :
  is_alumni_file df = true ->
  has_column "Graduation Term" df && has_column "Student Name" df = false /\
  (forall col, In col alumni_required_columns -> has_column col df = true) /\
  existsb (fun col => duplicated col df) (alumni_required_columns ++ optional_columns)
  = false.
Proof.
  unfold is_alumni_file. intros [Hroster Hdup]%andb_prop.
  destruct (alumni_roster_columns df Hroster) as [Hbanner Hreq].
  split; [exact Hbanner|]. split; [exact Hreq|]. now apply negb_true_iff.
Qed.

(** What a load of an alumni file stores. *)
Lemma load_alumni_file (session_data : gmap string session)
    (graduation_years : list string) (df : DataFrame) (O1 : option string)
    (file_name session_id : string) :
  is_alumni_file df = true ->
  exists stats years,
    load_excel_data session_data graduation_years df O1 file_name session_id
    = (Success stats,
       <[session_id := {| data := loaded_alumni_frame df; file_name := file_name |}]>
         session_data,
       years) /\
    record_count stats = length (rows df) /\
    is_banner stats = false.
Proof.
  intros Hfile. destruct (alumni_file_columns df Hfile) as (Hbanner & Hreq & Hdup).
  unfold load_excel_data. cbv zeta. rewrite Hbanner.
  assert (Hmissing :
    List.filter (fun col => negb (has_column col df)) alumni_required_columns = []).
  { apply filter_none. intros col Hcol. now rewrite (Hreq col Hcol). }
  rewrite Hmissing. cbn [is_nil negb andb]. rewrite Hdup.
  destruct (extract_graduation_years df O1) as [years_from_file year_warnings].
  assert (Hstatus :
    has_column "Current Status"
      (assign "_CurrentStatus"
         (fun r => Py.capitalize (Py.lower (Py.strip (cell "Current Status" r))))
         (assign "_Year" (fun r => Py.strip (cell "Year/Semester of Graduation" r))
            (assign "_College" (fun r => Py.strip (cell "College" r))
               (fold_left
                  (fun df col =>
                     if has_column col df then apply_column col Py.strip df else df)
                  optional_columns
                  (fold_left (fun df col => apply_column col Py.strip df)
                     alumni_required_columns df)))))
    = true).
  { rewrite !has_column_assign, fold_strip_optional, !has_column_fold_strip.
    rewrite (Hreq "Current Status"); [reflexivity|]. cbn. tauto. }
  rewrite Hstatus. eexists. eexists. split; [reflexivity|].
  cbn [record_count is_banner]. split; [|reflexivity].
  rewrite !length_rows_assign, fold_strip_optional, !rows_fold_strip, !length_map.
  reflexivity.
Qed.

Lemma strip_cells_stripped (cols : list string) (r : gmap string string)
    (name : string) :
  Py.strip (cell name r) = cell name r ->
  Py.strip (cell name (strip_cells cols r)) = cell name (strip_cells cols r).
Proof.
  intros H. rewrite strip_cells_cell. destruct (Py.mem name cols); [|exact H].
  apply strip_idem.
Qed.

Lemma strip_cells_strips (cols : list string) (r : gmap string string)
    (name : string) :
  Py.mem name cols = true ->
  Py.strip (cell name (strip_cells cols r)) = cell name (strip_cells cols r).
Proof. intros H. rewrite strip_cells_cell, H. apply strip_idem. Qed.

(** The rows of the stored frame. *)
Lemma loaded_alumni_rows (df : DataFrame) (r' : gmap string string) :
  In r' (rows (loaded_alumni_frame df)) ->
  exists r r1,
    In r (rows df) /\
    r1 = strip_cells (List.filter (fun col => has_column col df) optional_columns)
           (strip_cells alumni_required_columns r) /\
    r' = <["_CurrentStatus" := clean_status (PyStr (cell "Current Status" r1))]>
           (<["_CurrentStatus" :=
                Py.capitalize (Py.lower (Py.strip (cell "Current Status" r1)))]>
              (<["_Year" := Py.strip (cell "Year/Semester of Graduation" r1)]>
                 (<["_College" := Py.strip (cell "College" r1)]> r1))).
Proof.
  unfold loaded_alumni_frame. cbv zeta. unfold assign at 1 2 3 4. cbn [rows].
  rewrite fold_strip_optional, rows_fold_strip.
  assert (Hopt :
    List.filter
      (fun col => has_column col
                    (fold_left (fun df col => apply_column col Py.strip df)
                       alumni_required_columns df)) optional_columns
    = List.filter (fun col => has_column col df) optional_columns).
  { apply List.filter_ext. intros col. apply has_column_fold_strip. }
  rewrite Hopt, rows_fold_strip, !map_map.
  intros (r & <- & Hr)%in_map_iff. exists r. eexists. split; [exact Hr|].
  split; [reflexivity|].
  rewrite !cell_insert_ne by discriminate. reflexivity.
Qed.

(** X29: a load of an alumni file in which no required or optional column
    comes twice succeeds and stores the frame under the session; in every
    stored row the cells of the required columns are stripped and the
    derived columns [_College], [_Year] and [_CurrentStatus] hold what the
    reports compute from the row, also after a report has cleaned the
    status when the status is ASCII text. *)
Theorem loaded_roster_columns (session_data : gmap string session)
    (graduation_years : list string) (df : DataFrame) (O1 : option string)
    (file_name session_id : string) :
  is_alumni_file df = true ->
  exists stats years s,
    load_excel_data session_data graduation_years df O1 file_name session_id
    = (Success stats, <[session_id := s]> session_data, years) /\
    record_count stats = length (rows df) /\
    length (rows (data s)) = length (rows df) /\
    forall r,
      In r (rows (data s)) ->
      (forall col, In col alumni_required_columns ->
                   Py.strip (cell col r) = cell col r) /\
      cell "_College" r = col_College r /\
      cell "_Year" r = col_Year r /\
      cell "_CurrentStatus" r = col_CurrentStatus r /\
      (Py.isascii (cell "Current Status" r) = true ->
       cell "_CurrentStatus" (cleaned_row r) = col_CurrentStatus (cleaned_row r)).
Proof.
  intros Hfile.
  destruct (load_alumni_file session_data graduation_years df O1 file_name session_id
              Hfile) as (stats & years & Hload & Hcount & _).
  exists stats, years. eexists. split; [exact Hload|]. split; [exact Hcount|].
  cbn [data]. split.
  { unfold loaded_alumni_frame. cbv zeta.
    rewrite !length_rows_assign, fold_strip_optional, !rows_fold_strip, !length_map.
    reflexivity. }
  intros r' (r & r1 & Hr & Hr1 & ->)%loaded_alumni_rows.
  set (r2 := <["_College" := Py.strip (cell "College" r1)]> r1).
  set (r3 := <["_Year" := Py.strip (cell "Year/Semester of Graduation" r1)]> r2).
  set (r4 := <["_CurrentStatus" :=
                 Py.capitalize (Py.lower (Py.strip (cell "Current Status" r1)))]> r3).
  assert (Hkeep : forall name v,
             name <> "_College" -> name <> "_Year" -> name <> "_CurrentStatus" ->
             cell name (<["_CurrentStatus" := v]> r4) = cell name r1).
  { intros name v H1 H2 H3. unfold r4, r3, r2.
    rewrite (cell_insert_ne name "_CurrentStatus") by exact H3.
    rewrite (cell_insert_ne name "_CurrentStatus") by exact H3.
    rewrite (cell_insert_ne name "_Year") by exact H2.
    now rewrite (cell_insert_ne name "_College") by exact H1. }
  split; [|split; [|split; [|split]]].
  - intros col Hcol. assert (Hmem := proj2 (mem_true_In _ _) Hcol).
    assert (Hne : forall name,
               Py.mem name alumni_required_columns = false -> col <> name).
    { intros name Hname ->. congruence. }
    rewrite Hkeep by (apply Hne; reflexivity).
    rewrite Hr1. apply strip_cells_stripped, strip_cells_strips, Hmem.
  - unfold col_College. rewrite (Hkeep "College") by discriminate. unfold r4, r3.
    rewrite !(cell_insert_ne "_College") by discriminate.
    unfold r2. now rewrite cell_insert_eq.
  - unfold col_Year. rewrite (Hkeep "Year/Semester of Graduation") by discriminate.
    unfold r4.
    rewrite !(cell_insert_ne "_Year") by discriminate.
    unfold r3. now rewrite cell_insert_eq.
  - unfold col_CurrentStatus. rewrite (Hkeep "Current Status") by discriminate.
    apply cell_insert_eq.
  - intros _. unfold col_CurrentStatus, cleaned_row.
    rewrite (cell_insert_ne "_CurrentStatus" "Current Status") by discriminate.
    rewrite !cell_insert_eq. rewrite (Hkeep "Current Status") by discriminate.
    symmetry. apply clean_status_idem_str.
Qed.

Lemma loaded_roster_columns_witness :
  exists stats years s r,
    load_excel_data ∅ [] sample_roster None "alumni.xlsx" "full"
    = (Success stats, <["full" := s]> ∅, years) /\
    record_count stats = 3%nat /\
    In r (rows (data s)) /\
    cell "Current Status" r = "unemployed" /\
    cell "_CurrentStatus" r = "Unemployed" /\
    cell "_CurrentStatus" (cleaned_row r) = col_CurrentStatus (cleaned_row r).
Proof.
  destruct (loaded_roster_columns ∅ [] sample_roster None "alumni.xlsx" "full")
    as (stats & years & s & Hload & Hcount & _ & Hrows).
  - vm_compute. reflexivity.
  - assert (Hs : s = match (load_excel_data ∅ [] sample_roster None "alumni.xlsx"
                              "full").1.2 !! "full" with
                      | Some s0 => s0
                      | None => s
                      end).
    { rewrite Hload. cbn [fst snd]. rewrite lookup_insert_eq. reflexivity. }
    exists stats, years, s, (nth 1 (rows (data s)) ∅).
    split; [exact Hload|]. split; [rewrite Hcount; reflexivity|].
    assert (Hin : In (nth 1 (rows (data s)) ∅) (rows (data s))).
    { apply nth_In. rewrite Hs. vm_compute. lia. }
    split; [exact Hin|].
    split; [rewrite Hs; vm_compute; reflexivity|].
    split; [rewrite Hs; vm_compute; reflexivity|].
    apply (Hrows _ Hin). rewrite Hs. vm_compute. reflexivity.
Defined.

(** ** Loading a roster: the warning on the graduation years *)

Lemma filter_indexed_length (p : gmap string string -> bool)
    (l : list (gmap string string)) :
  length (List.filter (fun ir => p (snd ir)) (indexed l)) = length (List.filter p l).
Proof.
  unfold indexed. generalize 0%nat. induction l as [|r l IH]; intros a; [reflexivity|].
  cbn [length seq combine List.filter snd].
  destruct (p r); cbn [length]; now rewrite IH.
Qed.

Lemma in_indexed (l : list (gmap string string)) (ir : nat * gmap string string) :
  In ir (indexed l) -> In (snd ir) l.
Proof. destruct ir as [i r]. unfold indexed. apply in_combine_r. Qed.

Lemma unique_constant (x : string) (l : list string) :
  l <> [] -> (forall y, In y l -> y = x) -> unique l = [ x ].
Proof.
  intros Hl Hall. induction l as [|y l IH]; [congruence|].
  cbn [unique]. rewrite (Hall y (or_introl eq_refl)). f_equal.
  apply filter_none. intros z Hz. apply (proj1 (unique_In _ _)) in Hz.
  rewrite (Hall z (or_intror Hz)). now rewrite String.eqb_refl.
Qed.

Lemma dropna_In (name : string) (df : DataFrame) (r : gmap string string) (v : string) :
  In r (rows df) -> r !! name = Some v -> In v (dropna name df).
Proof.
  intros Hr Hv. unfold dropna. apply list_elem_of_In, list_elem_of_omap.
  exists r. split; [now apply list_elem_of_In|exact Hv].
Qed.

Lemma years_of_file (df : DataFrame) (O1 : option string) :
  has_column "Year/Semester of Graduation" df = true ->
  extract_graduation_years df O1
  = (merge_sort String.le
       (unique (map Py.strip (dropna "Year/Semester of Graduation" df))), []).
Proof. intros H. unfold extract_graduation_years. now rewrite H. Qed.

Lemma year_in_file (df : DataFrame) (r : gmap string string) :
  In r (rows df) -> without_year r = false ->
  In (Py.strip (cell "Year/Semester of Graduation" r))
    (merge_sort String.le
       (unique (map Py.strip (dropna "Year/Semester of Graduation" df)))).
Proof.
  intros Hr Hyear. unfold without_year in Hyear.
  destruct (r !! "Year/Semester of Graduation") as [v|] eqn:Hv; [|discriminate].
  apply list_elem_of_In.
  rewrite (merge_sort_Permutation String.le).
  apply list_elem_of_In. apply (proj2 (unique_In _ _)). apply in_map_iff.
  exists v. split.
  - unfold cell. now rewrite Hv.
  - now apply (dropna_In _ df r).
Qed.

Lemma loaded_year_cells (df : DataFrame) :
  exists g : gmap string string -> gmap string string,
    rows
      (assign "_CurrentStatus"
         (fun r => Py.capitalize (Py.lower (Py.strip (cell "Current Status" r))))
         (assign "_Year" (fun r => Py.strip (cell "Year/Semester of Graduation" r))
            (assign "_College" (fun r => Py.strip (cell "College" r))
               (fold_left
                  (fun df col =>
                     if has_column col df then apply_column col Py.strip df else df)
                  optional_columns
                  (fold_left (fun df col => apply_column col Py.strip df)
                     alumni_required_columns df)))))
    = map g (rows df) /\
    forall r, cell "_Year" (g r) = Py.strip (cell "Year/Semester of Graduation" r).
Proof.
  unfold assign at 1 2 3. cbn [rows].
  rewrite fold_strip_optional, !rows_fold_strip, !map_map.
  eexists. split; [reflexivity|]. intros r. cbv beta.
  rewrite (cell_insert_ne "_Year" "_CurrentStatus") by discriminate.
  rewrite cell_insert_eq.
  rewrite (cell_insert_ne "Year/Semester of Graduation" "_College") by discriminate.
  rewrite !strip_cells_cell.
  change (Py.mem "Year/Semester of Graduation" alumni_required_columns) with true.
  destruct (Py.mem _ (List.filter _ optional_columns)); cbv beta iota;
    rewrite ?strip_idem; reflexivity.
Qed.

(** X30: an alumni file in which no required or optional column comes
    twice is checked against the years read from the file itself, so the
    warning on the graduation years can only name the empty year: it
    counts records whose year cell is missing, never a year that is
    written in the file. *)
Theorem load_invalid_years (session_data : gmap string session)
    (graduation_years : list string) (df : DataFrame) (O1 : option string)
    (file_name session_id : string) :
  is_alumni_file df = true ->
  exists stats years s,
    load_excel_data session_data graduation_years df O1 file_name session_id
    = (Success stats, <[session_id := s]> session_data, years) /\
    forall n unique_invalid_years at_rows more,
      In (Invalid_graduation_years n unique_invalid_years at_rows more)
        (warnings stats) ->
      unique_invalid_years = [ "" ] /\
      (0 < n <= length (List.filter without_year (rows df)))%nat.
Proof.
  intros Hfile. destruct (alumni_file_columns df Hfile) as (Hbanner & Hreq & Hdup).
  unfold load_excel_data. cbv zeta. rewrite Hbanner.
  assert (Hmissing :
    List.filter (fun col => negb (has_column col df)) alumni_required_columns = []).
  { apply filter_none. intros col Hcol. now rewrite (Hreq col Hcol). }
  rewrite Hmissing. cbn [is_nil negb andb]. rewrite Hdup.
  rewrite years_of_file by (apply Hreq; cbn; tauto).
  cbv beta iota.
  set (loaded :=
         assign "_CurrentStatus"
           (fun r => Py.capitalize (Py.lower (Py.strip (cell "Current Status" r))))
           _).
  set (years_from_file := merge_sort String.le _).
  set (years_to_validate :=
         if is_nil (if negb (is_nil years_from_file) then years_from_file else _)
         then _ else _).
  set (invalid_years := List.filter _ (indexed (rows loaded))).
  assert (Hstatus : has_column "Current Status" loaded = true).
  { unfold loaded.
    rewrite !has_column_assign, fold_strip_optional, !has_column_fold_strip.
    rewrite (Hreq "Current Status"); [reflexivity|]. cbn. tauto. }
  rewrite Hstatus. eexists. eexists. eexists. split; [reflexivity|].
  cbn [warnings]. intros n vals at_rows more Hin.
  assert (Hfound :
    is_nil invalid_years = false /\
    n = length invalid_years /\
    vals = unique (map (fun ir => cell "_Year" (snd ir)) invalid_years)).
  { repeat match type of Hin with
           | context [if ?c then _ else _] => destruct c eqn:?; cbv beta iota in Hin
           end;
      rewrite ?in_app_iff in Hin; cbn [In map] in Hin;
      repeat match type of Hin with
             | _ \/ _ => destruct Hin as [Hin|Hin]
             end;
      lazymatch type of Hin with
      | False => destruct Hin
      | Invalid_graduation_years _ _ _ _ = _ =>
          pose proof (f_equal (fun w => match w with
                                        | Invalid_graduation_years m _ _ _ => m
                                        | _ => 0%nat
                                        end) Hin) as Hn;
          pose proof (f_equal (fun w => match w with
                                        | Invalid_graduation_years _ v _ _ => v
                                        | _ => []
                                        end) Hin) as Hv;
          cbv beta iota in Hn, Hv; clear Hin;
          (split; [|split; [symmetry; exact Hn|symmetry; exact Hv]]);
          match goal with
          | H : negb (is_nil ?l) = true |- is_nil ?l = false =>
              apply negb_true_iff in H; exact H
          end
      | _ = _ => discriminate Hin
      end. }
  destruct Hfound as (Hsome & -> & ->).
  assert (Hvalid : forall r, In r (rows df) -> without_year r = false ->
             Py.mem (Py.strip (cell "Year/Semester of Graduation" r))
               years_to_validate = true).
  { intros r Hr Hyear. pose proof (year_in_file df r Hr Hyear) as Hin'.
    fold years_from_file in Hin'. unfold years_to_validate.
    destruct years_from_file as [|y ys]; [destruct Hin'|].
    cbn [is_nil negb]. apply mem_true_In. exact Hin'. }
  destruct (loaded_year_cells df) as (g & Hrows & Hyear). fold loaded in Hrows.
  assert (Hbad : forall r, In r (rows df) ->
             negb (Py.mem (cell "_Year" (g r)) years_to_validate) = true ->
             without_year r = true /\ cell "_Year" (g r) = "").
  { intros r Hr Hbad. rewrite Hyear in *.
    destruct (without_year r) eqn:Hwithout.
    - split; [reflexivity|]. unfold without_year in Hwithout. unfold cell.
      destruct (r !! "Year/Semester of Graduation"); [discriminate|reflexivity].
    - rewrite (Hvalid r Hr Hwithout) in Hbad. discriminate. }
  split.
  - apply unique_constant.
    + destruct invalid_years; [discriminate|discriminate].
    + intros y (ir & <- & Hir)%in_map_iff.
      apply filter_In in Hir as [Hir Hfilter]. apply in_indexed in Hir.
      rewrite Hrows in Hir. apply in_map_iff in Hir as (r & Heq & Hr).
      rewrite <- Heq in *. exact (proj2 (Hbad r Hr Hfilter)).
  - split; [destruct invalid_years; [discriminate|cbn [length]; lia]|].
    unfold invalid_years.
    rewrite (filter_indexed_length
               (fun r => negb (Py.mem (cell "_Year" r) years_to_validate))).
    rewrite Hrows, filter_map_comm, length_map.
    apply filter_length_le. intros r Hr Hfilter.
    exact (proj1 (Hbad r Hr Hfilter)).
Qed.

(** The file in which the second graduate has no year: the warning is
    raised, for one record, at position 1, and names the empty year. *)
Lemma load_invalid_years_witness :
  exists stats years s,
    load_excel_data ∅ [] sample_roster_missing_year None "alumni.xlsx" "full"
    = (Success stats, <["full" := s]> ∅, years) /\
    In (Invalid_graduation_years 1 [ "" ] [ 1%nat ] false) (warnings stats) /\
    forall n unique_invalid_years at_rows more,
      In (Invalid_graduation_years n unique_invalid_years at_rows more)
        (warnings stats) ->
      unique_invalid_years = [ "" ] /\ (0 < n <= 1)%nat.
Proof.
  destruct (load_invalid_years ∅ [] sample_roster_missing_year None "alumni.xlsx"
              "full")
    as (stats & years & s & Hload & Hwarning).
  - vm_compute. reflexivity.
  - assert (Hstats :
      stats = match (load_excel_data ∅ [] sample_roster_missing_year None
                       "alumni.xlsx" "full").1.1 with
              | Success stats0 => stats0
              | Error _ => stats
              end).
    { rewrite Hload. reflexivity. }
    exists stats, years, s. split; [exact Hload|]. split.
    + rewrite Hstats. vm_compute. right. left. reflexivity.
    + intros n unique_invalid_years at_rows more Hin.
      destruct (Hwarning n unique_invalid_years at_rows more Hin) as [Hyears Hn].
      split; [exact Hyears|]. vm_compute in Hn. exact Hn.
Defined.
